(** * Command-buffer recording engine of the Intel ICD (icd/intel)

    A shallow embedding of the parts of [cmd_priv.h], [cmd_pipeline.c] and
    [cmd_barrier.c] that record synchronisation packets, relocations,
    binding tables, shader kernels and draws, together with the properties
    the specification states about them.

    Conventions.
    - C integers are [Z]; where the source computes in [uint32_t] and the
      wrap-around is observable, it is written out with [u32].
    - A pointer is a [Z] address, [0] being [NULL].
    - [assert(e)] aborts the recording: a function that asserts returns in
      the [result_of] type, [AssertFail] standing for the failed assertion.
      A read outside the bounds of an array has no defined behaviour; the
      model stops there in the same way ([in_bounds]).
    - A writer (batch, state, surface, instruction) keeps, besides [used]
      and [size], the list of regions written so far, each with its byte
      offset. *)

From stdpp Require Import base list.
From Stdlib Require Import ZArith Lia.

Local Open Scope Z_scope.

(** ** Constants of headers that are not part of the sources *)

(** Modelled from the spec: [genhw/genhw.h] is not among the sources.  The
    PIPE_CONTROL bits are the DW1 bit positions of the hardware
    documentation, several of which the comment in [gen6_PIPE_CONTROL]
    quotes ("Depth Cache Flush Enable ([0] of DW1)", "Stall at Pixel
    Scoreboard ([1] of DW1)", "Notify Enable ([8] of DW1)", "Render Target
    Cache Flush Enable ([12] of DW1)", "Depth Stall ([13] of DW1)"). *)
Module GENHW.
Definition GEN6_PIPE_CONTROL_DEPTH_CACHE_FLUSH : Z := Z.shiftl 1 0.
Definition GEN6_PIPE_CONTROL_PIXEL_SCOREBOARD_STALL : Z := Z.shiftl 1 1.
Definition GEN6_PIPE_CONTROL_CONSTANT_CACHE_INVALIDATE : Z := Z.shiftl 1 3.
Definition GEN6_PIPE_CONTROL_VF_CACHE_INVALIDATE : Z := Z.shiftl 1 4.
Definition GEN7_PIPE_CONTROL_DC_FLUSH : Z := Z.shiftl 1 5.
Definition GEN6_PIPE_CONTROL_NOTIFY_ENABLE : Z := Z.shiftl 1 8.
Definition GEN6_PIPE_CONTROL_TEXTURE_CACHE_INVALIDATE : Z := Z.shiftl 1 10.
Definition GEN6_PIPE_CONTROL_INSTRUCTION_CACHE_INVALIDATE : Z := Z.shiftl 1 11.
Definition GEN6_PIPE_CONTROL_RENDER_CACHE_FLUSH : Z := Z.shiftl 1 12.
Definition GEN6_PIPE_CONTROL_DEPTH_STALL : Z := Z.shiftl 1 13.
Definition GEN6_PIPE_CONTROL_WRITE__MASK : Z := 0xc000.
Definition GEN6_PIPE_CONTROL_WRITE_IMM : Z := Z.shiftl 1 14.
Definition GEN6_PIPE_CONTROL_WRITE_PS_DEPTH_COUNT : Z := Z.shiftl 2 14.
Definition GEN6_PIPE_CONTROL_WRITE_TIMESTAMP : Z := Z.shiftl 3 14.
Definition GEN6_PIPE_CONTROL_CS_STALL : Z := Z.shiftl 1 20.
Definition GEN6_PIPE_CONTROL_DW2_USE_GGTT : Z := Z.shiftl 1 2.

Definition GEN6_3DPRIM_POINTLIST : Z := 0x1.
Definition GEN6_3DPRIM_LINELIST : Z := 0x2.
Definition GEN6_3DPRIM_LINESTRIP : Z := 0x3.
Definition GEN6_3DPRIM_TRILIST : Z := 0x4.
Definition GEN6_3DPRIM_TRISTRIP : Z := 0x5.
Definition GEN6_3DPRIM_TRIFAN : Z := 0x6.
Definition GEN6_3DPRIM_RECTLIST : Z := 0xf.

Definition GEN6_ALIGNMENT_SURFACE_STATE : Z := 32.
Definition GEN6_ALIGNMENT_BINDING_TABLE_STATE : Z := 32.
End GENHW.
Import GENHW.

(** Modelled from the spec: [gpu.h] is not among the sources.  Hardware
    generations are ordered integers, [INTEL_GEN(gen)] being [gen * 100]. *)
Definition INTEL_GEN_6 : Z := 600.
Definition INTEL_GEN_7 : Z := 700.
Definition INTEL_GEN_7_5 : Z := 750.

(** Modelled from the spec: [kmd/winsys.h], [cmd.h] and [pipeline.h] are not
    among the sources; their flag enumerations are distinct single bits. *)
Definition INTEL_RELOC_GGTT : Z := Z.shiftl 1 1.
Definition INTEL_RELOC_WRITE : Z := Z.shiftl 1 2.

Definition INTEL_CMD_WA_GEN6_PRE_DEPTH_STALL_WRITE : Z := Z.shiftl 1 0.
Definition INTEL_CMD_WA_GEN6_PRE_COMMAND_SCOREBOARD_STALL : Z := Z.shiftl 1 1.
Definition INTEL_CMD_WA_GEN7_PRE_VS_DEPTH_STALL_WRITE : Z := Z.shiftl 1 2.
Definition INTEL_CMD_WA_GEN7_POST_COMMAND_CS_STALL : Z := Z.shiftl 1 3.
Definition INTEL_CMD_WA_GEN7_POST_COMMAND_DEPTH_STALL : Z := Z.shiftl 1 4.

Definition INTEL_SHADER_USE_VID : Z := Z.shiftl 1 0.

Definition SHADER_VERTEX_FLAG : Z := Z.shiftl 1 0.
Definition SHADER_TESS_CONTROL_FLAG : Z := Z.shiftl 1 1.
Definition SHADER_TESS_EVAL_FLAG : Z := Z.shiftl 1 2.
Definition SHADER_GEOMETRY_FLAG : Z := Z.shiftl 1 3.
Definition SHADER_FRAGMENT_FLAG : Z := Z.shiftl 1 4.

(** Modelled from the spec: [vulkan.h] is not among the sources; the access
    and stage bits are those of the Vulkan API. *)
Module VK.
Definition VK_ACCESS_VERTEX_ATTRIBUTE_READ_BIT : Z := 0x4.
Definition VK_ACCESS_UNIFORM_READ_BIT : Z := 0x8.
Definition VK_ACCESS_SHADER_READ_BIT : Z := 0x20.
Definition VK_ACCESS_SHADER_WRITE_BIT : Z := 0x40.
Definition VK_ACCESS_COLOR_ATTACHMENT_WRITE_BIT : Z := 0x100.
Definition VK_ACCESS_DEPTH_STENCIL_ATTACHMENT_WRITE_BIT : Z := 0x400.
Definition VK_ACCESS_HOST_WRITE_BIT : Z := 0x4000.
Definition VK_PIPELINE_STAGE_TOP_OF_PIPE_BIT : Z := 0x1.
Definition VK_PIPELINE_STAGE_HOST_BIT : Z := 0x4000.
End VK.
Import VK.

Inductive VkResult :=
| VK_SUCCESS
| VK_ERROR_OUT_OF_HOST_MEMORY
| VK_ERROR_OUT_OF_DEVICE_MEMORY
| VK_ERROR_VALIDATION_FAILED_EXT.

Inductive VkIndexType :=
| VK_INDEX_TYPE_UINT16
| VK_INDEX_TYPE_UINT32
| VK_INDEX_TYPE_other (v : Z).

Inductive VkImageLayout :=
| VK_IMAGE_LAYOUT_UNDEFINED
| VK_IMAGE_LAYOUT_GENERAL
| VK_IMAGE_LAYOUT_COLOR_ATTACHMENT_OPTIMAL
| VK_IMAGE_LAYOUT_DEPTH_STENCIL_ATTACHMENT_OPTIMAL
| VK_IMAGE_LAYOUT_DEPTH_STENCIL_READ_ONLY_OPTIMAL
| VK_IMAGE_LAYOUT_SHADER_READ_ONLY_OPTIMAL
| VK_IMAGE_LAYOUT_TRANSFER_SRC_OPTIMAL
| VK_IMAGE_LAYOUT_TRANSFER_DST_OPTIMAL
| VK_IMAGE_LAYOUT_PREINITIALIZED
| VK_IMAGE_LAYOUT_PRESENT_SRC_KHR.

(** ** Machine arithmetic *)

Definition u32 (x : Z) : Z := x mod 2 ^ 32.

(** [(a & b) != 0] *)
Definition has (a b : Z) : bool := negb (Z.land a b =? 0).

Definition u_is_pow2 (x : Z) : bool := Z.land x (x - 1) =? 0.

Definition u_align (val alignment : Z) : Z :=
  Z.land (val + alignment - 1) (Z.lnot (alignment - 1)).

(** ** Data model *)

Inductive intel_cmd_writer_type :=
| INTEL_CMD_WRITER_BATCH
| INTEL_CMD_WRITER_STATE
| INTEL_CMD_WRITER_SURFACE
| INTEL_CMD_WRITER_INSTRUCTION.

Inductive intel_cmd_item_type :=
| INTEL_CMD_ITEM_BLOB
| INTEL_CMD_ITEM_SURFACE
| INTEL_CMD_ITEM_BINDING_TABLE
| INTEL_CMD_ITEM_KERNEL.

(** The commands a batch holds.  Those the properties below speak about
    carry the dwords their emitter writes; [PKT_OTHER] is any other
    command. *)
Inductive packet :=
| PKT_PIPE_CONTROL (dw1 imm : Z)
| PKT_GEN6_3DPRIMITIVE (prim_type : Z) (indexed : bool)
    (vertex_count vertex_start instance_count instance_start vertex_base : Z)
| PKT_GEN7_3DPRIMITIVE (prim_type : Z) (indexed : bool)
    (vertex_count vertex_start instance_count instance_start vertex_base : Z)
| PKT_3DSTATE_INDEX_BUFFER (type : VkIndexType) (enable_cut_index : bool)
| PKT_3DSTATE_VF (enable_cut_index : bool) (cut_index : Z)
| PKT_STATE_BASE_ADDRESS
| PKT_OTHER (dw : list Z).

(** What one reservation of a writer was filled with. *)
Inductive item :=
| ITEM_PACKET (p : packet)
| ITEM_STATE (type : intel_cmd_item_type) (dw : list Z)
| ITEM_CODE (kernel : list Z).

Record intel_cmd_writer := mk_writer {
  w_size : Z;
  w_used : Z;
  w_sba_offset : Z;
  w_items : list (Z * item)
}.

(** The [intptr_t target] of a relocation: a bo, or one of the writers
    (then flagged [INTEL_CMD_RELOC_TARGET_IS_WRITER]). *)
Inductive reloc_target_t :=
| TARGET_BO (bo : Z)
| TARGET_WRITER (writer : intel_cmd_writer_type).

Definition INTEL_CMD_RELOC_TARGET_IS_WRITER : Z := Z.shiftl 1 31.

Record intel_cmd_reloc := mk_reloc {
  reloc_which : intel_cmd_writer_type;
  reloc_offset : Z;
  reloc_target : reloc_target_t;
  reloc_target_offset : Z;
  reloc_flags : Z
}.

Inductive intel_pipeline_rmap_slot_type :=
| INTEL_PIPELINE_RMAP_UNUSED
| INTEL_PIPELINE_RMAP_RT
| INTEL_PIPELINE_RMAP_SURFACE
| INTEL_PIPELINE_RMAP_SAMPLER
| INTEL_PIPELINE_RMAP_other (v : Z).

Record intel_desc_offset := mk_desc_offset {
  do_surface : Z;
  do_sampler : Z
}.

Record intel_pipeline_rmap_slot := mk_slot {
  slot_type : intel_pipeline_rmap_slot_type;
  slot_index : Z;
  slot_surface_offset : intel_desc_offset;
  slot_dynamic_offset_index : Z
}.

Record intel_pipeline_rmap := mk_rmap {
  rt_count : Z;
  texture_resource_count : Z;
  resource_count : Z;
  uav_count : Z;
  sampler_count : Z;
  slots : list intel_pipeline_rmap_slot
}.

(** [sh_addr] is the address of the [struct intel_pipeline_shader]. *)
Record intel_pipeline_shader := mk_shader {
  sh_addr : Z;
  codeSize : Z;
  pCode : list Z;
  sh_rmap : option intel_pipeline_rmap;
  sh_uses : Z;
  per_thread_scratch_size : Z
}.

Record intel_pipeline := mk_pipeline {
  active_shaders : Z;
  vs : intel_pipeline_shader;
  tcs : intel_pipeline_shader;
  tes : intel_pipeline_shader;
  gs : intel_pipeline_shader;
  fs : intel_pipeline_shader;
  prim_type : Z;
  primitive_restart : bool;
  primitive_restart_index : Z;
  p_wa_flags : Z;
  p_cmd_len : Z;
  p_cmds : list Z;
  layout_count : Z;
  total_dynamic_desc_count : Z
}.

Record intel_att_view := mk_att_view {
  av_cmd_len : Z;
  att_cmd : list Z;
  av_bo : Z
}.

Record intel_fb := mk_fb {
  fb_view_count : Z;
  fb_views : list (option intel_att_view);
  fb_width : Z;
  fb_height : Z
}.

Record intel_render_pass_subpass := mk_subpass {
  color_count : Z;
  color_indices : list Z;
  ds_index : Z;
  ds_optimal : bool
}.

(** What [intel_desc_region_read_surface] hands back for one descriptor:
    [sd_mem] is the bo of the backing memory, [None] for an empty entry. *)
Record intel_desc_surface := mk_desc_surface {
  sd_mem : option Z;
  sd_read_only : bool;
  sd_cmd : list Z;
  sd_cmd_len : Z
}.

Record intel_null_view := mk_null_view {
  nv_cmd_len : Z;
  nv_cmd : list Z
}.

Inductive VkShaderStageFlagBits :=
| VK_SHADER_STAGE_VERTEX_BIT
| VK_SHADER_STAGE_TESSELLATION_CONTROL_BIT
| VK_SHADER_STAGE_TESSELLATION_EVALUATION_BIT
| VK_SHADER_STAGE_GEOMETRY_BIT
| VK_SHADER_STAGE_FRAGMENT_BIT.

(** The device side of a command buffer ([cmd->dev], [intel_debug]).
    [desc_region], [dev_null_view] and [intel_alloc_ok] stand for
    [intel_desc_region_read_surface], [intel_null_view_init] and the outcome
    of [intel_alloc], whose definitions are not among the sources. *)
Record intel_dev := mk_dev {
  gpu_gen : Z;
  debug_nocache : bool;
  desc_region : intel_desc_offset -> VkShaderStageFlagBits -> intel_desc_surface;
  dev_null_view : intel_null_view;
  dev_meta_shader : Z -> intel_pipeline_shader;
  intel_alloc_ok : Z -> bool
}.

Record intel_cmd_dset_data := mk_dset_data {
  set_offsets : list intel_desc_offset;
  set_offset_count : Z;
  dynamic_offsets : list Z;
  dynamic_offset_count : Z
}.

Record intel_cmd_shader_cache := mk_shader_cache {
  sc_entries : list (Z * Z);
  sc_used : Z;
  sc_count : Z
}.

Record intel_buf := mk_buf {
  buf_size : Z;
  buf_bo : Z
}.

Inductive intel_cmd_meta_mode :=
| INTEL_CMD_META_VS_POINTS
| INTEL_CMD_META_FS_RECT
| INTEL_CMD_META_DEPTH_STENCIL_RECT.

Record intel_cmd_meta := mk_meta {
  meta_mode : intel_cmd_meta_mode;
  meta_shader_id : Z;
  meta_dst_valid : bool;
  meta_width : Z;
  meta_height : Z
}.

Record intel_cmd_bind := mk_bind {
  bind_meta : option intel_cmd_meta;
  pipeline_graphics : intel_pipeline;
  vs_offset : Z;
  tcs_offset : Z;
  tes_offset : Z;
  gs_offset : Z;
  fs_offset : Z;
  index_buf : intel_buf;
  index_offset : Z;
  index_type : VkIndexType;
  render_pass_subpass : intel_render_pass_subpass;
  bind_fb : intel_fb;
  render_pass_changed : bool;
  graphics_data : intel_cmd_dset_data;
  shader_cache : intel_cmd_shader_cache;
  draw_count : Z;
  wa_flags : Z
}.

Record intel_cmd := mk_cmd {
  dev : intel_dev;
  scratch_bo : Z;
  bind : intel_cmd_bind;
  w_batch : intel_cmd_writer;
  w_state : intel_cmd_writer;
  w_surface : intel_cmd_writer;
  w_instruction : intel_cmd_writer;
  relocs : list intel_cmd_reloc;
  reloc_used : Z;
  reloc_count : Z;
  result : VkResult
}.

Definition writers (cmd : intel_cmd) (which : intel_cmd_writer_type) : intel_cmd_writer :=
  match which with
  | INTEL_CMD_WRITER_BATCH => w_batch cmd
  | INTEL_CMD_WRITER_STATE => w_state cmd
  | INTEL_CMD_WRITER_SURFACE => w_surface cmd
  | INTEL_CMD_WRITER_INSTRUCTION => w_instruction cmd
  end.

Definition set_writer (which : intel_cmd_writer_type) (w : intel_cmd_writer)
    (c : intel_cmd) : intel_cmd :=
  match which with
  | INTEL_CMD_WRITER_BATCH =>
      mk_cmd (dev c) (scratch_bo c) (bind c) w (w_state c) (w_surface c)
        (w_instruction c) (relocs c) (reloc_used c) (reloc_count c) (result c)
  | INTEL_CMD_WRITER_STATE =>
      mk_cmd (dev c) (scratch_bo c) (bind c) (w_batch c) w (w_surface c)
        (w_instruction c) (relocs c) (reloc_used c) (reloc_count c) (result c)
  | INTEL_CMD_WRITER_SURFACE =>
      mk_cmd (dev c) (scratch_bo c) (bind c) (w_batch c) (w_state c) w
        (w_instruction c) (relocs c) (reloc_used c) (reloc_count c) (result c)
  | INTEL_CMD_WRITER_INSTRUCTION =>
      mk_cmd (dev c) (scratch_bo c) (bind c) (w_batch c) (w_state c) (w_surface c)
        w (relocs c) (reloc_used c) (reloc_count c) (result c)
  end.

Definition set_bind (b : intel_cmd_bind) (c : intel_cmd) : intel_cmd :=
  mk_cmd (dev c) (scratch_bo c) b (w_batch c) (w_state c) (w_surface c)
    (w_instruction c) (relocs c) (reloc_used c) (reloc_count c) (result c).

Definition set_relocs (l : list intel_cmd_reloc) (c : intel_cmd) : intel_cmd :=
  mk_cmd (dev c) (scratch_bo c) (bind c) (w_batch c) (w_state c) (w_surface c)
    (w_instruction c) l (reloc_used c) (reloc_count c) (result c).

Definition set_reloc_used (n : Z) (c : intel_cmd) : intel_cmd :=
  mk_cmd (dev c) (scratch_bo c) (bind c) (w_batch c) (w_state c) (w_surface c)
    (w_instruction c) (relocs c) n (reloc_count c) (result c).

Definition set_result (r : VkResult) (c : intel_cmd) : intel_cmd :=
  mk_cmd (dev c) (scratch_bo c) (bind c) (w_batch c) (w_state c) (w_surface c)
    (w_instruction c) (relocs c) (reloc_used c) (reloc_count c) r.

Definition set_draw_count (n : Z) (b : intel_cmd_bind) : intel_cmd_bind :=
  mk_bind (bind_meta b) (pipeline_graphics b) (vs_offset b) (tcs_offset b) (tes_offset b)
    (gs_offset b) (fs_offset b) (index_buf b) (index_offset b) (index_type b)
    (render_pass_subpass b) (bind_fb b) (render_pass_changed b)
    (graphics_data b) (shader_cache b) n (wa_flags b).

Definition set_wa_flags (f : Z) (b : intel_cmd_bind) : intel_cmd_bind :=
  mk_bind (bind_meta b) (pipeline_graphics b) (vs_offset b) (tcs_offset b) (tes_offset b)
    (gs_offset b) (fs_offset b) (index_buf b) (index_offset b) (index_type b)
    (render_pass_subpass b) (bind_fb b) (render_pass_changed b)
    (graphics_data b) (shader_cache b) (draw_count b) f.

Definition set_render_pass_changed (v : bool) (b : intel_cmd_bind) : intel_cmd_bind :=
  mk_bind (bind_meta b) (pipeline_graphics b) (vs_offset b) (tcs_offset b) (tes_offset b)
    (gs_offset b) (fs_offset b) (index_buf b) (index_offset b) (index_type b)
    (render_pass_subpass b) (bind_fb b) v
    (graphics_data b) (shader_cache b) (draw_count b) (wa_flags b).

Definition set_shader_cache (sc : intel_cmd_shader_cache) (b : intel_cmd_bind) : intel_cmd_bind :=
  mk_bind (bind_meta b) (pipeline_graphics b) (vs_offset b) (tcs_offset b) (tes_offset b)
    (gs_offset b) (fs_offset b) (index_buf b) (index_offset b) (index_type b)
    (render_pass_subpass b) (bind_fb b) (render_pass_changed b)
    (graphics_data b) sc (draw_count b) (wa_flags b).

Definition set_pipeline_graphics (p : intel_pipeline) (b : intel_cmd_bind) : intel_cmd_bind :=
  mk_bind (bind_meta b) p (vs_offset b) (tcs_offset b) (tes_offset b)
    (gs_offset b) (fs_offset b) (index_buf b) (index_offset b) (index_type b)
    (render_pass_subpass b) (bind_fb b) (render_pass_changed b)
    (graphics_data b) (shader_cache b) (draw_count b) (wa_flags b).

Definition set_graphics_data (d : intel_cmd_dset_data) (b : intel_cmd_bind) : intel_cmd_bind :=
  mk_bind (bind_meta b) (pipeline_graphics b) (vs_offset b) (tcs_offset b) (tes_offset b)
    (gs_offset b) (fs_offset b) (index_buf b) (index_offset b) (index_type b)
    (render_pass_subpass b) (bind_fb b) (render_pass_changed b)
    d (shader_cache b) (draw_count b) (wa_flags b).

Definition set_bind_meta (m : option intel_cmd_meta) (b : intel_cmd_bind) : intel_cmd_bind :=
  mk_bind m (pipeline_graphics b) (vs_offset b) (tcs_offset b) (tes_offset b)
    (gs_offset b) (fs_offset b) (index_buf b) (index_offset b) (index_type b)
    (render_pass_subpass b) (bind_fb b) (render_pass_changed b)
    (graphics_data b) (shader_cache b) (draw_count b) (wa_flags b).

Definition set_shader_offsets (v t e g f : Z) (b : intel_cmd_bind) : intel_cmd_bind :=
  mk_bind (bind_meta b) (pipeline_graphics b) v t e g f (index_buf b) (index_offset b) (index_type b)
    (render_pass_subpass b) (bind_fb b) (render_pass_changed b)
    (graphics_data b) (shader_cache b) (draw_count b) (wa_flags b).

(** ** Recording monad: state passing with assertion failure *)

Inductive result_of (A : Type) :=
| Ok (a : A)
| AssertFail.
Arguments Ok {A} a.
Arguments AssertFail {A}.

Definition M (A : Type) : Type := intel_cmd -> result_of (A * intel_cmd).

Definition ret {A} (a : A) : M A := fun c => Ok (a, c).

Definition bind_m {A B} (m : M A) (k : A -> M B) : M B :=
  fun c => match m c with
           | Ok (a, c') => k a c'
           | AssertFail => AssertFail
           end.

Definition get : M intel_cmd := fun c => Ok (c, c).
Definition modify (f : intel_cmd -> intel_cmd) : M unit := fun c => Ok (tt, f c).
Definition assert (b : bool) : M unit := fun c => if b then Ok (tt, c) else AssertFail.
Definition when (b : bool) (m : M unit) : M unit := if b then m else ret tt.

(** [a[i]], for [i] within the bounds of [a]. *)
Definition in_bounds {A} (a : list A) (i : Z) : M A :=
  fun c => if i <? 0 then AssertFail
           else match a !! Z.to_nat i with
                | Some x => Ok (x, c)
                | None => AssertFail
                end.

Notation "'let*' x ':=' m 'in' k" := (bind_m m (fun x => k))
  (at level 10, x name, m at level 100, k at level 200).
Notation "'exec' m 'in' k" := (bind_m m (fun _ => k))
  (at level 10, m at level 100, k at level 200).

(** The state a recording is left in, when no assertion failed. *)
Definition run {A} (m : M A) (c : intel_cmd) : option intel_cmd :=
  match m c with
  | Ok (_, c') => Some c'
  | AssertFail => None
  end.

(** ** cmd_priv.h *)

Definition cmd_gen (cmd : intel_cmd) : Z := gpu_gen (dev cmd).

(** [CMD_ASSERT(cmd, min_gen, max_gen)] *)
Definition CMD_ASSERT (min_gen max_gen : Z) : M unit :=
  let* cmd := get in
  assert ((min_gen <=? cmd_gen cmd) && (cmd_gen cmd <=? max_gen)).

Definition cmd_fail (res : VkResult) : M unit := modify (set_result res).

Definition cmd_reserve_reloc (reloc_len : Z) : M unit :=
  let* cmd := get in
  exec (* fail silently *)
       when (u32 (reloc_used cmd + reloc_len) >? reloc_count cmd)
         (exec modify (set_reloc_used 0) in
          cmd_fail VK_ERROR_VALIDATION_FAILED_EXT) in
  let* cmd := get in
  assert (u32 (reloc_used cmd + reloc_len) <=? reloc_count cmd).

(** Modelled from the spec: [cmd_writer_grow] is defined in [cmd.c], which
    is not among the sources.  By the Writer/Allocator contract the region
    is grown to hold [new_size] bytes, its contents preserved. *)
Definition cmd_writer_grow (which : intel_cmd_writer_type) (new_size : Z) : M unit :=
  modify (fun cmd =>
    let w := writers cmd which in
    set_writer which
      (mk_writer (Z.max new_size (w_size w)) (w_used w) (w_sba_offset w) (w_items w)) cmd).

Definition cmd_writer_reserve (which : intel_cmd_writer_type)
    (alignment size : Z) : M Z :=
  let* cmd := get in
  exec assert (negb (alignment =? 0) && u_is_pow2 alignment) in
  let offset := u_align (w_used (writers cmd which)) alignment in
  if offset + size >? w_size (writers cmd which) then
    exec cmd_writer_grow which (offset + size) in
    let* cmd := get in
    (* align again in case of errors *)
    let offset := u_align (w_used (writers cmd which)) alignment in
    exec assert (offset + size <=? w_size (writers cmd which)) in
    ret offset
  else ret offset.

(** [writer->used = offset + size], the region being filled with [it]. *)
Definition writer_commit (which : intel_cmd_writer_type) (offset size : Z)
    (it : item) : M unit :=
  modify (fun cmd =>
    let w := writers cmd which in
    set_writer which
      (mk_writer (w_size w) (offset + size) (w_sba_offset w)
         (w_items w ++ [(offset, it)])) cmd).

Definition cmd_writer_reloc (which : intel_cmd_writer_type) (offset : Z)
    (target : reloc_target_t) (target_offset flags : Z) : M unit :=
  let* cmd := get in
  exec assert (reloc_used cmd <? reloc_count cmd) in
  exec modify (set_relocs
         (<[Z.to_nat (reloc_used cmd) :=
              mk_reloc which offset target target_offset flags]> (relocs cmd))) in
  modify (set_reloc_used (u32 (reloc_used cmd + 1))).

(** [cmd_surface_write]: [len] dwords of [dw] go to the surface buffer. *)
Definition cmd_surface_write (it : intel_cmd_item_type) (alignment len : Z)
    (dw : list Z) : M Z :=
  let which := INTEL_CMD_WRITER_SURFACE in
  let size := u32 (Z.shiftl len 2) in
  let* reserved := cmd_writer_reserve which alignment size in
  let offset := u32 reserved in
  exec assert (match it with
               | INTEL_CMD_ITEM_SURFACE | INTEL_CMD_ITEM_BINDING_TABLE => true
               | _ => false
               end) in
  (* all states are at least aligned to 32-bytes *)
  exec assert (alignment mod 32 =? 0) in
  exec writer_commit which offset size (ITEM_STATE it (take (Z.to_nat len) dw)) in
  ret offset.

Definition cmd_surface_reloc (offset dw_index bo bo_offset reloc_flags : Z) : M unit :=
  cmd_writer_reloc INTEL_CMD_WRITER_SURFACE
    (u32 (offset + Z.shiftl dw_index 2)) (TARGET_BO bo) bo_offset reloc_flags.

(** [cmd_instruction_write]: the kernel is followed by 128 reserved bytes
    that do not count as used. *)
Definition cmd_instruction_write (size : Z) (kernel : list Z) : M Z :=
  let which := INTEL_CMD_WRITER_INSTRUCTION in
  let reserved_size := size + 128 in
  (* kernels are aligned to 64 bytes *)
  let alignment := 64 in
  let* offset := cmd_writer_reserve which alignment reserved_size in
  exec writer_commit which offset size (ITEM_CODE (take (Z.to_nat size) kernel)) in
  ret (u32 offset).

(** [cmd_batch_pointer] together with the stores into the returned
    pointer: the [len] dwords reserved are those of packet [p]. *)
Definition cmd_batch_pointer (len : Z) (p : packet) : M Z :=
  let which := INTEL_CMD_WRITER_BATCH in
  let alignment := 1 in
  let size := u32 (Z.shiftl len 2) in
  let* offset := cmd_writer_reserve which alignment size in
  exec assert (offset mod 4 =? 0) in
  exec writer_commit which offset size (ITEM_PACKET p) in
  ret (u32 (Z.shiftr offset 2)).

Definition cmd_batch_reloc (pos bo bo_offset reloc_flags : Z) : M unit :=
  cmd_writer_reloc INTEL_CMD_WRITER_BATCH (Z.shiftl pos 2) (TARGET_BO bo)
    bo_offset reloc_flags.

Definition cmd_batch_reloc_writer (pos : Z) (writer : intel_cmd_writer_type)
    (writer_offset : Z) : M unit :=
  cmd_writer_reloc INTEL_CMD_WRITER_BATCH (Z.shiftl pos 2) (TARGET_WRITER writer)
    writer_offset INTEL_CMD_RELOC_TARGET_IS_WRITER.

(** ** cmd_pipeline.c: PIPE_CONTROL and the workarounds *)

Definition gen6_PIPE_CONTROL (dw1 bo bo_offset imm : Z) : M unit :=
  let cmd_len := 5 in
  let reloc_flags := INTEL_RELOC_WRITE in
  let* cmd := get in
  exec CMD_ASSERT INTEL_GEN_6 INTEL_GEN_7_5 in
  exec assert (bo_offset mod 8 =? 0) in
  exec when (has dw1 GEN6_PIPE_CONTROL_CS_STALL)
    (let bit_test := Z.lor (Z.lor (Z.lor GEN6_PIPE_CONTROL_RENDER_CACHE_FLUSH
                                       GEN6_PIPE_CONTROL_DEPTH_CACHE_FLUSH)
                                GEN6_PIPE_CONTROL_PIXEL_SCOREBOARD_STALL)
                         GEN6_PIPE_CONTROL_DEPTH_STALL in
     (* post-sync op *)
     let bit_test := Z.lor bit_test
                       (Z.lor (Z.lor GEN6_PIPE_CONTROL_WRITE_IMM
                                     GEN6_PIPE_CONTROL_WRITE_PS_DEPTH_COUNT)
                              GEN6_PIPE_CONTROL_WRITE_TIMESTAMP) in
     let bit_test := if cmd_gen cmd =? INTEL_GEN_6
                     then Z.lor bit_test GEN6_PIPE_CONTROL_NOTIFY_ENABLE
                     else bit_test in
     assert (has dw1 bit_test)) in
  exec when (has dw1 GEN6_PIPE_CONTROL_DEPTH_STALL)
    (assert (negb (has dw1 (Z.lor GEN6_PIPE_CONTROL_RENDER_CACHE_FLUSH
                                  GEN6_PIPE_CONTROL_DEPTH_CACHE_FLUSH)))) in
  let ggtt := (cmd_gen cmd =? INTEL_GEN_6) && negb (bo =? 0) in
  let bo_offset := if ggtt then Z.lor bo_offset GEN6_PIPE_CONTROL_DW2_USE_GGTT
                   else bo_offset in
  let reloc_flags := if ggtt then Z.lor reloc_flags INTEL_RELOC_GGTT
                     else reloc_flags in
  let* pos := cmd_batch_pointer cmd_len (PKT_PIPE_CONTROL dw1 imm) in
  when (negb (bo =? 0))
    (exec cmd_reserve_reloc 1 in
     cmd_batch_reloc (pos + 2) bo bo_offset reloc_flags).

Definition cmd_wa_gen6_pre_depth_stall_write : M unit :=
  let* cmd := get in
  exec CMD_ASSERT INTEL_GEN_6 INTEL_GEN_7_5 in
  if draw_count (bind cmd) =? 0 then ret tt
  else if has (wa_flags (bind cmd)) INTEL_CMD_WA_GEN6_PRE_DEPTH_STALL_WRITE then ret tt
  else
    exec modify (fun cmd =>
           set_bind (set_wa_flags
             (Z.lor (wa_flags (bind cmd)) INTEL_CMD_WA_GEN6_PRE_DEPTH_STALL_WRITE)
             (bind cmd)) cmd) in
    exec gen6_PIPE_CONTROL
           (Z.lor GEN6_PIPE_CONTROL_CS_STALL GEN6_PIPE_CONTROL_PIXEL_SCOREBOARD_STALL)
           0 0 0 in
    gen6_PIPE_CONTROL GEN6_PIPE_CONTROL_WRITE_IMM (scratch_bo cmd) 0 0.

Definition cmd_wa_gen6_pre_command_scoreboard_stall : M unit :=
  let* cmd := get in
  exec CMD_ASSERT INTEL_GEN_6 INTEL_GEN_7_5 in
  if draw_count (bind cmd) =? 0 then ret tt
  else gen6_PIPE_CONTROL GEN6_PIPE_CONTROL_PIXEL_SCOREBOARD_STALL 0 0 0.

Definition cmd_wa_gen7_pre_vs_depth_stall_write : M unit :=
  let* cmd := get in
  exec CMD_ASSERT INTEL_GEN_7 INTEL_GEN_7_5 in
  if draw_count (bind cmd) =? 0 then ret tt
  else
    exec cmd_wa_gen6_pre_depth_stall_write in
    gen6_PIPE_CONTROL
      (Z.lor GEN6_PIPE_CONTROL_DEPTH_STALL GEN6_PIPE_CONTROL_WRITE_IMM)
      (scratch_bo cmd) 0 0.

Definition cmd_wa_gen7_post_command_cs_stall : M unit :=
  exec CMD_ASSERT INTEL_GEN_7 INTEL_GEN_7_5 in
  gen6_PIPE_CONTROL
    (Z.lor GEN6_PIPE_CONTROL_CS_STALL GEN6_PIPE_CONTROL_PIXEL_SCOREBOARD_STALL)
    0 0 0.

Definition cmd_wa_gen7_post_command_depth_stall : M unit :=
  exec CMD_ASSERT INTEL_GEN_7 INTEL_GEN_7_5 in
  exec cmd_wa_gen6_pre_depth_stall_write in
  gen6_PIPE_CONTROL GEN6_PIPE_CONTROL_DEPTH_STALL 0 0 0.

Definition cmd_wa_gen6_pre_multisample_depth_flush : M unit :=
  let* cmd := get in
  exec CMD_ASSERT INTEL_GEN_6 INTEL_GEN_7_5 in
  if draw_count (bind cmd) =? 0 then ret tt
  else gen6_PIPE_CONTROL
         (Z.lor GEN6_PIPE_CONTROL_DEPTH_CACHE_FLUSH GEN6_PIPE_CONTROL_CS_STALL)
         0 0 0.

Definition cmd_wa_gen6_pre_ds_flush : M unit :=
  let* cmd := get in
  exec CMD_ASSERT INTEL_GEN_6 INTEL_GEN_7_5 in
  if draw_count (bind cmd) =? 0 then ret tt
  else
    exec cmd_wa_gen6_pre_depth_stall_write in
    exec gen6_PIPE_CONTROL GEN6_PIPE_CONTROL_DEPTH_STALL 0 0 0 in
    exec gen6_PIPE_CONTROL GEN6_PIPE_CONTROL_DEPTH_CACHE_FLUSH 0 0 0 in
    gen6_PIPE_CONTROL GEN6_PIPE_CONTROL_DEPTH_STALL 0 0 0.

Definition cmd_batch_flush (pipe_control_dw0 : Z) : M unit :=
  let* cmd := get in
  if pipe_control_dw0 =? 0 then ret tt
  else if draw_count (bind cmd) =? 0 then ret tt
  else
    exec assert (negb (has pipe_control_dw0 GEN6_PIPE_CONTROL_WRITE__MASK)) in
    exec when (has pipe_control_dw0 GEN6_PIPE_CONTROL_RENDER_CACHE_FLUSH)
           cmd_wa_gen6_pre_depth_stall_write in
    let pipe_control_dw0 :=
      if has pipe_control_dw0 GEN6_PIPE_CONTROL_CS_STALL &&
         negb (has pipe_control_dw0
                 (Z.lor (Z.lor (Z.lor GEN6_PIPE_CONTROL_RENDER_CACHE_FLUSH
                                      GEN6_PIPE_CONTROL_DEPTH_CACHE_FLUSH)
                               GEN6_PIPE_CONTROL_PIXEL_SCOREBOARD_STALL)
                        GEN6_PIPE_CONTROL_DEPTH_STALL))
      then Z.lor pipe_control_dw0 GEN6_PIPE_CONTROL_PIXEL_SCOREBOARD_STALL
      else pipe_control_dw0 in
    gen6_PIPE_CONTROL pipe_control_dw0 0 0 0.

Definition cmd_batch_flush_all : M unit :=
  cmd_batch_flush
    (Z.lor (Z.lor (Z.lor (Z.lor (Z.lor
       GEN6_PIPE_CONTROL_INSTRUCTION_CACHE_INVALIDATE
       GEN6_PIPE_CONTROL_RENDER_CACHE_FLUSH)
       GEN6_PIPE_CONTROL_DEPTH_CACHE_FLUSH)
       GEN6_PIPE_CONTROL_VF_CACHE_INVALIDATE)
       GEN6_PIPE_CONTROL_TEXTURE_CACHE_INVALIDATE)
       GEN6_PIPE_CONTROL_CS_STALL).

(** ** cmd_barrier.c *)

Definition READ_OP : Z := Z.shiftl 1 0.
Definition WRITE_OP : Z := Z.shiftl 1 1.
Definition HIZ_OP : Z := Z.shiftl 1 2.

Definition MEM_CACHE : Z := Z.shiftl 1 0.
Definition DATA_READ_CACHE : Z := Z.shiftl 1 1.
Definition DATA_WRITE_CACHE : Z := Z.shiftl 1 2.
Definition RENDER_CACHE : Z := Z.shiftl 1 3.
Definition SAMPLER_CACHE : Z := Z.shiftl 1 4.

Definition img_get_layout_ops (layout : VkImageLayout) : Z :=
  match layout with
  | VK_IMAGE_LAYOUT_GENERAL
  | VK_IMAGE_LAYOUT_PRESENT_SRC_KHR => Z.lor READ_OP WRITE_OP
  | VK_IMAGE_LAYOUT_COLOR_ATTACHMENT_OPTIMAL => Z.lor READ_OP WRITE_OP
  | VK_IMAGE_LAYOUT_DEPTH_STENCIL_ATTACHMENT_OPTIMAL =>
      Z.lor (Z.lor READ_OP WRITE_OP) HIZ_OP
  | VK_IMAGE_LAYOUT_DEPTH_STENCIL_READ_ONLY_OPTIMAL => Z.lor READ_OP HIZ_OP
  | VK_IMAGE_LAYOUT_SHADER_READ_ONLY_OPTIMAL => READ_OP
  | VK_IMAGE_LAYOUT_TRANSFER_SRC_OPTIMAL => READ_OP
  | VK_IMAGE_LAYOUT_TRANSFER_DST_OPTIMAL => WRITE_OP
  | VK_IMAGE_LAYOUT_UNDEFINED
  | _ => 0
  end.

Definition img_get_layout_caches (layout : VkImageLayout) : Z :=
  match layout with
  | VK_IMAGE_LAYOUT_GENERAL
  | VK_IMAGE_LAYOUT_PRESENT_SRC_KHR =>
      Z.lor (Z.lor (Z.lor (Z.lor MEM_CACHE DATA_READ_CACHE) DATA_WRITE_CACHE)
                   RENDER_CACHE) SAMPLER_CACHE
  | VK_IMAGE_LAYOUT_COLOR_ATTACHMENT_OPTIMAL => Z.lor DATA_WRITE_CACHE RENDER_CACHE
  | VK_IMAGE_LAYOUT_DEPTH_STENCIL_ATTACHMENT_OPTIMAL => Z.lor DATA_WRITE_CACHE RENDER_CACHE
  | VK_IMAGE_LAYOUT_DEPTH_STENCIL_READ_ONLY_OPTIMAL => RENDER_CACHE
  | VK_IMAGE_LAYOUT_SHADER_READ_ONLY_OPTIMAL => Z.lor DATA_READ_CACHE SAMPLER_CACHE
  | VK_IMAGE_LAYOUT_TRANSFER_SRC_OPTIMAL =>
      Z.lor (Z.lor (Z.lor MEM_CACHE DATA_READ_CACHE) RENDER_CACHE) SAMPLER_CACHE
  | VK_IMAGE_LAYOUT_TRANSFER_DST_OPTIMAL =>
      Z.lor (Z.lor MEM_CACHE DATA_WRITE_CACHE) RENDER_CACHE
  | _ => 0
  end.

Definition cmd_get_flush_flags (cmd : intel_cmd) (old_caches new_caches : Z)
    (is_ds : bool) : Z :=
  (* not dirty *)
  if negb (has old_caches (Z.lor (Z.lor MEM_CACHE RENDER_CACHE) DATA_WRITE_CACHE))
  then 0
  else
    let flags := 0 in
    let flags :=
      if has old_caches RENDER_CACHE && has new_caches (Z.lnot RENDER_CACHE) then
        if is_ds then Z.lor flags GEN6_PIPE_CONTROL_DEPTH_CACHE_FLUSH
        else Z.lor flags GEN6_PIPE_CONTROL_RENDER_CACHE_FLUSH
      else flags in
    let flags :=
      if has old_caches DATA_WRITE_CACHE &&
         has new_caches (Z.lnot (Z.lor DATA_READ_CACHE DATA_WRITE_CACHE)) then
        if cmd_gen cmd >=? INTEL_GEN_7 then Z.lor flags GEN7_PIPE_CONTROL_DC_FLUSH
        else flags
      else flags in
    let flags :=
      if has new_caches SAMPLER_CACHE
      then Z.lor flags GEN6_PIPE_CONTROL_TEXTURE_CACHE_INVALIDATE else flags in
    let flags :=
      if has new_caches DATA_READ_CACHE && negb (old_caches =? DATA_WRITE_CACHE)
      then Z.lor flags GEN6_PIPE_CONTROL_CONSTANT_CACHE_INVALIDATE else flags in
    if flags =? 0 then 0
    else Z.lor flags GEN6_PIPE_CONTROL_CS_STALL.

Inductive VkStructureType :=
| VK_STRUCTURE_TYPE_MEMORY_BARRIER
| VK_STRUCTURE_TYPE_BUFFER_MEMORY_BARRIER
| VK_STRUCTURE_TYPE_IMAGE_MEMORY_BARRIER
| VK_STRUCTURE_TYPE_other (v : Z).

Record VkMemoryBarrier := mk_mem_barrier {
  mb_sType : VkStructureType;
  mb_srcAccessMask : Z;
  mb_dstAccessMask : Z
}.

Record VkBufferMemoryBarrier := mk_buf_barrier {
  bb_sType : VkStructureType;
  bb_srcAccessMask : Z;
  bb_dstAccessMask : Z;
  bb_buffer : Z
}.

Record intel_img := mk_img {
  img_addr : Z;
  img_format_is_ds : bool
}.

Record VkImageSubresourceRange := mk_range {
  aspectMask : Z;
  baseMipLevel : Z;
  levelCount : Z;
  baseArrayLayer : Z;
  layerCount : Z
}.

Record VkImageMemoryBarrier := mk_img_barrier {
  ib_sType : VkStructureType;
  ib_srcAccessMask : Z;
  ib_dstAccessMask : Z;
  ib_oldLayout : VkImageLayout;
  ib_newLayout : VkImageLayout;
  ib_image : intel_img;
  ib_subresourceRange : VkImageSubresourceRange
}.

Inductive intel_cmd_meta_ds_op :=
| INTEL_CMD_META_DS_NOP
| INTEL_CMD_META_DS_HIZ_CLEAR
| INTEL_CMD_META_DS_HIZ_RESOLVE
| INTEL_CMD_META_DS_RESOLVE.

(** The loop state of [cmd_memory_barriers]:
    [flush_flags], [input_mask], [output_mask]. *)
Record barrier_acc := mk_acc {
  acc_flush_flags : Z;
  acc_input_mask : Z;
  acc_output_mask : Z
}.

Section Barrier.

  (** [cmd_meta_ds_op] is declared in [cmd_priv.h]; its definition
      ([cmd_meta.c]) is not among the sources. *)
Variable cmd_meta_ds_op :
    intel_cmd_meta_ds_op -> intel_img -> VkImageSubresourceRange -> M unit.

Definition cmd_resolve_depth (img : intel_img) (old_layout new_layout : VkImageLayout)
      (range : VkImageSubresourceRange) : M unit :=
    let old_ops := img_get_layout_ops old_layout in
    let new_ops := img_get_layout_ops new_layout in
    if has old_ops WRITE_OP then
      if has old_ops HIZ_OP && negb (has new_ops HIZ_OP) then
        cmd_meta_ds_op INTEL_CMD_META_DS_RESOLVE img range
      else if negb (has old_ops HIZ_OP) && has new_ops HIZ_OP then
        cmd_meta_ds_op INTEL_CMD_META_DS_HIZ_RESOLVE img range
      else ret tt
    else ret tt.

Fixpoint mem_barriers_loop (bs : list VkMemoryBarrier) (a : barrier_acc)
      : M barrier_acc :=
    match bs with
    | [] => ret a
    | b :: bs =>
        exec assert (match mb_sType b with
                     | VK_STRUCTURE_TYPE_MEMORY_BARRIER => true | _ => false end) in
        mem_barriers_loop bs
          (mk_acc (acc_flush_flags a)
                  (Z.lor (acc_input_mask a) (mb_dstAccessMask b))
                  (Z.lor (acc_output_mask a) (mb_srcAccessMask b)))
    end.

Fixpoint buf_barriers_loop (bs : list VkBufferMemoryBarrier) (a : barrier_acc)
      : M barrier_acc :=
    match bs with
    | [] => ret a
    | b :: bs =>
        exec assert (match bb_sType b with
                     | VK_STRUCTURE_TYPE_BUFFER_MEMORY_BARRIER => true | _ => false end) in
        buf_barriers_loop bs
          (mk_acc (acc_flush_flags a)
                  (Z.lor (acc_input_mask a) (bb_dstAccessMask b))
                  (Z.lor (acc_output_mask a) (bb_srcAccessMask b)))
    end.

Fixpoint image_barriers_loop (bs : list VkImageMemoryBarrier) (a : barrier_acc)
      : M barrier_acc :=
    match bs with
    | [] => ret a
    | b :: bs =>
        exec assert (match ib_sType b with
                     | VK_STRUCTURE_TYPE_IMAGE_MEMORY_BARRIER => true | _ => false end) in
        let img := ib_image b in
        exec cmd_resolve_depth img (ib_oldLayout b) (ib_newLayout b)
               (ib_subresourceRange b) in
        let* cmd := get in
        image_barriers_loop bs
          (mk_acc (Z.lor (acc_flush_flags a)
                     (cmd_get_flush_flags cmd
                        (img_get_layout_caches (ib_oldLayout b))
                        (img_get_layout_caches (ib_newLayout b))
                        (img_format_is_ds img)))
                  (Z.lor (acc_input_mask a) (ib_dstAccessMask b))
                  (Z.lor (acc_output_mask a) (ib_srcAccessMask b)))
    end.

  (** The flag word [cmd_memory_barriers] passes to [cmd_batch_flush],
      from the loop state its three loops end in. *)
Definition barrier_flush_flags (a : barrier_acc) : Z :=
    let flush_flags := acc_flush_flags a in
    let input_mask := acc_input_mask a in
    let output_mask := acc_output_mask a in
    let flush_flags :=
      if has output_mask VK_ACCESS_SHADER_WRITE_BIT
      then Z.lor flush_flags GEN7_PIPE_CONTROL_DC_FLUSH else flush_flags in
    let flush_flags :=
      if has output_mask VK_ACCESS_COLOR_ATTACHMENT_WRITE_BIT
      then Z.lor flush_flags GEN6_PIPE_CONTROL_RENDER_CACHE_FLUSH else flush_flags in
    let flush_flags :=
      if has output_mask VK_ACCESS_DEPTH_STENCIL_ATTACHMENT_WRITE_BIT
      then Z.lor flush_flags GEN6_PIPE_CONTROL_DEPTH_CACHE_FLUSH else flush_flags in
    (* CPU write is cache coherent, so VK_ACCESS_HOST_WRITE_BIT needs no flush. *)
    let flush_flags :=
      if has input_mask (Z.lor VK_ACCESS_SHADER_READ_BIT VK_ACCESS_UNIFORM_READ_BIT)
      then Z.lor flush_flags GEN6_PIPE_CONTROL_TEXTURE_CACHE_INVALIDATE else flush_flags in
    let flush_flags :=
      if has input_mask VK_ACCESS_UNIFORM_READ_BIT
      then Z.lor flush_flags GEN6_PIPE_CONTROL_CONSTANT_CACHE_INVALIDATE else flush_flags in
    let flush_flags :=
      if has input_mask VK_ACCESS_VERTEX_ATTRIBUTE_READ_BIT
      then Z.lor flush_flags GEN6_PIPE_CONTROL_VF_CACHE_INVALIDATE else flush_flags in
    flush_flags.

  (** The three loops of [cmd_memory_barriers]. *)
Definition barrier_loops (flush_flags : Z)
      (mem_barriers : list VkMemoryBarrier)
      (buf_mem_barriers : list VkBufferMemoryBarrier)
      (image_mem_barriers : list VkImageMemoryBarrier) : M barrier_acc :=
    let* a := mem_barriers_loop mem_barriers (mk_acc flush_flags 0 0) in
    let* a := buf_barriers_loop buf_mem_barriers a in
    image_barriers_loop image_mem_barriers a.

Definition cmd_memory_barriers (flush_flags : Z)
      (mem_barriers : list VkMemoryBarrier)
      (buf_mem_barriers : list VkBufferMemoryBarrier)
      (image_mem_barriers : list VkImageMemoryBarrier) : M unit :=
    let* a := barrier_loops flush_flags mem_barriers buf_mem_barriers
                image_mem_barriers in
    cmd_batch_flush (barrier_flush_flags a).

Definition vkCmdWaitEvents (events : list Z) (sourceStageMask dstStageMask : Z)
      (pMemoryBarriers : list VkMemoryBarrier)
      (pBufferMemoryBarriers : list VkBufferMemoryBarrier)
      (pImageMemoryBarriers : list VkImageMemoryBarrier) : M unit :=
    cmd_memory_barriers GEN6_PIPE_CONTROL_CS_STALL
      pMemoryBarriers pBufferMemoryBarriers pImageMemoryBarriers.

Definition vkCmdPipelineBarrier (srcStageMask dstStageMask dependencyFlags : Z)
      (pMemoryBarriers : list VkMemoryBarrier)
      (pBufferMemoryBarriers : list VkBufferMemoryBarrier)
      (pImageMemoryBarriers : list VkImageMemoryBarrier) : M unit :=
    let pipe_control_flags :=
      if has srcStageMask (Z.lnot VK_PIPELINE_STAGE_HOST_BIT) ||
         has dstStageMask (Z.lnot VK_PIPELINE_STAGE_HOST_BIT)
      then GEN6_PIPE_CONTROL_CS_STALL else 0 in
    cmd_memory_barriers pipe_control_flags
      pMemoryBarriers pBufferMemoryBarriers pImageMemoryBarriers.

End Barrier.

(** ** cmd_pipeline.c: the shader cache *)

(** The loop [for (i = 0; i < cache->used; i++)] over the entries in use. *)
Fixpoint shader_cache_find (entries : list (Z * Z)) (shader : Z) : option Z :=
  match entries with
  | [] => None
  | (s, kernel_offset) :: entries =>
      if s =? shader then Some kernel_offset
      else shader_cache_find entries shader
  end.

Definition sizeof_shader_cache_entry : Z := 16.

Definition emit_shader (shader : intel_pipeline_shader) : M Z :=
  let* cmd := get in
  let cache := shader_cache (bind cmd) in
  (* see if the shader is already in the cache *)
  match shader_cache_find (take (Z.to_nat (sc_used cache)) (sc_entries cache))
          (sh_addr shader) with
  | Some kernel_offset => ret kernel_offset
  | None =>
      let* offset := cmd_instruction_write (codeSize shader) (pCode shader) in
      (* grow the cache if full *)
      let cache :=
        if sc_used cache >=? sc_count cache then
          let count := u32 (sc_count cache + 16) in
          if intel_alloc_ok (dev cmd) (sizeof_shader_cache_entry * count) then
            mk_shader_cache
              (take (Z.to_nat (sc_used cache)) (sc_entries cache) ++
               replicate (Z.to_nat (count - sc_used cache)) (0, 0))
              (sc_used cache) count
          else cache
        else cache in
      (* add the shader to the cache *)
      let cache :=
        if sc_used cache <? sc_count cache then
          mk_shader_cache
            (<[Z.to_nat (sc_used cache) := (sh_addr shader, offset)]> (sc_entries cache))
            (u32 (sc_used cache + 1)) (sc_count cache)
        else cache in
      exec modify (fun cmd => set_bind (set_shader_cache cache (bind cmd)) cmd) in
      ret offset
  end.

(** ** cmd_pipeline.c: binding tables *)

Definition rmap_surface_count (rmap : option intel_pipeline_rmap) : Z :=
  match rmap with
  | Some rmap =>
      u32 (rt_count rmap + texture_resource_count rmap + resource_count rmap +
           uav_count rmap)
  | None => 0
  end.

Definition intel_desc_offset_add (lhs rhs : intel_desc_offset) : intel_desc_offset :=
  mk_desc_offset (u32 (do_surface lhs + do_surface rhs))
                 (u32 (do_sampler lhs + do_sampler rhs)).

(** One turn of the loop of [emit_binding_table]: the surface state of
    [slot] is written and its offset in the surface buffer returned. *)
Definition emit_binding_table_slot (stage : VkShaderStageFlagBits)
    (slot : intel_pipeline_rmap_slot) : M Z :=
  let* cmd := get in
  let data := graphics_data (bind cmd) in
  let write_null_view :=
    let null_view := dev_null_view (dev cmd) in
    cmd_surface_write INTEL_CMD_ITEM_SURFACE GEN6_ALIGNMENT_SURFACE_STATE
      (nv_cmd_len null_view) (nv_cmd null_view) in
  match slot_type slot with
  | INTEL_PIPELINE_RMAP_RT =>
      let subpass := render_pass_subpass (bind cmd) in
      let fb := bind_fb (bind cmd) in
      let* view :=
        if slot_index slot <? color_count subpass then
          let* ci := in_bounds (color_indices subpass) (slot_index slot) in
          if ci <? fb_view_count fb then in_bounds (fb_views fb) ci
          else ret None
        else ret None in
      match view with
      | Some view =>
          let* offset := cmd_surface_write INTEL_CMD_ITEM_SURFACE
                           GEN6_ALIGNMENT_SURFACE_STATE
                           (av_cmd_len view) (att_cmd view) in
          exec cmd_reserve_reloc 1 in
          let* dw1 := in_bounds (att_cmd view) 1 in
          exec cmd_surface_reloc offset 1 (av_bo view) dw1 INTEL_RELOC_WRITE in
          ret offset
      | None => write_null_view
      end
  | INTEL_PIPELINE_RMAP_SURFACE =>
      let dyn_idx := slot_dynamic_offset_index slot in
      exec assert ((dyn_idx <? 0) ||
                   (dyn_idx <? total_dynamic_desc_count
                                 (pipeline_graphics (bind cmd)))) in
      let* set_offset := in_bounds (set_offsets data) (slot_index slot) in
      let desc_offset := intel_desc_offset_add (slot_surface_offset slot) set_offset in
      let desc := desc_region (dev cmd) desc_offset stage in
      match sd_mem desc with
      | Some bo =>
          let* dynamic_offset :=
            if dyn_idx >=? 0 then in_bounds (dynamic_offsets data) dyn_idx
            else ret 0 in
          let reloc_flags := if sd_read_only desc then 0 else INTEL_RELOC_WRITE in
          let* offset := cmd_surface_write INTEL_CMD_ITEM_SURFACE
                           GEN6_ALIGNMENT_SURFACE_STATE
                           (sd_cmd_len desc) (sd_cmd desc) in
          exec cmd_reserve_reloc 1 in
          let* dw1 := in_bounds (sd_cmd desc) 1 in
          exec cmd_surface_reloc offset 1 bo (u32 (dw1 + dynamic_offset)) reloc_flags in
          ret offset
      | None => write_null_view
      end
  | INTEL_PIPELINE_RMAP_UNUSED => write_null_view
  | _ =>
      (* assert(!"unexpected rmap type") *)
      exec assert false in
      write_null_view
  end.

Fixpoint emit_binding_table_loop (stage : VkShaderStageFlagBits) (sba_offset : Z)
    (slots : list intel_pipeline_rmap_slot) (binding_table : list Z) : M (list Z) :=
  match slots with
  | [] => ret binding_table
  | slot :: slots =>
      let* offset := emit_binding_table_slot stage slot in
      emit_binding_table_loop stage sba_offset slots
        (binding_table ++ [u32 (offset - sba_offset)])
  end.

Definition emit_binding_table (rmap : option intel_pipeline_rmap)
    (stage : VkShaderStageFlagBits) : M Z :=
  let* cmd := get in
  let sba_offset := w_sba_offset (writers cmd INTEL_CMD_WRITER_SURFACE) in
  exec CMD_ASSERT INTEL_GEN_6 INTEL_GEN_7_5 in
  let surface_count := rmap_surface_count rmap in
  match rmap with
  | None => ret 0
  | Some rmap =>
      if surface_count =? 0 then ret 0
      else
        exec assert (surface_count <=? 256) in
        exec assert (surface_count <=? Z.of_nat (length (slots rmap))) in
        let* binding_table :=
          emit_binding_table_loop stage sba_offset
            (take (Z.to_nat surface_count) (slots rmap)) [] in
        let* written := cmd_surface_write INTEL_CMD_ITEM_BINDING_TABLE
                          GEN6_ALIGNMENT_BINDING_TABLE_STATE
                          surface_count binding_table in
        let offset := u32 (written - sba_offset) in
        (* there is a 64KB limit on BINIDNG_TABLE_STATEs *)
        exec assert (offset + 4 * surface_count <=? 64 * 1024) in
        ret offset
  end.

(** ** cmd_pipeline.c: draws *)

(** The emitters of fixed-function state that no property below speaks
    about.  Each stands for the function (or the packet) it is named after. *)
Inductive other_op :=
| OP_set_viewport_state
| OP_gen6_3DSTATE_MULTISAMPLE
| OP_gen6_3DSTATE_DRAWING_RECTANGLE
| OP_gen6_3DSTATE_DEPTH_BUFFER
| OP_gen6_3DSTATE_STENCIL_BUFFER
| OP_gen6_3DSTATE_HIER_DEPTH_BUFFER
| OP_gen7_3DSTATE_CLEAR_PARAMS
| OP_gen6_3DSTATE_CLEAR_PARAMS
| OP_gen7_cc_states
| OP_gen7_viewport_states
| OP_gen7_pcb (stage : VkShaderStageFlagBits)
| OP_gen7_3DSTATE_GS
| OP_gen6_3DSTATE_CLIP
| OP_gen7_3DSTATE_SF
| OP_gen7_3DSTATE_WM
| OP_gen7_3DSTATE_PS
| OP_gen6_cc_states
| OP_gen6_viewport_states
| OP_gen6_pcb (stage : VkShaderStageFlagBits)
| OP_gen6_3DSTATE_GS
| OP_gen6_3DSTATE_SF
| OP_gen6_3DSTATE_WM
| OP_emit_samplers
| OP_gen7_binding_table_and_sampler_pointers (binding_tables : list Z)
| OP_gen6_binding_table_and_sampler_pointers (binding_tables : list Z)
| OP_cmd_bind_dynamic_state
| OP_gen6_3DSTATE_VERTEX_BUFFERS
| OP_gen6_3DSTATE_VS
| OP_gen6_meta_dynamic_states
| OP_gen6_meta_surface_states
| OP_gen7_meta_urb_packets
| OP_gen6_meta_urb
| OP_gen6_meta_vf
| OP_gen6_meta_vs_disabled
| OP_gen6_meta_vs_constants
| OP_gen6_meta_vs_packet (kernel_offset : Z)
| OP_gen7_meta_disabled
| OP_gen6_meta_disabled
| OP_gen6_meta_clip
| OP_gen6_meta_wm_packets
| OP_meta_ps_disabled
| OP_meta_ps_constants
| OP_meta_ps_packet (kernel_offset : Z).

Definition is_pipe_control (it : Z * item) : bool :=
  match snd it with
  | ITEM_PACKET (PKT_PIPE_CONTROL _ _) => true
  | _ => false
  end.

Section Draw.

Variable emit_other : other_op -> M unit.

Definition gen6_3DPRIMITIVE (prim_type : Z) (indexed : bool)
      (vertex_count vertex_start instance_count instance_start vertex_base : Z)
      : M unit :=
    let cmd_len := 6 in
    exec CMD_ASSERT INTEL_GEN_6 INTEL_GEN_6 in
    let* pos := cmd_batch_pointer cmd_len
      (PKT_GEN6_3DPRIMITIVE prim_type indexed vertex_count vertex_start
         instance_count instance_start vertex_base) in
    ret tt.

Definition gen7_3DPRIMITIVE (prim_type : Z) (indexed : bool)
      (vertex_count vertex_start instance_count instance_start vertex_base : Z)
      : M unit :=
    let cmd_len := 7 in
    exec CMD_ASSERT INTEL_GEN_7 INTEL_GEN_7_5 in
    let* pos := cmd_batch_pointer cmd_len
      (PKT_GEN7_3DPRIMITIVE prim_type indexed vertex_count vertex_start
         instance_count instance_start vertex_base) in
    ret tt.

Definition gen6_can_primitive_restart : M bool :=
    let* cmd := get in
    let p := pipeline_graphics (bind cmd) in
    exec CMD_ASSERT INTEL_GEN_6 INTEL_GEN_7_5 in
    if cmd_gen cmd >=? INTEL_GEN_7_5 then
      ret (negb (prim_type p =? GEN6_3DPRIM_RECTLIST))
    else
      let supported :=
        (prim_type p =? GEN6_3DPRIM_POINTLIST) ||
        (prim_type p =? GEN6_3DPRIM_LINELIST) ||
        (prim_type p =? GEN6_3DPRIM_LINESTRIP) ||
        (prim_type p =? GEN6_3DPRIM_TRILIST) ||
        (prim_type p =? GEN6_3DPRIM_TRISTRIP) in
      if negb supported then ret false
      else
        match index_type (bind cmd) with
        | VK_INDEX_TYPE_UINT16 => ret (negb (primitive_restart_index p =? 0xffff))
        | VK_INDEX_TYPE_UINT32 => ret (negb (primitive_restart_index p =? 0xffffffff))
        | _ => ret false
        end.

Definition gen6_3DSTATE_INDEX_BUFFER (buf : intel_buf) (offset : Z)
      (type : VkIndexType) (enable_cut_index : bool) : M unit :=
    let cmd_len := 3 in
    let* cmd := get in
    exec CMD_ASSERT INTEL_GEN_6 INTEL_GEN_7_5 in
    (* the bit is moved to 3DSTATE_VF *)
    exec when (cmd_gen cmd >=? INTEL_GEN_7_5) (assert (negb enable_cut_index)) in
    let* offset_align :=
      match type with
      | VK_INDEX_TYPE_UINT16 => ret 2
      | VK_INDEX_TYPE_UINT32 => ret 4
      | _ => (* assert(!"unsupported index type") *)
             exec assert false in ret 1
      end in
    (* aligned and inclusive *)
    let end_offset := u32 (buf_size buf - (buf_size buf) mod offset_align - 1) in
    let* pos := cmd_batch_pointer cmd_len
                  (PKT_3DSTATE_INDEX_BUFFER type enable_cut_index) in
    exec cmd_reserve_reloc 2 in
    exec cmd_batch_reloc (pos + 1) (buf_bo buf) offset 0 in
    cmd_batch_reloc (pos + 2) (buf_bo buf) end_offset 0.

Definition gen75_3DSTATE_VF (enable_cut_index : bool) (cut_index : Z) : M unit :=
    let cmd_len := 2 in
    exec CMD_ASSERT INTEL_GEN_7_5 INTEL_GEN_7_5 in
    let* pos := cmd_batch_pointer cmd_len (PKT_3DSTATE_VF enable_cut_index cut_index) in
    ret tt.

Definition cmd_batch_state_base_address : M unit :=
    let cmd_len := 10 in
    exec CMD_ASSERT INTEL_GEN_6 INTEL_GEN_7_5 in
    let* pos := cmd_batch_pointer cmd_len PKT_STATE_BASE_ADDRESS in
    let* cmd := get in
    exec cmd_reserve_reloc 3 in
    exec cmd_batch_reloc_writer (pos + 2) INTEL_CMD_WRITER_SURFACE
           (u32 (w_sba_offset (writers cmd INTEL_CMD_WRITER_SURFACE) + 1)) in
    exec cmd_batch_reloc_writer (pos + 3) INTEL_CMD_WRITER_STATE
           (u32 (w_sba_offset (writers cmd INTEL_CMD_WRITER_STATE) + 1)) in
    cmd_batch_reloc_writer (pos + 5) INTEL_CMD_WRITER_INSTRUCTION
      (u32 (w_sba_offset (writers cmd INTEL_CMD_WRITER_INSTRUCTION) + 1)).

Definition emit_msaa : M unit :=
    let* cmd := get in
    if negb (render_pass_changed (bind cmd)) then ret tt
    else
      exec cmd_wa_gen6_pre_multisample_depth_flush in
      emit_other OP_gen6_3DSTATE_MULTISAMPLE.

Definition emit_rt : M unit :=
    let* cmd := get in
    if negb (render_pass_changed (bind cmd)) then ret tt
    else
      exec cmd_wa_gen6_pre_depth_stall_write in
      emit_other OP_gen6_3DSTATE_DRAWING_RECTANGLE.

Definition emit_ds : M unit :=
    let* cmd := get in
    if negb (render_pass_changed (bind cmd)) then ret tt
    else
      exec cmd_wa_gen6_pre_ds_flush in
      exec emit_other OP_gen6_3DSTATE_DEPTH_BUFFER in
      exec emit_other OP_gen6_3DSTATE_STENCIL_BUFFER in
      exec emit_other OP_gen6_3DSTATE_HIER_DEPTH_BUFFER in
      if cmd_gen cmd >=? INTEL_GEN_7 then emit_other OP_gen7_3DSTATE_CLEAR_PARAMS
      else emit_other OP_gen6_3DSTATE_CLEAR_PARAMS.

Definition emit_graphics_pipeline : M unit :=
    let* cmd := get in
    let pipeline := pipeline_graphics (bind cmd) in
    exec when (has (p_wa_flags pipeline) INTEL_CMD_WA_GEN6_PRE_DEPTH_STALL_WRITE)
           cmd_wa_gen6_pre_depth_stall_write in
    exec when (has (p_wa_flags pipeline) INTEL_CMD_WA_GEN6_PRE_COMMAND_SCOREBOARD_STALL)
           cmd_wa_gen6_pre_command_scoreboard_stall in
    exec when (has (p_wa_flags pipeline) INTEL_CMD_WA_GEN7_PRE_VS_DEPTH_STALL_WRITE)
           cmd_wa_gen7_pre_vs_depth_stall_write in
    (* 3DSTATE_URB_VS and etc. *)
    exec assert (negb (p_cmd_len pipeline =? 0)) in
    let* pos := cmd_batch_pointer (p_cmd_len pipeline)
                  (PKT_OTHER (take (Z.to_nat (p_cmd_len pipeline)) (p_cmds pipeline))) in
    exec when (has (active_shaders pipeline) SHADER_VERTEX_FLAG)
      (let* offset := emit_shader (vs pipeline) in
       modify (fun cmd => set_bind (set_shader_offsets offset (tcs_offset (bind cmd))
                 (tes_offset (bind cmd)) (gs_offset (bind cmd)) (fs_offset (bind cmd))
                 (bind cmd)) cmd)) in
    exec when (has (active_shaders pipeline) SHADER_TESS_CONTROL_FLAG)
      (let* offset := emit_shader (tcs pipeline) in
       modify (fun cmd => set_bind (set_shader_offsets (vs_offset (bind cmd)) offset
                 (tes_offset (bind cmd)) (gs_offset (bind cmd)) (fs_offset (bind cmd))
                 (bind cmd)) cmd)) in
    exec when (has (active_shaders pipeline) SHADER_TESS_EVAL_FLAG)
      (let* offset := emit_shader (tes pipeline) in
       modify (fun cmd => set_bind (set_shader_offsets (vs_offset (bind cmd))
                 (tcs_offset (bind cmd)) offset (gs_offset (bind cmd))
                 (fs_offset (bind cmd)) (bind cmd)) cmd)) in
    exec when (has (active_shaders pipeline) SHADER_GEOMETRY_FLAG)
      (let* offset := emit_shader (gs pipeline) in
       modify (fun cmd => set_bind (set_shader_offsets (vs_offset (bind cmd))
                 (tcs_offset (bind cmd)) (tes_offset (bind cmd)) offset
                 (fs_offset (bind cmd)) (bind cmd)) cmd)) in
    exec when (has (active_shaders pipeline) SHADER_FRAGMENT_FLAG)
      (let* offset := emit_shader (fs pipeline) in
       modify (fun cmd => set_bind (set_shader_offsets (vs_offset (bind cmd))
                 (tcs_offset (bind cmd)) (tes_offset (bind cmd))
                 (gs_offset (bind cmd)) offset (bind cmd)) cmd)) in
    exec when (has (p_wa_flags pipeline) INTEL_CMD_WA_GEN7_POST_COMMAND_CS_STALL)
           cmd_wa_gen7_post_command_cs_stall in
    when (has (p_wa_flags pipeline) INTEL_CMD_WA_GEN7_POST_COMMAND_DEPTH_STALL)
      cmd_wa_gen7_post_command_depth_stall.

Definition emit_shader_resources : M unit :=
    let* cmd := get in
    let pipeline := pipeline_graphics (bind cmd) in
    let* bt0 := emit_binding_table (sh_rmap (vs pipeline)) VK_SHADER_STAGE_VERTEX_BIT in
    let* bt1 := emit_binding_table (sh_rmap (tcs pipeline))
                  VK_SHADER_STAGE_TESSELLATION_CONTROL_BIT in
    let* bt2 := emit_binding_table (sh_rmap (tes pipeline))
                  VK_SHADER_STAGE_TESSELLATION_EVALUATION_BIT in
    let* bt3 := emit_binding_table (sh_rmap (gs pipeline)) VK_SHADER_STAGE_GEOMETRY_BIT in
    let* bt4 := emit_binding_table (sh_rmap (fs pipeline)) VK_SHADER_STAGE_FRAGMENT_BIT in
    exec emit_other OP_emit_samplers in
    if cmd_gen cmd >=? INTEL_GEN_7 then
      emit_other (OP_gen7_binding_table_and_sampler_pointers [bt0; bt1; bt2; bt3; bt4])
    else
      exec assert ((bt1 =? 0) && (bt2 =? 0)) in
      emit_other (OP_gen6_binding_table_and_sampler_pointers [bt0; bt3; bt4]).

Definition emit_bounded_states : M unit :=
    let* cmd := get in
    exec emit_other OP_set_viewport_state in
    exec emit_msaa in
    exec emit_graphics_pipeline in
    exec emit_rt in
    exec emit_ds in
    exec (if cmd_gen cmd >=? INTEL_GEN_7 then
            exec emit_other OP_gen7_cc_states in
            exec emit_other OP_gen7_viewport_states in
            exec emit_other (OP_gen7_pcb VK_SHADER_STAGE_VERTEX_BIT) in
            exec emit_other (OP_gen7_pcb VK_SHADER_STAGE_GEOMETRY_BIT) in
            exec emit_other (OP_gen7_pcb VK_SHADER_STAGE_FRAGMENT_BIT) in
            exec emit_other OP_gen7_3DSTATE_GS in
            exec emit_other OP_gen6_3DSTATE_CLIP in
            exec emit_other OP_gen7_3DSTATE_SF in
            exec emit_other OP_gen7_3DSTATE_WM in
            emit_other OP_gen7_3DSTATE_PS
          else
            exec emit_other OP_gen6_cc_states in
            exec emit_other OP_gen6_viewport_states in
            exec emit_other (OP_gen6_pcb VK_SHADER_STAGE_VERTEX_BIT) in
            exec emit_other (OP_gen6_pcb VK_SHADER_STAGE_GEOMETRY_BIT) in
            exec emit_other (OP_gen6_pcb VK_SHADER_STAGE_FRAGMENT_BIT) in
            exec emit_other OP_gen6_3DSTATE_GS in
            exec emit_other OP_gen6_3DSTATE_CLIP in
            exec emit_other OP_gen6_3DSTATE_SF in
            emit_other OP_gen6_3DSTATE_WM) in
    exec emit_shader_resources in
    exec cmd_wa_gen6_pre_depth_stall_write in
    exec emit_other OP_gen6_3DSTATE_VERTEX_BUFFERS in
    emit_other OP_gen6_3DSTATE_VS.

Definition cmd_alloc_dset_data (layout_count total_dynamic_desc_count : Z) : M bool :=
    let* cmd := get in
    let data := graphics_data (bind cmd) in
    let put data := modify (fun cmd => set_bind (set_graphics_data data (bind cmd)) cmd) in
    let* ok :=
      if set_offset_count data <? layout_count then
        if intel_alloc_ok (dev cmd) (8 * layout_count) then
          exec put (mk_dset_data
                      (replicate (Z.to_nat layout_count) (mk_desc_offset 0 0))
                      layout_count (dynamic_offsets data) (dynamic_offset_count data)) in
          ret true
        else
          exec cmd_fail VK_ERROR_OUT_OF_HOST_MEMORY in
          exec put (mk_dset_data [] 0 (dynamic_offsets data)
                      (dynamic_offset_count data)) in
          ret false
      else ret true in
    if negb ok then ret false
    else
      let* cmd := get in
      let data := graphics_data (bind cmd) in
      if dynamic_offset_count data <? total_dynamic_desc_count then
        if intel_alloc_ok (dev cmd) (4 * total_dynamic_desc_count) then
          exec put (mk_dset_data (set_offsets data) (set_offset_count data)
                      (replicate (Z.to_nat total_dynamic_desc_count) 0)
                      total_dynamic_desc_count) in
          ret true
        else
          exec cmd_fail VK_ERROR_OUT_OF_HOST_MEMORY in
          exec put (mk_dset_data (set_offsets data) (set_offset_count data) [] 0) in
          ret false
      else ret true.

Definition cmd_bind_graphics_pipeline (pipeline : intel_pipeline) : M unit :=
    exec modify (fun cmd => set_bind (set_pipeline_graphics pipeline (bind cmd)) cmd) in
    exec emit_other OP_cmd_bind_dynamic_state in
    let* ok := cmd_alloc_dset_data (layout_count pipeline)
                 (total_dynamic_desc_count pipeline) in
    ret tt.

Definition cmd_get_max_surface_write (cmd : intel_cmd) : Z :=
    let pipeline := pipeline_graphics (bind cmd) in
    let rmaps := [sh_rmap (vs pipeline); sh_rmap (tcs pipeline); sh_rmap (tes pipeline);
                  sh_rmap (gs pipeline); sh_rmap (fs pipeline)] in
    (* pad first *)
    fold_left (fun max_write rmap =>
                 let surface_count := rmap_surface_count rmap in
                 if surface_count =? 0 then max_write
                 else
                   (* SURFACE_STATEs *)
                   let max_write := u32 (max_write +
                                         GEN6_ALIGNMENT_SURFACE_STATE * surface_count) in
                   (* BINDING_TABLE_STATE *)
                   u32 (max_write + u_align (4 * surface_count)
                                      GEN6_ALIGNMENT_SURFACE_STATE))
              rmaps GEN6_ALIGNMENT_SURFACE_STATE.

Definition cmd_adjust_state_base_address : M unit :=
    let* cmd := get in
    let writer := writers cmd INTEL_CMD_WRITER_SURFACE in
    let cur_surface_offset := u32 (w_used writer - w_sba_offset writer) in
    (* enough for src and dst SURFACE_STATEs plus BINDING_TABLE_STATE *)
    let max_surface_write :=
      match bind_meta (bind cmd) with
      | Some _ => 64 * 4
      | None => cmd_get_max_surface_write cmd
      end in
    (* there is a 64KB limit on BINDING_TABLE_STATEs *)
    if u32 (cur_surface_offset + max_surface_write) >? 64 * 1024 then
      (* SBA expects page-aligned addresses *)
      exec modify (set_writer INTEL_CMD_WRITER_SURFACE
             (mk_writer (w_size writer) (w_used writer)
                (u32 (Z.land (w_used writer) (Z.lnot 0xfff))) (w_items writer))) in
      exec assert (Z.land (w_used writer) 0xfff + max_surface_write <=? 64 * 1024) in
      cmd_batch_state_base_address
    else ret tt.

Definition cmd_draw (vertex_start vertex_count instance_start instance_count : Z)
      (indexed : bool) (vertex_base : Z) : M unit :=
    let* cmd := get in
    let p := pipeline_graphics (bind cmd) in
    let surface_writer_used := w_used (writers cmd INTEL_CMD_WRITER_SURFACE) in
    exec cmd_adjust_state_base_address in
    exec emit_bounded_states in
    (* sanity check on cmd_get_max_surface_write() *)
    let* cmd := get in
    exec assert (w_used (writers cmd INTEL_CMD_WRITER_SURFACE) - surface_writer_used
                 <=? cmd_get_max_surface_write cmd) in
    exec (if indexed then
            let* can_restart :=
              if primitive_restart p then gen6_can_primitive_restart else ret true in
            exec assert (negb (primitive_restart p && negb can_restart)) in
            if cmd_gen cmd >=? INTEL_GEN_7_5 then
              exec gen75_3DSTATE_VF (primitive_restart p) (primitive_restart_index p) in
              gen6_3DSTATE_INDEX_BUFFER (index_buf (bind cmd)) (index_offset (bind cmd))
                (index_type (bind cmd)) false
            else
              gen6_3DSTATE_INDEX_BUFFER (index_buf (bind cmd)) (index_offset (bind cmd))
                (index_type (bind cmd)) (primitive_restart p)
          else assert (vertex_base =? 0)) in
    exec (if cmd_gen cmd >=? INTEL_GEN_7 then
            gen7_3DPRIMITIVE (prim_type p) indexed vertex_count vertex_start
              instance_count instance_start vertex_base
          else
            gen6_3DPRIMITIVE (prim_type p) indexed vertex_count vertex_start
              instance_count instance_start vertex_base) in
    exec modify (fun cmd =>
           set_bind (set_draw_count (u32 (draw_count (bind cmd) + 1)) (bind cmd)) cmd) in
    exec modify (fun cmd => set_bind (set_render_pass_changed false (bind cmd)) cmd) in
    (* need to re-emit all workarounds *)
    exec modify (fun cmd => set_bind (set_wa_flags 0 (bind cmd)) cmd) in
    when (debug_nocache (dev cmd)) cmd_batch_flush_all.

Definition vkCmdDraw (vertexCount instanceCount firstVertex firstInstance : Z) : M unit :=
    cmd_draw firstVertex vertexCount firstInstance instanceCount false 0.

Definition vkCmdDrawIndexed (indexCount instanceCount firstIndex vertexOffset
      firstInstance : Z) : M unit :=
    cmd_draw firstIndex indexCount firstInstance instanceCount true (u32 vertexOffset).

(** [cmd->bind.meta], which the meta emitters dereference. *)
Definition the_meta : M intel_cmd_meta :=
  let* cmd := get in
  match bind_meta (bind cmd) with
  | Some meta => ret meta
  | None => exec assert false in ret (mk_meta INTEL_CMD_META_VS_POINTS 0 false 0 0)
  end.

Definition gen7_meta_urb : M unit :=
  exec CMD_ASSERT INTEL_GEN_7 INTEL_GEN_7_5 in
  exec cmd_wa_gen7_pre_vs_depth_stall_write in
  (* 3DSTATE_URB_x *)
  emit_other OP_gen7_meta_urb_packets.

Definition gen6_meta_vs : M unit :=
  let* cmd := get in
  let* meta := the_meta in
  let sh := dev_meta_shader (dev cmd) (meta_shader_id meta) in
  exec CMD_ASSERT INTEL_GEN_6 INTEL_GEN_7_5 in
  match meta_mode meta with
  | INTEL_CMD_META_VS_POINTS =>
      exec assert (meta_dst_valid meta && (sh_uses sh =? INTEL_SHADER_USE_VID)) in
      (* 3DSTATE_CONSTANT_VS *)
      exec emit_other OP_gen6_meta_vs_constants in
      (* 3DSTATE_VS *)
      let* offset := emit_shader sh in
      exec emit_other (OP_gen6_meta_vs_packet offset) in
      assert (per_thread_scratch_size sh =? 0)
  | _ => emit_other OP_gen6_meta_vs_disabled
  end.

Definition gen6_meta_wm : M unit :=
  exec CMD_ASSERT INTEL_GEN_6 INTEL_GEN_7_5 in
  exec cmd_wa_gen6_pre_multisample_depth_flush in
  (* 3DSTATE_MULTISAMPLE, 3DSTATE_SAMPLE_MASK, 3DSTATE_DRAWING_RECTANGLE *)
  emit_other OP_gen6_meta_wm_packets.

(** [gen6_meta_ps] and [gen7_meta_ps], which differ in the generations
    they assert and in the packets they write. *)
Definition meta_ps (min_gen max_gen : Z) : M unit :=
  let* cmd := get in
  let* meta := the_meta in
  let sh := dev_meta_shader (dev cmd) (meta_shader_id meta) in
  exec CMD_ASSERT min_gen max_gen in
  match meta_mode meta with
  | INTEL_CMD_META_FS_RECT =>
      (* a normal color write *)
      exec assert (meta_dst_valid meta && (sh_uses sh =? 0)) in
      exec emit_other OP_meta_ps_constants in
      let* offset := emit_shader sh in
      exec emit_other (OP_meta_ps_packet offset) in
      assert (per_thread_scratch_size sh =? 0)
  | _ => emit_other OP_meta_ps_disabled
  end.

Definition gen6_meta_ps : M unit := meta_ps INTEL_GEN_6 INTEL_GEN_6.
Definition gen7_meta_ps : M unit := meta_ps INTEL_GEN_7 INTEL_GEN_7_5.

Definition gen6_meta_depth_buffer : M unit :=
  let* cmd := get in
  exec CMD_ASSERT INTEL_GEN_6 INTEL_GEN_7_5 in
  exec cmd_wa_gen6_pre_ds_flush in
  exec emit_other OP_gen6_3DSTATE_DEPTH_BUFFER in
  exec emit_other OP_gen6_3DSTATE_STENCIL_BUFFER in
  exec emit_other OP_gen6_3DSTATE_HIER_DEPTH_BUFFER in
  if cmd_gen cmd >=? INTEL_GEN_7 then emit_other OP_gen7_3DSTATE_CLEAR_PARAMS
  else emit_other OP_gen6_3DSTATE_CLEAR_PARAMS.

Definition cmd_draw_meta (meta : intel_cmd_meta) : M unit :=
  exec modify (fun cmd => set_bind (set_bind_meta (Some meta) (bind cmd)) cmd) in
  exec cmd_adjust_state_base_address in
  exec cmd_wa_gen6_pre_depth_stall_write in
  exec cmd_wa_gen6_pre_command_scoreboard_stall in
  exec emit_other OP_gen6_meta_dynamic_states in
  exec emit_other OP_gen6_meta_surface_states in
  let* cmd := get in
  exec (if cmd_gen cmd >=? INTEL_GEN_7 then
          exec gen7_meta_urb in
          exec emit_other OP_gen6_meta_vf in
          exec gen6_meta_vs in
          exec emit_other OP_gen7_meta_disabled in
          exec emit_other OP_gen6_meta_clip in
          exec gen6_meta_wm in
          exec gen7_meta_ps in
          exec gen6_meta_depth_buffer in
          exec cmd_wa_gen7_post_command_cs_stall in
          exec cmd_wa_gen7_post_command_depth_stall in
          match meta_mode meta with
          | INTEL_CMD_META_VS_POINTS =>
              gen7_3DPRIMITIVE GEN6_3DPRIM_POINTLIST false
                (u32 (meta_width meta * meta_height meta)) 0 1 0 0
          | _ => gen7_3DPRIMITIVE GEN6_3DPRIM_RECTLIST false 3 0 1 0 0
          end
        else
          exec emit_other OP_gen6_meta_urb in
          exec emit_other OP_gen6_meta_vf in
          exec gen6_meta_vs in
          exec emit_other OP_gen6_meta_disabled in
          exec emit_other OP_gen6_meta_clip in
          exec gen6_meta_wm in
          exec gen6_meta_ps in
          exec gen6_meta_depth_buffer in
          match meta_mode meta with
          | INTEL_CMD_META_VS_POINTS =>
              gen6_3DPRIMITIVE GEN6_3DPRIM_POINTLIST false
                (u32 (meta_width meta * meta_height meta)) 0 1 0 0
          | _ => gen6_3DPRIMITIVE GEN6_3DPRIM_RECTLIST false 3 0 1 0 0
          end) in
  exec modify (fun cmd =>
         set_bind (set_draw_count (u32 (draw_count (bind cmd) + 1)) (bind cmd)) cmd) in
  (* need to re-emit all workarounds *)
  exec modify (fun cmd => set_bind (set_wa_flags 0 (bind cmd)) cmd) in
  exec modify (fun cmd => set_bind (set_bind_meta None (bind cmd)) cmd) in
  (* make the normal path believe the render pass has changed *)
  exec modify (fun cmd => set_bind (set_render_pass_changed true (bind cmd)) cmd) in
  when (debug_nocache (dev cmd)) cmd_batch_flush_all.

(** What a recording is made of, as far as the workarounds go. *)
Inductive draw_op :=
| DRAW (vertex_start vertex_count instance_start instance_count : Z)
    (indexed : bool) (vertex_base : Z)
| DRAW_META (meta : intel_cmd_meta).

Definition draw_one (d : draw_op) : M unit :=
  match d with
  | DRAW vertex_start vertex_count instance_start instance_count indexed vertex_base =>
      cmd_draw vertex_start vertex_count instance_start instance_count indexed
        vertex_base
  | DRAW_META meta => cmd_draw_meta meta
  end.

Fixpoint draw_all (ds : list draw_op) : M unit :=
  match ds with
  | [] => ret tt
  | d :: ds => exec draw_one d in draw_all ds
  end.

End Draw.

(** The operations that are not implemented. *)

Definition vkCmdDrawIndirect (buffer offset drawCount stride : Z) : M unit :=
  (* assert(0 && "vkCmdDrawIndirect not implemented") *)
  assert false.

Definition vkCmdDrawIndexedIndirect (buffer offset drawCount stride : Z) : M unit :=
  assert false.

Definition vkCmdDispatch (x y z : Z) : M unit :=
  assert false.

Definition vkCmdDispatchIndirect (buffer offset : Z) : M unit :=
  assert false.

Definition vkCmdPushConstants (layout stageFlags offset size : Z) (pValues : list Z)
    : M unit :=
  (* TODO: Implement *)
  ret tt.

(** ** cmd_pipeline.c: viewport guard band *)

(** [viewport_get_guardband]: [(min_gbx, max_gbx, min_gby, max_gby)].  The
    conversions through [float] are exact at these magnitudes. *)
Definition viewport_get_guardband (gen center_x center_y : Z) : Z * Z * Z * Z :=
  let max_extent := if gen >=? INTEL_GEN_7 then 32768 else 16384 in
  let half_len := 8192 / 2 in
  (* make sure the guardband is within the valid range *)
  let center_x :=
    if center_x - half_len <? - max_extent then - max_extent + half_len
    else if center_x + half_len >? max_extent - 1 then max_extent - half_len
    else center_x in
  let center_y :=
    if center_y - half_len <? - max_extent then - max_extent + half_len
    else if center_y + half_len >? max_extent - 1 then max_extent - half_len
    else center_y in
  (center_x - half_len, center_x + half_len, center_y - half_len, center_y + half_len).

(** * Vocabulary of the properties *)

(** A recording [m] keeps the relation [R] between the state it starts in
    and the state it ends in. *)
Definition keeps (R : intel_cmd -> intel_cmd -> Prop) {A} (m : M A) : Prop :=
  forall c a c', m c = Ok (a, c') -> R c c'.

Definition batch_items (c : intel_cmd) : list (Z * item) := w_items (w_batch c).

(** The items the batch gained between [c] and [c']. *)
Definition emitted (c c' : intel_cmd) : list (Z * item) :=
  drop (length (batch_items c)) (batch_items c').

Definition COMPANION_MASK : Z :=
  Z.lor (Z.lor (Z.lor GEN6_PIPE_CONTROL_RENDER_CACHE_FLUSH
                      GEN6_PIPE_CONTROL_DEPTH_CACHE_FLUSH)
               GEN6_PIPE_CONTROL_PIXEL_SCOREBOARD_STALL)
        GEN6_PIPE_CONTROL_DEPTH_STALL.

(** [flags & CS_STALL != 0] implies [flags & COMPANION_MASK != 0]. *)
Definition stall_has_companion (dw1 : Z) : Prop :=
  has dw1 GEN6_PIPE_CONTROL_CS_STALL = true -> has dw1 COMPANION_MASK = true.

Definition item_stall_ok (it : Z * item) : Prop :=
  match snd it with
  | ITEM_PACKET (PKT_PIPE_CONTROL dw1 _) => stall_has_companion dw1
  | _ => True
  end.

(** The batch only grows, by items that satisfy [P]. *)
Definition batch_grows (P : Z * item -> Prop) (c c' : intel_cmd) : Prop :=
  exists new, batch_items c' = batch_items c ++ new /\ Forall P new.

(** What a recording step leaves alone unless it is a draw, a bind or a
    workaround: the device, the bound objects, the draw counter, the
    workaround flags. *)
Record same_bind (c c' : intel_cmd) : Prop := mk_same_bind {
  sb_dev : dev c' = dev c;
  sb_scratch_bo : scratch_bo c' = scratch_bo c;
  sb_reloc_count : reloc_count c' = reloc_count c;
  sb_meta : bind_meta (bind c') = bind_meta (bind c);
  sb_pipeline : pipeline_graphics (bind c') = pipeline_graphics (bind c);
  sb_index_buf : index_buf (bind c') = index_buf (bind c);
  sb_index_offset : index_offset (bind c') = index_offset (bind c);
  sb_index_type : index_type (bind c') = index_type (bind c);
  sb_subpass : render_pass_subpass (bind c') = render_pass_subpass (bind c);
  sb_fb : bind_fb (bind c') = bind_fb (bind c);
  sb_render_pass_changed : render_pass_changed (bind c') = render_pass_changed (bind c);
  sb_draw_count : draw_count (bind c') = draw_count (bind c);
  sb_wa_flags : wa_flags (bind c') = wa_flags (bind c)
}.

(** [same_bind], and the batch grows by items that satisfy [P]. *)
Definition quiet (P : Z * item -> Prop) (c c' : intel_cmd) : Prop :=
  same_bind c c' /\ batch_grows P c c'.

(** The batch is left as it is. *)
Definition batch_kept : intel_cmd -> intel_cmd -> Prop := batch_grows (fun _ => False).

(** The two packets of [cmd_wa_gen6_pre_depth_stall_write]. *)
Definition wa_stall_packet : packet :=
  PKT_PIPE_CONTROL
    (Z.lor GEN6_PIPE_CONTROL_CS_STALL GEN6_PIPE_CONTROL_PIXEL_SCOREBOARD_STALL) 0.

Definition wa_write_packet : packet := PKT_PIPE_CONTROL GEN6_PIPE_CONTROL_WRITE_IMM 0.

(** The workaround is due: a draw has been recorded and the flag is clear. *)
Definition wa_due (c : intel_cmd) : bool :=
  negb (draw_count (bind c) =? 0) &&
  negb (has (wa_flags (bind c)) INTEL_CMD_WA_GEN6_PRE_DEPTH_STALL_WRITE).

(** [same_bind] but for the workaround flags. *)
Definition same_bind_but_wa (c c' : intel_cmd) : Prop :=
  same_bind (set_bind (set_wa_flags (wa_flags (bind c')) (bind c)) c) c'.

(** The flag word [cmd_batch_flush] hands to [gen6_PIPE_CONTROL]. *)
Definition flush_word (pipe_control_dw0 : Z) : Z :=
  if has pipe_control_dw0 GEN6_PIPE_CONTROL_CS_STALL &&
     negb (has pipe_control_dw0 COMPANION_MASK)
  then Z.lor pipe_control_dw0 GEN6_PIPE_CONTROL_PIXEL_SCOREBOARD_STALL
  else pipe_control_dw0.

(** ** Sample recordings *)

Definition sample_shader (addr : Z) (code : list Z) : intel_pipeline_shader :=
  mk_shader addr (Z.of_nat (length code)) code None 0 0.

Definition sample_dev (gen : Z) (nocache : bool) : intel_dev :=
  mk_dev gen nocache
    (fun _ _ => mk_desc_surface None false [] 0)
    (mk_null_view 6 [0; 0; 0; 0; 0; 0])
    (fun id => sample_shader (- id) [7; 7; 7; 7])
    (fun _ => true).

Definition sample_pipeline (addr : Z) (vs_code : list Z) (wa : Z) : intel_pipeline :=
  mk_pipeline SHADER_VERTEX_FLAG
    (sample_shader addr vs_code) (sample_shader (addr + 100) [])
    (sample_shader (addr + 200) []) (sample_shader (addr + 300) [])
    (sample_shader (addr + 400) [])
    GEN6_3DPRIM_TRILIST false 0 wa 2 [1; 2] 0 0.

Definition empty_writer : intel_cmd_writer := mk_writer 0 0 0 [].

(** A command buffer as recording begins: nothing written, no draw yet. *)
Definition fresh_cmd (d : intel_dev) (p : intel_pipeline) : intel_cmd :=
  mk_cmd d 4242
    (mk_bind None p 0 0 0 0 0 (mk_buf 1024 77) 0 VK_INDEX_TYPE_UINT16
       (mk_subpass 0 [] 0 false) (mk_fb 0 [] 64 64) true
       (mk_dset_data [] 0 [] 0) (mk_shader_cache [] 0 0) 0 0)
    empty_writer empty_writer empty_writer empty_writer
    (replicate 16 (mk_reloc INTEL_CMD_WRITER_BATCH 0 (TARGET_BO 0) 0 0)) 0 16
    VK_SUCCESS.

(** The same after [n] draws. *)
Definition drawn_cmd (d : intel_dev) (p : intel_pipeline) (n : Z) : intel_cmd :=
  let c := fresh_cmd d p in
  set_bind (set_draw_count n (bind c)) c.

Definition sample_gen7 : intel_dev := sample_dev INTEL_GEN_7 false.

Definition sample_p : intel_pipeline := sample_pipeline 1000 [5; 5; 5; 5] 0.

(** The state a recording ends in; the state it started in, had an
    assertion failed. *)
Definition state_after {A} (m : M A) (c : intel_cmd) : intel_cmd :=
  match m c with
  | Ok (_, c') => c'
  | AssertFail => c
  end.

Definition host_write_barrier : VkMemoryBarrier :=
  mk_mem_barrier VK_STRUCTURE_TYPE_MEMORY_BARRIER VK_ACCESS_HOST_WRITE_BIT 0.

Definition no_meta_ds_op (op : intel_cmd_meta_ds_op) (img : intel_img)
    (range : VkImageSubresourceRange) : M unit := ret tt.

(** The table has [reloc_count] entries, of which [reloc_used] are in use. *)
Definition reloc_inv (c : intel_cmd) : Prop :=
  0 <= reloc_used c <= reloc_count c /\
  reloc_count c < 2 ^ 31 /\
  Z.of_nat (length (relocs c)) = reloc_count c.

Definition reloc_overflow (c : intel_cmd) (reloc_len : Z) : bool :=
  u32 (reloc_used c + reloc_len) >? reloc_count c.

(** [cmd_writer_reloc] for each entry of [rs], in turn. *)
Fixpoint add_relocs (rs : list intel_cmd_reloc) : M unit :=
  match rs with
  | [] => ret tt
  | r :: rs =>
      exec cmd_writer_reloc (reloc_which r) (reloc_offset r) (reloc_target r)
             (reloc_target_offset r) (reloc_flags r) in
      add_relocs rs
  end.

(** Any interleaving of reservations and additions. *)
Inductive reloc_op :=
| RESERVE (reloc_len : Z)
| RELOC (r : intel_cmd_reloc).

Fixpoint reloc_ops (ops : list reloc_op) : M unit :=
  match ops with
  | [] => ret tt
  | RESERVE n :: ops => exec cmd_reserve_reloc n in reloc_ops ops
  | RELOC r :: ops => exec add_relocs [r] in reloc_ops ops
  end.

Definition nearly_full_cmd : intel_cmd :=
  set_reloc_used 15 (fresh_cmd sample_gen7 sample_p).

Definition max_extent (gen : Z) : Z := if gen >=? INTEL_GEN_7 then 32768 else 16384.

(** What the emitters of [other_op] have in common in the source: they
    write commands other than PIPE_CONTROL to the batch, dynamic state,
    surfaces and relocations; they leave the device, the bound state and the
    instruction buffer alone. *)
Definition other_frame (emit_other : other_op -> M unit) : Prop :=
  forall op c c',
    emit_other op c = Ok (tt, c') ->
    dev c' = dev c /\ scratch_bo c' = scratch_bo c /\ bind c' = bind c /\
    w_instruction c' = w_instruction c /\ reloc_count c' = reloc_count c /\
    batch_grows (fun it => is_pipe_control it = false) c c'.

(** The emitter used in the sample recordings: one command of two dwords. *)
Definition sample_emit_other (op : other_op) : M unit :=
  let* pos := cmd_batch_pointer 2 (PKT_OTHER [0; 0]) in
  ret tt.

(** The write of [cmd_wa_gen6_pre_depth_stall_write]: the one PIPE_CONTROL
    whose flag word is exactly the immediate write. *)
Definition is_wa_write (it : Z * item) : bool :=
  match snd it with
  | ITEM_PACKET (PKT_PIPE_CONTROL dw1 _) => dw1 =? GEN6_PIPE_CONTROL_WRITE_IMM
  | _ => false
  end.

(** How many times the workaround is in the batch. *)
Fixpoint wa_count (l : list (Z * item)) : Z :=
  match l with
  | [] => 0
  | it :: l => (if is_wa_write it then 1 else 0) + wa_count l
  end.

Definition wa_total (c : intel_cmd) : Z := wa_count (batch_items c).

Definition wa_flag (c : intel_cmd) : bool :=
  has (wa_flags (bind c)) INTEL_CMD_WA_GEN6_PRE_DEPTH_STALL_WRITE.

(** One if the workaround is due, else zero. *)
Definition pending (c : intel_cmd) : Z := if wa_due c then 1 else 0.

Record same_env (c c' : intel_cmd) : Prop := mk_same_env {
  se_dev : dev c' = dev c;
  se_scratch_bo : scratch_bo c' = scratch_bo c;
  se_meta : bind_meta (bind c') = bind_meta (bind c);
  se_pipeline : pipeline_graphics (bind c') = pipeline_graphics (bind c);
  se_index_buf : index_buf (bind c') = index_buf (bind c);
  se_index_offset : index_offset (bind c') = index_offset (bind c);
  se_index_type : index_type (bind c') = index_type (bind c);
  se_render_pass_changed : render_pass_changed (bind c') = render_pass_changed (bind c);
  se_draw_count : draw_count (bind c') = draw_count (bind c)
}.

(** A step within a draw: the workaround is either still due or in the
    batch, and its flag is not cleared. *)
Definition wa_step (c c' : intel_cmd) : Prop :=
  same_env c c' /\
  wa_total c' + pending c' = wa_total c + pending c /\
  (wa_flag c = true -> wa_flag c' = true).

Definition not_wa_write (it : Z * item) : Prop := is_wa_write it = false.

(** The flag word of [cmd_batch_flush_all]. *)
Definition flush_all_flags : Z :=
  Z.lor (Z.lor (Z.lor (Z.lor (Z.lor
    GEN6_PIPE_CONTROL_INSTRUCTION_CACHE_INVALIDATE
    GEN6_PIPE_CONTROL_RENDER_CACHE_FLUSH)
    GEN6_PIPE_CONTROL_DEPTH_CACHE_FLUSH)
    GEN6_PIPE_CONTROL_VF_CACHE_INVALIDATE)
    GEN6_PIPE_CONTROL_TEXTURE_CACHE_INVALIDATE)
    GEN6_PIPE_CONTROL_CS_STALL.

(** A pipeline that asks for the workaround, and a recording of three
    operations with it. *)
Definition sample_wa_pipeline : intel_pipeline :=
  sample_pipeline 1000 [5; 5; 5; 5] INTEL_CMD_WA_GEN6_PRE_DEPTH_STALL_WRITE.

Definition sample_draws_before : list draw_op := [DRAW 0 3 0 1 false 0].

Definition sample_draw : draw_op := DRAW 0 3 0 1 true 0.

Definition sample_draws_after : list draw_op :=
  [DRAW_META (mk_meta INTEL_CMD_META_FS_RECT 0 true 4 4)].

(** A pipeline with primitive restart on. *)
Definition restart_pipeline (prim cut_index : Z) : intel_pipeline :=
  mk_pipeline SHADER_VERTEX_FLAG
    (sample_shader 1000 [5; 5; 5; 5]) (sample_shader 1100 [])
    (sample_shader 1200 []) (sample_shader 1300 []) (sample_shader 1400 [])
    prim true cut_index 0 2 [1; 2] 0 0.

(** What [gen6_can_primitive_restart] answers, as a value. *)
Definition can_restart_value (c : intel_cmd) : bool :=
  let p := pipeline_graphics (bind c) in
  if cmd_gen c >=? INTEL_GEN_7_5 then negb (prim_type p =? GEN6_3DPRIM_RECTLIST)
  else
    ((prim_type p =? GEN6_3DPRIM_POINTLIST) || (prim_type p =? GEN6_3DPRIM_LINELIST) ||
     (prim_type p =? GEN6_3DPRIM_LINESTRIP) || (prim_type p =? GEN6_3DPRIM_TRILIST) ||
     (prim_type p =? GEN6_3DPRIM_TRISTRIP)) &&
    match index_type (bind c) with
    | VK_INDEX_TYPE_UINT16 => negb (primitive_restart_index p =? 0xffff)
    | VK_INDEX_TYPE_UINT32 => negb (primitive_restart_index p =? 0xffffffff)
    | _ => false
    end.

(** The offset the cache holds for the shader object at [addr]. *)
Definition cached (c : intel_cmd) (addr : Z) : option Z :=
  let cache := shader_cache (bind c) in
  shader_cache_find (take (Z.to_nat (sc_used cache)) (sc_entries cache)) addr.

(** The entries in use and the entries counted are within the array. *)
Definition cache_inv (cache : intel_cmd_shader_cache) : Prop :=
  0 <= sc_used cache <= Z.of_nat (length (sc_entries cache)) /\
  sc_count cache <= Z.of_nat (length (sc_entries cache)) /\
  sc_count cache < 2 ^ 32.

(** There is room for one more entry, or the array can be grown. *)
Definition cache_room (c : intel_cmd) : Prop :=
  let cache := shader_cache (bind c) in
  sc_used cache < sc_count cache \/
  (intel_alloc_ok (dev c) (sizeof_shader_cache_entry * u32 (sc_count cache + 16)) = true /\
   sc_used cache < u32 (sc_count cache + 16)).

(** The cache of [emit_shader] after "grow the cache if full". *)
Definition shader_cache_grow (d : intel_dev) (cache : intel_cmd_shader_cache) :
    intel_cmd_shader_cache :=
  if sc_used cache >=? sc_count cache then
    let count := u32 (sc_count cache + 16) in
    if intel_alloc_ok d (sizeof_shader_cache_entry * count) then
      mk_shader_cache
        (take (Z.to_nat (sc_used cache)) (sc_entries cache) ++
         replicate (Z.to_nat (count - sc_used cache)) (0, 0))
        (sc_used cache) count
    else cache
  else cache.

(** The cache of [emit_shader] after "add the shader to the cache". *)
Definition shader_cache_put (cache : intel_cmd_shader_cache) (addr offset : Z) :
    intel_cmd_shader_cache :=
  if sc_used cache <? sc_count cache then
    mk_shader_cache
      (<[Z.to_nat (sc_used cache) := (addr, offset)]> (sc_entries cache))
      (u32 (sc_used cache + 1)) (sc_count cache)
  else cache.

(** The cache after a shader that was not in it has been written at
    [offset]. *)
Definition shader_cache_add (d : intel_dev) (cache : intel_cmd_shader_cache)
    (addr offset : Z) : intel_cmd_shader_cache :=
  shader_cache_put (shader_cache_grow d cache) addr offset.

(** What is recorded between two uses of a shader: other shaders are
    emitted, and whatever else is done leaves the cache alone. *)
Inductive recording_steps : intel_cmd -> intel_cmd -> Prop :=
| rs_refl c : recording_steps c c
| rs_emit sh off c c1 c2 :
    emit_shader sh c = Ok (off, c1) -> recording_steps c1 c2 -> recording_steps c c2
| rs_other c c1 c2 :
    shader_cache (bind c1) = shader_cache (bind c) ->
    recording_steps c1 c2 -> recording_steps c c2.

(** Two pipelines made from the same vertex shader blob. *)
Definition blob_pipeline_1 : intel_pipeline := sample_pipeline 1000 [5; 5; 5; 5] 0.

Definition blob_pipeline_2 : intel_pipeline := sample_pipeline 2000 [5; 5; 5; 5] 0.

(** The null view of the device, as [cmd_surface_write] stores it. *)
Definition null_view_record (d : intel_dev) : list Z :=
  take (Z.to_nat (nv_cmd_len (dev_null_view d))) (nv_cmd (dev_null_view d)).

(** The surface states a slot can get: the null view, the surface state of
    an attachment view of the framebuffer, or that of a descriptor with
    memory behind it. *)
Inductive slot_surface (d : intel_dev) (b : intel_cmd_bind)
    (stage : VkShaderStageFlagBits) (slot : intel_pipeline_rmap_slot) : list Z -> Prop :=
| surface_null : slot_surface d b stage slot (null_view_record d)
| surface_rt i view :
    slot_type slot = INTEL_PIPELINE_RMAP_RT ->
    fb_views (bind_fb b) !! i = Some (Some view) ->
    slot_surface d b stage slot (take (Z.to_nat (av_cmd_len view)) (att_cmd view))
| surface_desc desc_offset bo :
    slot_type slot = INTEL_PIPELINE_RMAP_SURFACE ->
    sd_mem (desc_region d desc_offset stage) = Some bo ->
    slot_surface d b stage slot
      (take (Z.to_nat (sd_cmd_len (desc_region d desc_offset stage)))
         (sd_cmd (desc_region d desc_offset stage))).

(** What the surface writer gained, the device and the bindings as they
    were. *)
Definition surface_adds (new : list (Z * item)) (c c' : intel_cmd) : Prop :=
  dev c' = dev c /\ bind c' = bind c /\
  w_sba_offset (w_surface c') = w_sba_offset (w_surface c) /\
  w_items (w_surface c') = w_items (w_surface c) ++ new.

Definition surface_kept : intel_cmd -> intel_cmd -> Prop := surface_adds [].

(** A resource map with slots of every kind, none of them backed. *)
Definition sample_rmap : intel_pipeline_rmap :=
  mk_rmap 1 1 1 0 0
    [mk_slot INTEL_PIPELINE_RMAP_RT 0 (mk_desc_offset 0 0) (-1);
     mk_slot INTEL_PIPELINE_RMAP_UNUSED 0 (mk_desc_offset 0 0) (-1);
     mk_slot INTEL_PIPELINE_RMAP_SURFACE 0 (mk_desc_offset 0 0) (-1)].

(** A command buffer with one descriptor set bound. *)
Definition sample_bound_cmd : intel_cmd :=
  let c := fresh_cmd sample_gen7 sample_p in
  set_bind (set_graphics_data (mk_dset_data [mk_desc_offset 0 0] 1 [] 0) (bind c)) c.

(** * Further parts of the recording engine *)

(** ** cmd_priv.h: the end of the batch *)

(** Modelled from the spec: [GEN6_MI_CMD(op)] is a macro of [genhw/genhw.h],
    which is not among the sources; the MI opcodes sit in bits 23 to 28 of the
    header dword, [MI_NOOP] is 0 and [MI_BATCH_BUFFER_END] is 0xa. *)
Definition GEN6_MI_NOOP : Z := 0.
Definition GEN6_MI_BATCH_BUFFER_END : Z := Z.shiftl 0xa 23.

Definition cmd_batch_end : M unit :=
  let* cmd := get in
  let writer := writers cmd INTEL_CMD_WRITER_BATCH in
  if negb (Z.land (w_used writer) 0x7 =? 0) then
    let* pos := cmd_batch_pointer 1 (PKT_OTHER [GEN6_MI_BATCH_BUFFER_END]) in
    ret tt
  else
    let* pos := cmd_batch_pointer 2
                  (PKT_OTHER [GEN6_MI_BATCH_BUFFER_END; GEN6_MI_NOOP]) in
    ret tt.

(** ** Vocabulary of the further properties *)

(** The command buffer with [len] dwords of packet [p] added to the batch. *)
Definition batch_append (len : Z) (p : packet) (c : intel_cmd) : intel_cmd :=
  let w := w_batch c in
  set_writer INTEL_CMD_WRITER_BATCH
    (mk_writer (Z.max (w_used w + 4 * len) (w_size w)) (w_used w + 4 * len)
       (w_sba_offset w) (w_items w ++ [(w_used w, ITEM_PACKET p)])) c.

(** A command buffer on a supported generation, its batch a whole number
    of dwords, its relocation table in order and not empty. *)
Definition cmd_wf (c : intel_cmd) : Prop :=
  INTEL_GEN_6 <= cmd_gen c <= INTEL_GEN_7_5 /\
  w_used (w_batch c) mod 4 = 0 /\
  reloc_inv c /\ 1 <= reloc_count c.

(** The bits of which one has to go with a CS stall, as [gen6_PIPE_CONTROL]
    gathers them in [bit_test]. *)
Definition cs_stall_companions (gen : Z) : Z :=
  let bit_test := Z.lor (Z.lor (Z.lor GEN6_PIPE_CONTROL_RENDER_CACHE_FLUSH
                                      GEN6_PIPE_CONTROL_DEPTH_CACHE_FLUSH)
                               GEN6_PIPE_CONTROL_PIXEL_SCOREBOARD_STALL)
                        GEN6_PIPE_CONTROL_DEPTH_STALL in
  let bit_test := Z.lor bit_test
                    (Z.lor (Z.lor GEN6_PIPE_CONTROL_WRITE_IMM
                                  GEN6_PIPE_CONTROL_WRITE_PS_DEPTH_COUNT)
                           GEN6_PIPE_CONTROL_WRITE_TIMESTAMP) in
  if gen =? INTEL_GEN_6 then Z.lor bit_test GEN6_PIPE_CONTROL_NOTIFY_ENABLE
  else bit_test.

(** The two rules on the flags of a PIPE_CONTROL. *)
Definition pipe_control_rules (gen dw1 : Z) : bool :=
  (negb (has dw1 GEN6_PIPE_CONTROL_CS_STALL) || has dw1 (cs_stall_companions gen)) &&
  (negb (has dw1 GEN6_PIPE_CONTROL_DEPTH_STALL) ||
   negb (has dw1 (Z.lor GEN6_PIPE_CONTROL_RENDER_CACHE_FLUSH
                        GEN6_PIPE_CONTROL_DEPTH_CACHE_FLUSH))).

(** The command buffer after [cmd_reserve_reloc n]. *)
Definition reloc_reserved (n : Z) (c : intel_cmd) : intel_cmd :=
  if reloc_overflow c n
  then set_result VK_ERROR_VALIDATION_FAILED_EXT (set_reloc_used 0 c) else c.

(** The command buffer with one more relocation. *)
Definition reloc_added (r : intel_cmd_reloc) (c : intel_cmd) : intel_cmd :=
  set_reloc_used (u32 (reloc_used c + 1))
    (set_relocs (<[Z.to_nat (reloc_used c) := r]> (relocs c)) c).

(** The relocation [gen6_PIPE_CONTROL] records for its write to [bo]: for
    the third dword of the packet, through the global GTT on generation 6. *)
Definition pipe_control_reloc (gen pos bo bo_offset : Z) : intel_cmd_reloc :=
  let ggtt := gen =? INTEL_GEN_6 in
  mk_reloc INTEL_CMD_WRITER_BATCH (Z.shiftl (pos + 2) 2) (TARGET_BO bo)
    (if ggtt then Z.lor bo_offset GEN6_PIPE_CONTROL_DW2_USE_GGTT else bo_offset)
    (if ggtt then Z.lor INTEL_RELOC_WRITE INTEL_RELOC_GGTT else INTEL_RELOC_WRITE).

(** The command buffer after [gen6_PIPE_CONTROL]. *)
Definition pipe_control_added (dw1 bo bo_offset imm : Z) (c : intel_cmd) : intel_cmd :=
  let c1 := batch_append 5 (PKT_PIPE_CONTROL dw1 imm) c in
  if bo =? 0 then c1
  else reloc_added
         (pipe_control_reloc (cmd_gen c) (u32 (Z.shiftr (w_used (w_batch c)) 2))
            bo bo_offset)
         (reloc_reserved 1 c1).

(** The command buffer with the flag of the depth-stall-write workaround
    set. *)
Definition with_wa_flag (c : intel_cmd) : intel_cmd :=
  set_bind (set_wa_flags
              (Z.lor (wa_flags (bind c)) INTEL_CMD_WA_GEN6_PRE_DEPTH_STALL_WRITE)
              (bind c)) c.

(** The command buffer after [cmd_wa_gen6_pre_depth_stall_write]. *)
Definition wa_written (c : intel_cmd) : intel_cmd :=
  if wa_due c then
    pipe_control_added GEN6_PIPE_CONTROL_WRITE_IMM (scratch_bo c) 0 0
      (pipe_control_added
         (Z.lor GEN6_PIPE_CONTROL_CS_STALL GEN6_PIPE_CONTROL_PIXEL_SCOREBOARD_STALL)
         0 0 0 (with_wa_flag c))
  else c.

(** The packets of the depth-stall-write workaround, when it is due. *)
Definition wa_packets (c : intel_cmd) : list item :=
  if wa_due c then [ITEM_PACKET wa_stall_packet; ITEM_PACKET wa_write_packet] else [].

(** A PIPE_CONTROL with flags [dw1] and nothing to write. *)
Definition pipe_control (dw1 : Z) : item := ITEM_PACKET (PKT_PIPE_CONTROL dw1 0).

(** What the batch gained between [c] and [c'], without the offsets. *)
Definition written (c c' : intel_cmd) : list item := map snd (emitted c c').

(** The batch of [c'] is that of [c] and more. *)
Definition extends (c c' : intel_cmd) : Prop :=
  exists new, batch_items c' = batch_items c ++ new.

(** A flag word without depth stall and without post-sync write. *)
Definition flush_flags_ok (f : Z) : Prop :=
  has f GEN6_PIPE_CONTROL_WRITE__MASK = false /\
  has f GEN6_PIPE_CONTROL_DEPTH_STALL = false.

(** The end of the index buffer as [gen6_3DSTATE_INDEX_BUFFER] computes it
    ("aligned and inclusive"), for indices of [offset_align] bytes. *)
Definition index_end_offset (buf : intel_buf) (offset_align : Z) : Z :=
  u32 (buf_size buf - (buf_size buf) mod offset_align - 1).

(** The size of an index, for the two index types that are supported. *)
Definition index_size (type : VkIndexType) : option Z :=
  match type with
  | VK_INDEX_TYPE_UINT16 => Some 2
  | VK_INDEX_TYPE_UINT32 => Some 4
  | _ => None
  end.

(** The descriptor set data are in order when each count is the length of
    its array. *)
Definition dset_data_wf (data : intel_cmd_dset_data) : Prop :=
  Z.of_nat (length (set_offsets data)) = set_offset_count data /\
  Z.of_nat (length (dynamic_offsets data)) = dynamic_offset_count data.

(** What [cmd_adjust_state_base_address] makes room for: the surface states
    and binding tables of one draw. *)
Definition max_surface_write (c : intel_cmd) : Z :=
  match bind_meta (bind c) with
  | Some _ => 64 * 4
  | None => cmd_get_max_surface_write c
  end.

(** How far the surface writer is used past its base address. *)
Definition surface_window (c : intel_cmd) : Z :=
  w_used (w_surface c) - w_sba_offset (w_surface c).

(** The relocation of dword [k] of the packet at [used] in the batch to the
    base address of [writer]. *)
Definition base_address_reloc (used k : Z) (writer : intel_cmd_writer_type)
    (sba_offset : Z) : intel_cmd_reloc :=
  mk_reloc INTEL_CMD_WRITER_BATCH (used + 4 * k) (TARGET_WRITER writer)
    (sba_offset + 1) INTEL_CMD_RELOC_TARGET_IS_WRITER.

(** The source and the destination access masks of the memory and the
    buffer barriers of a call. *)
Definition src_access (mbs : list VkMemoryBarrier) (bbs : list VkBufferMemoryBarrier)
    : list Z :=
  map mb_srcAccessMask mbs ++ map bb_srcAccessMask bbs.

Definition dst_access (mbs : list VkMemoryBarrier) (bbs : list VkBufferMemoryBarrier)
    : list Z :=
  map mb_dstAccessMask mbs ++ map bb_dstAccessMask bbs.

(** One of the masks has one of the bits. *)
Definition some_has (masks : list Z) (bits : Z) : Prop :=
  Exists (fun m => has m bits = true) masks.

(** ** cmd_pipeline.c: post-sync writes *)

Definition cmd_batch_depth_count (bo offset : Z) : M unit :=
  exec cmd_wa_gen6_pre_depth_stall_write in
  gen6_PIPE_CONTROL
    (Z.lor GEN6_PIPE_CONTROL_DEPTH_STALL GEN6_PIPE_CONTROL_WRITE_PS_DEPTH_COUNT)
    bo (u32 offset) 0.

Definition cmd_batch_timestamp (bo offset : Z) : M unit :=
  (* need any WA or stall? *)
  gen6_PIPE_CONTROL GEN6_PIPE_CONTROL_WRITE_TIMESTAMP bo (u32 offset) 0.

Definition cmd_batch_immediate (pipe_control_flags bo offset val : Z) : M unit :=
  (* need any WA or stall? *)
  gen6_PIPE_CONTROL (Z.lor GEN6_PIPE_CONTROL_WRITE_IMM pipe_control_flags)
    bo (u32 offset) val.

(** ** desc.h: offsets into the descriptor region *)

Definition intel_desc_offset_sub (lhs rhs : intel_desc_offset) : intel_desc_offset :=
  mk_desc_offset (u32 (do_surface lhs - do_surface rhs))
                 (u32 (do_sampler lhs - do_sampler rhs)).

Definition intel_desc_offset_mad (lhs rhs : intel_desc_offset) (lhs_scale : Z)
    : intel_desc_offset :=
  mk_desc_offset (u32 (do_surface lhs * lhs_scale + do_surface rhs))
                 (u32 (do_sampler lhs * lhs_scale + do_sampler rhs)).

Definition intel_desc_offset_within (offset other : intel_desc_offset) : bool :=
  (do_surface offset <=? do_surface other) && (do_sampler offset <=? do_sampler other).

(** Both offsets are 32-bit numbers. *)
Definition desc_offset_wf (o : intel_desc_offset) : Prop :=
  0 <= do_surface o < 2 ^ 32 /\ 0 <= do_sampler o < 2 ^ 32.

(** * Properties *)

(** ** Reasoning about recordings *)

Lemma bind_m_ok {A B} (m : M A) (k : A -> M B) c r :
  bind_m m k c = Ok r <-> exists a c1, m c = Ok (a, c1) /\ k a c1 = Ok r.
Proof.
  unfold bind_m. split.
  - destruct (m c) as [[a c1]|] eqn:E; [|discriminate]. eauto.
  - intros (a & c1 & -> & H). exact H.
Qed.

Lemma assert_ok b c r : assert b c = Ok r <-> b = true /\ r = (tt, c).
Proof.
  unfold assert. destruct b; split; try discriminate.
  - intros [= <-]. auto.
  - intros [_ ->]. reflexivity.
  - intros [? _]. discriminate.
Qed.

Lemma in_bounds_ok {A} (a : list A) i c r :
  in_bounds a i c = Ok r -> snd r = c.
Proof.
  unfold in_bounds. destruct (i <? 0); [discriminate|].
  destruct (a !! Z.to_nat i); [|discriminate]. intros [= <-]. reflexivity.
Qed.

Section Keeps.

Variable R : intel_cmd -> intel_cmd -> Prop.
Hypothesis R_refl : forall c, R c c.
Hypothesis R_trans : forall c1 c2 c3, R c1 c2 -> R c2 c3 -> R c1 c3.

Lemma keeps_ret {A} (a : A) : keeps R (ret a).
  Proof. intros c a' c' [= _ <-]. apply R_refl. Qed.

Lemma keeps_get : keeps R get.
  Proof. intros c a' c' [= _ <-]. apply R_refl. Qed.

Lemma keeps_assert b : keeps R (assert b).
  Proof. intros c a c' H. apply assert_ok in H as [_ [= _ <-]]. apply R_refl. Qed.

Lemma keeps_in_bounds {A} (l : list A) i : keeps R (in_bounds l i).
  Proof. intros c a c' H. apply in_bounds_ok in H. simpl in H. subst. apply R_refl. Qed.

Lemma keeps_bind {A B} (m : M A) (k : A -> M B) :
    keeps R m -> (forall a, keeps R (k a)) -> keeps R (bind_m m k).
  Proof.
    intros Hm Hk c b c' H. apply bind_m_ok in H as (a & c1 & H1 & H2).
    eapply R_trans; [eapply Hm | eapply Hk]; eassumption.
  Qed.

Lemma keeps_when b (m : M unit) : keeps R m -> keeps R (when b m).
  Proof. intros Hm. destruct b; simpl; [exact Hm | apply keeps_ret]. Qed.

Lemma keeps_if {A} (b : bool) (m1 m2 : M A) :
    keeps R m1 -> keeps R m2 -> keeps R (if b then m1 else m2).
  Proof. destruct b; auto. Qed.

Lemma keeps_modify f : (forall c, R c (f c)) -> keeps R (modify f).
  Proof. intros Hf c a c' [= _ <-]. apply Hf. Qed.

  (** Reading the state first gives no more than the state itself. *)
Lemma keeps_get_bind {A} (k : intel_cmd -> M A) :
    (forall c, keeps R (k c)) -> keeps R (bind_m get k).
  Proof. intros Hk. apply keeps_bind; [apply keeps_get | exact Hk]. Qed.

End Keeps.

Create HintDb keeps discriminated.

(** One step through the text of a recording; [Hr] and [Ht] are the
    reflexivity and transitivity of the relation. *)
Ltac keeps_step Hr Ht :=
  lazymatch goal with
  | |- keeps _ (ret _) => apply (keeps_ret _ Hr)
  | |- keeps _ get => apply (keeps_get _ Hr)
  | |- keeps _ (assert _) => apply (keeps_assert _ Hr)
  | |- keeps _ (in_bounds _ _) => apply (keeps_in_bounds _ Hr)
  | |- keeps _ (bind_m _ _) => apply (keeps_bind _ Ht); [| intros ?]
  | |- keeps _ (when _ _) => apply (keeps_when _ Hr)
  | |- keeps _ (if ?b then _ else _) => destruct b
  | |- keeps _ (match ?x with _ => _ end) => destruct x
  end.

Ltac keeps_auto Hr Ht :=
  repeat first [ solve [auto 1 with keeps] | progress cbv zeta | keeps_step Hr Ht ].

(** ** Bits *)

Lemma has_lor_l a b m : has a m = true -> has (Z.lor a b) m = true.
Proof.
  unfold has. rewrite !negb_true_iff, !Z.eqb_neq. intros H E. apply H.
  rewrite Z.land_lor_distr_l in E. apply Z.lor_eq_0_iff in E. tauto.
Qed.

Lemma has_lor_r a b m : has b m = true -> has (Z.lor a b) m = true.
Proof. rewrite Z.lor_comm. apply has_lor_l. Qed.

Lemma has_lor_inv a b m :
  has (Z.lor a b) m = true -> has a m = true \/ has b m = true.
Proof.
  unfold has. rewrite !negb_true_iff, !Z.eqb_neq, Z.land_lor_distr_l.
  intros H. destruct (Z.eq_dec (Z.land a m) 0) as [E|E]; [right|left; exact E].
  intros E'. apply H. rewrite E, E'. reflexivity.
Qed.

Lemma has_lor_false a b m :
  has a m = false -> has b m = false -> has (Z.lor a b) m = false.
Proof.
  intros Ha Hb. destruct (has (Z.lor a b) m) eqn:E; [|reflexivity].
  apply has_lor_inv in E as [E|E]; congruence.
Qed.

(** ** The batch as a list of packets *)

Lemma batch_grows_refl P c : batch_grows P c c.
Proof. exists []. split; [symmetry; apply app_nil_r | constructor]. Qed.

Lemma batch_grows_trans P c1 c2 c3 :
  batch_grows P c1 c2 -> batch_grows P c2 c3 -> batch_grows P c1 c3.
Proof.
  intros (n1 & E1 & F1) (n2 & E2 & F2). exists (n1 ++ n2). split.
  - rewrite E2, E1, app_assoc. reflexivity.
  - apply Forall_app. auto.
Qed.

Lemma batch_grows_emitted P c c' :
  batch_grows P c c' ->
  batch_items c' = batch_items c ++ emitted c c' /\ Forall P (emitted c c').
Proof.
  intros (new & E & F). unfold emitted. rewrite E, drop_app_length. auto.
Qed.

Lemma batch_items_set_writer which w c :
  batch_items (set_writer which w c) =
  match which with
  | INTEL_CMD_WRITER_BATCH => w_items w
  | _ => batch_items c
  end.
Proof. destruct which; reflexivity. Qed.

Lemma same_batch_grows P c c' : batch_items c' = batch_items c -> batch_grows P c c'.
Proof. intros E. exists []. rewrite E, app_nil_r. split; [reflexivity | constructor]. Qed.

Lemma same_bind_refl c : same_bind c c.
Proof. constructor; reflexivity. Qed.

Lemma same_bind_trans c1 c2 c3 : same_bind c1 c2 -> same_bind c2 c3 -> same_bind c1 c3.
Proof. intros [] []. constructor; congruence. Qed.

Lemma quiet_refl P c : quiet P c c.
Proof. split; [apply same_bind_refl | apply batch_grows_refl]. Qed.

Lemma quiet_trans P c1 c2 c3 : quiet P c1 c2 -> quiet P c2 c3 -> quiet P c1 c3.
Proof.
  intros [] []. split; [eapply same_bind_trans | eapply batch_grows_trans]; eassumption.
Qed.

Lemma quiet_weaken (P Q : Z * item -> Prop) c c' :
  (forall it, P it -> Q it) -> quiet P c c' -> quiet Q c c'.
Proof.
  intros HPQ [Hs (new & E & F)]. split; [exact Hs|]. exists new. split; [exact E|].
  eapply Forall_impl; eassumption.
Qed.

Lemma keeps_weaken {A} (R S : intel_cmd -> intel_cmd -> Prop) (m : M A) :
  (forall c c', R c c' -> S c c') -> keeps R m -> keeps S m.
Proof. intros HRS Hm c a c' H. eauto. Qed.

Ltac quiet_modify :=
  apply keeps_modify; intros ?; split;
    [ constructor; try reflexivity | apply same_batch_grows; try reflexivity ].

Ltac quiet_modify_emit :=
  apply keeps_modify; intros ?; split;
    [ constructor; try reflexivity | eexists; split; [reflexivity|] ].

Section Quiet.

Variable P : Z * item -> Prop.

Let Hr := quiet_refl P.
Let Ht := quiet_trans P.

Lemma quiet_cmd_fail r : keeps (quiet P) (cmd_fail r).
  Proof. quiet_modify. Qed.

Lemma quiet_CMD_ASSERT lo hi : keeps (quiet P) (CMD_ASSERT lo hi).
  Proof. unfold CMD_ASSERT. keeps_auto Hr Ht. Qed.

Lemma quiet_cmd_reserve_reloc n : keeps (quiet P) (cmd_reserve_reloc n).
  Proof.
    pose proof quiet_cmd_fail.
    unfold cmd_reserve_reloc. keeps_auto Hr Ht. quiet_modify.
  Qed.

Lemma quiet_cmd_writer_reloc which o t to f :
    keeps (quiet P) (cmd_writer_reloc which o t to f).
  Proof. unfold cmd_writer_reloc. keeps_auto Hr Ht; quiet_modify. Qed.

Lemma quiet_cmd_writer_reserve which al sz :
    keeps (quiet P) (cmd_writer_reserve which al sz).
  Proof.
    unfold cmd_writer_reserve, cmd_writer_grow. keeps_auto Hr Ht.
    quiet_modify; destruct which; reflexivity.
  Qed.

Lemma quiet_cmd_batch_pointer len p :
    (forall o, P (o, ITEM_PACKET p)) ->
    keeps (quiet P) (cmd_batch_pointer len p).
  Proof.
    intros HP. pose proof quiet_cmd_writer_reserve.
    unfold cmd_batch_pointer, writer_commit. keeps_auto Hr Ht.
    quiet_modify_emit. constructor; [apply HP | constructor].
  Qed.

Lemma quiet_other_writer which o sz it :
    which <> INTEL_CMD_WRITER_BATCH ->
    keeps (quiet P) (writer_commit which o sz it).
  Proof.
    intros Hw. unfold writer_commit.
    quiet_modify; destruct which; first [reflexivity | congruence].
  Qed.

Lemma quiet_cmd_batch_reloc pos bo bo_offset flags :
    keeps (quiet P) (cmd_batch_reloc pos bo bo_offset flags).
  Proof. apply quiet_cmd_writer_reloc. Qed.

Lemma quiet_gen6_PIPE_CONTROL dw1 bo bo_offset imm :
    (forall o, P (o, ITEM_PACKET (PKT_PIPE_CONTROL dw1 imm))) ->
    keeps (quiet P) (gen6_PIPE_CONTROL dw1 bo bo_offset imm).
  Proof.
    intros HP.
    pose proof quiet_CMD_ASSERT. pose proof quiet_cmd_reserve_reloc.
    pose proof (quiet_cmd_batch_pointer 5 _ HP).
    pose proof quiet_cmd_batch_reloc.
    unfold gen6_PIPE_CONTROL. keeps_auto Hr Ht.
  Qed.

End Quiet.

Lemma batch_kept_eq c c' : batch_kept c c' -> batch_items c' = batch_items c.
Proof.
  intros (new & E & F). destruct new as [|x new].
  - rewrite E, app_nil_r. reflexivity.
  - inversion F as [|? ? []].
Qed.

(** Rewriting the head of a recording. *)

Lemma bind_assoc {A B C} (m : M A) (k1 : A -> M B) (k2 : B -> M C) c :
  bind_m (bind_m m k1) k2 c = bind_m m (fun x => bind_m (k1 x) k2) c.
Proof. unfold bind_m. destruct (m c) as [[a c1]|]; reflexivity. Qed.

Lemma bind_get {B} (k : intel_cmd -> M B) c : bind_m get k c = k c c.
Proof. reflexivity. Qed.

Lemma bind_ret {A B} (a : A) (k : A -> M B) c : bind_m (ret a) k c = k a c.
Proof. reflexivity. Qed.

Lemma bind_modify {B} f (k : unit -> M B) c : bind_m (modify f) k c = k tt (f c).
Proof. reflexivity. Qed.

Lemma bind_assert {B} b (k : unit -> M B) c :
  bind_m (assert b) k c = if b then k tt c else AssertFail.
Proof. destruct b; reflexivity. Qed.

Lemma bind_when {B} b m (k : unit -> M B) c :
  bind_m (when b m) k c = if b then bind_m m k c else k tt c.
Proof. destruct b; reflexivity. Qed.

Lemma bind_if {A B} (b : bool) (m1 m2 : M A) (k : A -> M B) c :
  bind_m (if b then m1 else m2) k c = if b then bind_m m1 k c else bind_m m2 k c.
Proof. destruct b; reflexivity. Qed.

Lemma when_eq b m c : when b m c = if b then m c else Ok (tt, c).
Proof. destruct b; reflexivity. Qed.

Lemma assert_eq b c : assert b c = if b then Ok (tt, c) else AssertFail.
Proof. reflexivity. Qed.

Lemma ret_eq {A} (a : A) c : ret a c = Ok (a, c).
Proof. reflexivity. Qed.

Lemma modify_eq f c : modify f c = Ok (tt, f c).
Proof. reflexivity. Qed.

Lemma if_app {A} (b : bool) (m1 m2 : M A) c :
  (if b then m1 else m2) c = if b then m1 c else m2 c.
Proof. destruct b; reflexivity. Qed.

Ltac mnorm H :=
  repeat first
    [ progress rewrite bind_assoc in H | progress rewrite bind_get in H
    | progress rewrite bind_ret in H | progress rewrite bind_modify in H
    | progress rewrite bind_assert in H | progress rewrite bind_when in H
    | progress rewrite when_eq in H | progress rewrite assert_eq in H
    | progress rewrite ret_eq in H | progress rewrite modify_eq in H
    | progress rewrite bind_if in H | progress rewrite if_app in H ].

(** Case analysis on the test at the head of [H], dropping the branch in
    which an assertion failed. *)
Ltac mcase H :=
  match type of H with
  | (if ?b then _ else _) = Ok _ =>
      let E := fresh "E" in destruct b eqn:E; [| try discriminate H]
  end.

Ltac msimp H := repeat (mnorm H; try mcase H).

Tactic Notation "inv_bind" hyp(H) "as" ident(a) ident(c1) ident(H1) :=
  apply bind_m_ok in H as (a & c1 & H1 & H).

Lemma cmd_batch_pointer_emits len p c pos c' :
  cmd_batch_pointer len p c = Ok (pos, c') ->
  exists o, batch_items c' = batch_items c ++ [(o, ITEM_PACKET p)].
Proof.
  unfold cmd_batch_pointer. intros H.
  inv_bind H as o c1 H1. apply quiet_cmd_writer_reserve with (P := fun _ => False) in H1.
  apply proj2, batch_kept_eq in H1. unfold writer_commit in H. msimp H.
  injection H as _ <-. exists o. unfold batch_items in *. simpl. rewrite H1.
  reflexivity.
Qed.

Lemma reloc_batch_kept n pos bo bo_offset flags :
  keeps batch_kept (bind_m (cmd_reserve_reloc n)
                      (fun _ => cmd_batch_reloc pos bo bo_offset flags)).
Proof.
  apply keeps_bind; [apply batch_grows_trans | |].
  - eapply keeps_weaken; [|apply (quiet_cmd_reserve_reloc (fun _ => False))].
    intros ? ? []; assumption.
  - intros _. eapply keeps_weaken; [|apply (quiet_cmd_batch_reloc (fun _ => False))].
    intros ? ? []; assumption.
Qed.

Lemma gen6_PIPE_CONTROL_emits dw1 bo bo_offset imm c c' :
  gen6_PIPE_CONTROL dw1 bo bo_offset imm c = Ok (tt, c') ->
  exists o, batch_items c' = batch_items c ++ [(o, ITEM_PACKET (PKT_PIPE_CONTROL dw1 imm))].
Proof.
  unfold gen6_PIPE_CONTROL, CMD_ASSERT. intros H. msimp H.
  all: inv_bind H as pos c1 H1; apply cmd_batch_pointer_emits in H1 as (o & H1);
    exists o; rewrite <- H1; clear H1; revert H;
    destruct (negb (bo =? 0)); simpl;
    [ intros H; apply reloc_batch_kept in H; apply batch_kept_eq in H; exact H
    | intros [= <-]; reflexivity ].
Qed.

(** ** The guarded workaround *)

Lemma same_bind_set_wa c f c' :
  same_bind (set_bind (set_wa_flags f (bind c)) c) c' ->
  wa_flags (bind c') = f /\ same_bind_but_wa c c'.
Proof.
  intros H. pose proof (sb_wa_flags _ _ H) as E. simpl in E. split; [exact E|].
  unfold same_bind_but_wa. rewrite E. exact H.
Qed.

Lemma cmd_wa_gen6_pre_depth_stall_write_spec c c' :
  cmd_wa_gen6_pre_depth_stall_write c = Ok (tt, c') ->
  if wa_due c then
    same_bind_but_wa c c' /\
    wa_flags (bind c') =
      Z.lor (wa_flags (bind c)) INTEL_CMD_WA_GEN6_PRE_DEPTH_STALL_WRITE /\
    exists o1 o2,
      batch_items c' =
      batch_items c ++ [(o1, ITEM_PACKET wa_stall_packet); (o2, ITEM_PACKET wa_write_packet)]
  else c' = c.
Proof.
  unfold cmd_wa_gen6_pre_depth_stall_write, CMD_ASSERT, wa_due. intros H. msimp H.
  - injection H as <-. reflexivity.
  - injection H as <-. simpl. reflexivity.
  - simpl. inv_bind H as u c1 H1.
    pose proof (quiet_gen6_PIPE_CONTROL (fun _ => True) _ _ _ _ (fun _ => I) _ _ _ H1)
      as [S1 _].
    pose proof (quiet_gen6_PIPE_CONTROL (fun _ => True) _ _ _ _ (fun _ => I) _ _ _ H)
      as [S2 _].
    destruct u. apply gen6_PIPE_CONTROL_emits in H1 as (o1 & B1).
    apply gen6_PIPE_CONTROL_emits in H as (o2 & B2).
    pose proof (same_bind_trans _ _ _ S1 S2) as S.
    apply same_bind_set_wa in S as [W S]. split; [exact S|]. split; [exact W|].
    exists o1, o2. rewrite B2, B1, <- app_assoc. reflexivity.
Qed.

(** ** cmd_batch_flush *)

Lemma flush_word_stall_has_companion f : stall_has_companion (flush_word f).
Proof.
  unfold stall_has_companion, flush_word.
  destruct (has f GEN6_PIPE_CONTROL_CS_STALL) eqn:Ecs;
    destruct (has f COMPANION_MASK) eqn:Ecm; simpl; intros H; try congruence.
  apply has_lor_r. reflexivity.
Qed.

(** What a successful [cmd_batch_flush] does: nothing, or the guarded
    workaround when the render cache is flushed, then one PIPE_CONTROL with
    [flush_word]. *)
Lemma cmd_batch_flush_spec f c c' :
  cmd_batch_flush f c = Ok (tt, c') ->
  if (f =? 0) || (draw_count (bind c) =? 0) then c' = c
  else
    exists c1 o,
      (if has f GEN6_PIPE_CONTROL_RENDER_CACHE_FLUSH
       then cmd_wa_gen6_pre_depth_stall_write c = Ok (tt, c1) else c1 = c) /\
      same_bind c1 c' /\
      batch_items c' =
      batch_items c1 ++ [(o, ITEM_PACKET (PKT_PIPE_CONTROL (flush_word f) 0))].
Proof.
  unfold cmd_batch_flush. intros H. msimp H.
  - injection H as <-. reflexivity.
  - injection H as <-. simpl. reflexivity.
  - simpl. inv_bind H as u c1 H1. destruct u. exists c1.
    pose proof (quiet_gen6_PIPE_CONTROL (fun _ => True) _ _ _ _ (fun _ => I) _ _ _ H)
      as [S _].
    apply gen6_PIPE_CONTROL_emits in H as (o & B). exists o. auto.
  - simpl.
    pose proof (quiet_gen6_PIPE_CONTROL (fun _ => True) _ _ _ _ (fun _ => I) _ _ _ H)
      as [S _].
    apply gen6_PIPE_CONTROL_emits in H as (o & B). exists c, o. auto.
Qed.

Lemma emitted_app c c' new :
  batch_items c' = batch_items c ++ new -> emitted c c' = new.
Proof. intros E. unfold emitted. rewrite E, drop_app_length. reflexivity. Qed.

Lemma emitted_same c : emitted c c = [].
Proof. apply emitted_app. rewrite app_nil_r. reflexivity. Qed.

Lemma wa_packets_stall_ok o1 o2 :
  Forall item_stall_ok [(o1, ITEM_PACKET wa_stall_packet); (o2, ITEM_PACKET wa_write_packet)].
Proof.
  constructor; [|constructor; [|constructor]];
    unfold item_stall_ok, stall_has_companion; simpl.
  - intros _. reflexivity.
  - intros H. vm_compute in H. discriminate.
Qed.

(** Every PIPE_CONTROL that [cmd_batch_flush] writes to the batch, the
    workaround's included, has a companion bit when it has the CS stall,
    and the last one carries [flush_word]. *)
Lemma cmd_batch_flush_stall_ok f c c' :
  cmd_batch_flush f c = Ok (tt, c') ->
  batch_items c' = batch_items c ++ emitted c c' /\
  Forall item_stall_ok (emitted c c') /\
  (emitted c c' = [] \/
   exists o, last (emitted c c') =
             Some (o, ITEM_PACKET (PKT_PIPE_CONTROL (flush_word f) 0))).
Proof.
  intros H. apply cmd_batch_flush_spec in H.
  destruct ((f =? 0) || (draw_count (bind c) =? 0)).
  - subst c'. rewrite emitted_same, app_nil_r. repeat split; [constructor | left; reflexivity].
  - destruct H as (c1 & o & Hwa & _ & B).
    assert (Hfin : item_stall_ok (o, ITEM_PACKET (PKT_PIPE_CONTROL (flush_word f) 0)))
      by apply flush_word_stall_has_companion.
    assert (E : exists pre, batch_items c1 = batch_items c ++ pre /\ Forall item_stall_ok pre).
    { destruct (has f GEN6_PIPE_CONTROL_RENDER_CACHE_FLUSH).
      - apply cmd_wa_gen6_pre_depth_stall_write_spec in Hwa. destruct (wa_due c).
        + destruct Hwa as (_ & _ & o1 & o2 & B1). eexists. split; [exact B1|].
          apply wa_packets_stall_ok.
        + subst c1. exists []. rewrite app_nil_r. split; [reflexivity | constructor].
      - subst c1. exists []. rewrite app_nil_r. split; [reflexivity | constructor]. }
    destruct E as (pre & E & F). rewrite E, <- app_assoc in B.
    rewrite (emitted_app _ _ _ B). split; [exact B|]. split.
    + apply Forall_app. split; [exact F | repeat constructor; exact Hfin].
    + right. exists o. apply last_snoc.
Qed.

(** Nothing to flush, or nothing drawn: [cmd_batch_flush] returns at once. *)
Lemma cmd_batch_flush_skips (c : intel_cmd) (pipe_control_dw0 : Z) :
  pipe_control_dw0 = 0 \/ draw_count (bind c) = 0 ->
  cmd_batch_flush pipe_control_dw0 c = Ok (tt, c).
Proof.
  intros H. unfold cmd_batch_flush. rewrite bind_get, !if_app.
  destruct H as [-> | ->]; [reflexivity|].
  destruct (pipe_control_dw0 =? 0); reflexivity.
Qed.

(** ** C5: cmd_batch_flush without flags or without a draw *)

(** C5. [cmd_batch_flush] returns with the command buffer exactly as it was
    (so nothing written to the batch) when the flag word is zero, and when
    no draw has been recorded yet ([bind.draw_count == 0]). *)
Theorem cmd_batch_flush_noop (c : intel_cmd) (pipe_control_dw0 : Z) :
  pipe_control_dw0 = 0 \/ draw_count (bind c) = 0 ->
  cmd_batch_flush pipe_control_dw0 c = Ok (tt, c).
Proof. apply cmd_batch_flush_skips. Qed.

Lemma cmd_batch_flush_noop_witness :
  cmd_batch_flush GEN6_PIPE_CONTROL_CS_STALL (fresh_cmd sample_gen7 sample_p)
  = Ok (tt, fresh_cmd sample_gen7 sample_p) /\
  cmd_batch_flush 0 (drawn_cmd sample_gen7 sample_p 3)
  = Ok (tt, drawn_cmd sample_gen7 sample_p 3).
Proof.
  split.
  - apply (cmd_batch_flush_noop (fresh_cmd sample_gen7 sample_p)). right. reflexivity.
  - apply (cmd_batch_flush_noop (drawn_cmd sample_gen7 sample_p 3)). left. reflexivity.
Defined.

(** ** C1: no CS stall alone *)

(** C1. A barrier or wait-events call that returns runs the three loops
    over its barriers and then [cmd_batch_flush] with the flag word they
    computed.  Every PIPE_CONTROL this flush writes has, whenever its
    CS-stall bit is set, one of render-cache flush, depth-cache flush,
    pixel-scoreboard stall or depth stall set too; the last one carries
    [flush_word], the computed flags with the pixel-scoreboard stall added
    when the CS stall would otherwise stand alone. *)
Theorem barrier_stall_has_companion
    (cmd_meta_ds_op : intel_cmd_meta_ds_op -> intel_img -> VkImageSubresourceRange -> M unit)
    (events : list Z) (srcStageMask dstStageMask dependencyFlags : Z)
    (mem : list VkMemoryBarrier) (buf : list VkBufferMemoryBarrier)
    (img : list VkImageMemoryBarrier) (c c' : intel_cmd) :
  vkCmdPipelineBarrier cmd_meta_ds_op srcStageMask dstStageMask dependencyFlags
    mem buf img c = Ok (tt, c') \/
  vkCmdWaitEvents cmd_meta_ds_op events srcStageMask dstStageMask
    mem buf img c = Ok (tt, c') ->
  exists flush_flags a c1,
    barrier_loops cmd_meta_ds_op flush_flags mem buf img c = Ok (a, c1) /\
    cmd_batch_flush (barrier_flush_flags a) c1 = Ok (tt, c') /\
    batch_items c' = batch_items c1 ++ emitted c1 c' /\
    Forall item_stall_ok (emitted c1 c') /\
    (emitted c1 c' = [] \/
     exists o, last (emitted c1 c') =
               Some (o, ITEM_PACKET (PKT_PIPE_CONTROL (flush_word (barrier_flush_flags a)) 0))) /\
    stall_has_companion (flush_word (barrier_flush_flags a)).
Proof.
  unfold vkCmdPipelineBarrier, vkCmdWaitEvents, cmd_memory_barriers.
  intros [H | H]; inv_bind H as a c1 H1; eexists _, a, c1;
    (split; [exact H1|]); (split; [exact H|]);
    apply cmd_batch_flush_stall_ok in H as (B & F & L);
    repeat split; auto using flush_word_stall_has_companion.
Qed.

Lemma barrier_stall_has_companion_witness :
  let c := drawn_cmd sample_gen7 sample_p 1 in
  let call := vkCmdPipelineBarrier no_meta_ds_op VK_PIPELINE_STAGE_TOP_OF_PIPE_BIT
                VK_PIPELINE_STAGE_TOP_OF_PIPE_BIT 0 [host_write_barrier] [] [] in
  call c = Ok (tt, state_after call c) /\
  exists flush_flags a c1,
    barrier_loops no_meta_ds_op flush_flags [host_write_barrier] [] [] c = Ok (a, c1) /\
    cmd_batch_flush (barrier_flush_flags a) c1 = Ok (tt, state_after call c) /\
    batch_items (state_after call c) = batch_items c1 ++ emitted c1 (state_after call c) /\
    Forall item_stall_ok (emitted c1 (state_after call c)) /\
    (emitted c1 (state_after call c) = [] \/
     exists o, last (emitted c1 (state_after call c)) =
               Some (o, ITEM_PACKET (PKT_PIPE_CONTROL (flush_word (barrier_flush_flags a)) 0))) /\
    stall_has_companion (flush_word (barrier_flush_flags a)).
Proof.
  intros c call. split; [vm_compute; reflexivity|].
  apply (barrier_stall_has_companion no_meta_ds_op [] VK_PIPELINE_STAGE_TOP_OF_PIPE_BIT
           VK_PIPELINE_STAGE_TOP_OF_PIPE_BIT 0 [host_write_barrier] [] [] c
           (state_after call c)).
  left. vm_compute. reflexivity.
Defined.

(** ** C6: a barrier with only a host write *)

Lemma host_write_barrier_flags cmd_meta_ds_op flush_flags c :
  cmd_memory_barriers cmd_meta_ds_op flush_flags [host_write_barrier] [] [] c
  = cmd_batch_flush flush_flags c.
Proof. reflexivity. Qed.

(** C6, as the specification states it, fails: with a stage mask that names
    a stage other than the host, and a draw recorded before, the barrier
    writes a PIPE_CONTROL (CS stall with pixel-scoreboard stall). *)
Lemma host_write_barrier_writes_pipe_control :
  let c := drawn_cmd sample_gen7 sample_p 1 in
  exists c',
    vkCmdPipelineBarrier no_meta_ds_op VK_PIPELINE_STAGE_TOP_OF_PIPE_BIT
      VK_PIPELINE_STAGE_TOP_OF_PIPE_BIT 0 [host_write_barrier] [] [] c = Ok (tt, c') /\
    emitted c c' =
      [(0, ITEM_PACKET (PKT_PIPE_CONTROL
              (Z.lor GEN6_PIPE_CONTROL_CS_STALL
                     GEN6_PIPE_CONTROL_PIXEL_SCOREBOARD_STALL) 0))] /\
    emitted c c' <> [].
Proof.
  intros c. eexists. split; [vm_compute; reflexivity|].
  split; [vm_compute; reflexivity | vm_compute; discriminate].
Qed.

(** C6, amended.  For a pipeline barrier made of the single memory barrier
    [srcAccessMask = VK_ACCESS_HOST_WRITE_BIT], [dstAccessMask = 0]:
    the host write adds no flag, so the flag word is the one the stage
    masks give.  When neither stage mask names a stage other than the host
    it is zero and the call leaves the command buffer as it was, no
    PIPE_CONTROL written.  Otherwise it is the CS stall alone, no cache
    flush or invalidate bit: nothing is written before the first draw, and
    after a draw exactly one PIPE_CONTROL, the CS stall with the
    pixel-scoreboard stall. *)
Theorem host_write_barrier_flush
    (cmd_meta_ds_op : intel_cmd_meta_ds_op -> intel_img -> VkImageSubresourceRange -> M unit)
    (srcStageMask dstStageMask dependencyFlags : Z) (c : intel_cmd) :
  let call := vkCmdPipelineBarrier cmd_meta_ds_op srcStageMask dstStageMask
                dependencyFlags [host_write_barrier] [] [] in
  if has srcStageMask (Z.lnot VK_PIPELINE_STAGE_HOST_BIT) ||
     has dstStageMask (Z.lnot VK_PIPELINE_STAGE_HOST_BIT)
  then
    call c = cmd_batch_flush GEN6_PIPE_CONTROL_CS_STALL c /\
    (draw_count (bind c) = 0 -> call c = Ok (tt, c)) /\
    (forall c', draw_count (bind c) <> 0 -> call c = Ok (tt, c') ->
       exists o,
         batch_items c' =
         batch_items c ++
           [(o, ITEM_PACKET (PKT_PIPE_CONTROL
                   (Z.lor GEN6_PIPE_CONTROL_CS_STALL
                          GEN6_PIPE_CONTROL_PIXEL_SCOREBOARD_STALL) 0))])
  else call c = Ok (tt, c).
Proof.
  intros call. unfold call, vkCmdPipelineBarrier.
  destruct (has srcStageMask (Z.lnot VK_PIPELINE_STAGE_HOST_BIT) ||
            has dstStageMask (Z.lnot VK_PIPELINE_STAGE_HOST_BIT));
    rewrite host_write_barrier_flags.
  - split; [reflexivity|]. split.
    + intros H. apply cmd_batch_flush_skips. right. exact H.
    + intros c' Hd H. apply cmd_batch_flush_spec in H.
      apply Z.eqb_neq in Hd. rewrite Hd in H. simpl in H.
      destruct H as (c1 & o & -> & _ & B). exists o. exact B.
  - apply cmd_batch_flush_skips. left. reflexivity.
Qed.

Lemma host_write_barrier_flush_witness :
  vkCmdPipelineBarrier no_meta_ds_op VK_PIPELINE_STAGE_HOST_BIT
    VK_PIPELINE_STAGE_HOST_BIT 0 [host_write_barrier] [] []
    (drawn_cmd sample_gen7 sample_p 1)
  = Ok (tt, drawn_cmd sample_gen7 sample_p 1).
Proof.
  exact (host_write_barrier_flush no_meta_ds_op VK_PIPELINE_STAGE_HOST_BIT
           VK_PIPELINE_STAGE_HOST_BIT 0 (drawn_cmd sample_gen7 sample_p 1)).
Defined.

(** ** C7: the relocation table *)

Lemma u32_small x : 0 <= x < 2 ^ 32 -> u32 x = x.
Proof. intros H. unfold u32. apply Z.mod_small. exact H. Qed.

Lemma u32_range x : 0 <= u32 x < 2 ^ 32.
Proof. unfold u32. apply Z.mod_pos_bound. lia. Qed.

Lemma cmd_reserve_reloc_spec n c c' :
  cmd_reserve_reloc n c = Ok (tt, c') ->
  c' = (if reloc_overflow c n
        then set_result VK_ERROR_VALIDATION_FAILED_EXT (set_reloc_used 0 c) else c) /\
  u32 (reloc_used c' + n) <= reloc_count c'.
Proof.
  unfold cmd_reserve_reloc, cmd_fail, reloc_overflow. intros H. msimp H.
  - injection H as <-. split; [reflexivity|]. simpl in *. lia.
  - injection H as <-. split; [reflexivity|]. lia.
Qed.

Lemma cmd_reserve_reloc_returns n c :
  0 <= n <= reloc_count c -> reloc_count c < 2 ^ 31 ->
  exists c', cmd_reserve_reloc n c = Ok (tt, c').
Proof.
  intros Hn Hc. unfold cmd_reserve_reloc, cmd_fail.
  rewrite bind_get, bind_when. destruct (u32 (reloc_used c + n) >? reloc_count c) eqn:E.
  - rewrite bind_assoc, !bind_modify, bind_get, assert_eq. simpl.
    rewrite Z.add_0_l, u32_small by lia.
    destruct (n <=? reloc_count c) eqn:E'; [eauto | lia].
  - rewrite bind_get, assert_eq.
    destruct (u32 (reloc_used c + n) <=? reloc_count c) eqn:E'; [eauto | lia].
Qed.

Lemma cmd_writer_reloc_spec which o t to f c c' :
  cmd_writer_reloc which o t to f c = Ok (tt, c') ->
  reloc_used c < reloc_count c /\
  c' = set_reloc_used (u32 (reloc_used c + 1))
         (set_relocs (<[Z.to_nat (reloc_used c) := mk_reloc which o t to f]> (relocs c)) c).
Proof.
  unfold cmd_writer_reloc. intros H. msimp H. injection H as <-.
  split; [lia | reflexivity].
Qed.

Lemma cmd_writer_reloc_returns which o t to f c :
  reloc_used c < reloc_count c ->
  exists c', cmd_writer_reloc which o t to f c = Ok (tt, c').
Proof.
  intros H. unfold cmd_writer_reloc. rewrite bind_get, bind_assert.
  destruct (reloc_used c <? reloc_count c) eqn:E; [|lia].
  rewrite bind_modify, modify_eq. eauto.
Qed.

Lemma reloc_inv_reserve n c c' :
  reloc_inv c -> cmd_reserve_reloc n c = Ok (tt, c') -> reloc_inv c'.
Proof.
  intros (Hu & Hc & Hl) H. apply cmd_reserve_reloc_spec in H as [-> _].
  destruct (reloc_overflow c n); unfold reloc_inv; simpl; repeat split; lia.
Qed.

Lemma reloc_inv_reloc which o t to f c c' :
  reloc_inv c -> cmd_writer_reloc which o t to f c = Ok (tt, c') -> reloc_inv c'.
Proof.
  intros (Hu & Hc & Hl) H. apply cmd_writer_reloc_spec in H as [Hlt ->].
  unfold reloc_inv. simpl. rewrite length_insert, u32_small by lia. repeat split; lia.
Qed.

(** Whatever the recording reserves and adds, the count stays within the
    table and the failure code, once set, stays. *)
Lemma reloc_ops_inv ops : forall c c',
  reloc_inv c -> reloc_ops ops c = Ok (tt, c') ->
  reloc_inv c' /\ reloc_count c' = reloc_count c /\
  (result c = VK_ERROR_VALIDATION_FAILED_EXT -> result c' = VK_ERROR_VALIDATION_FAILED_EXT).
Proof.
  induction ops as [|[n|r] ops IH]; intros c c' Hi H; simpl in H.
  - injection H as <-. auto.
  - inv_bind H as u c1 H1. destruct u.
    pose proof (reloc_inv_reserve _ _ _ Hi H1) as Hi1.
    apply cmd_reserve_reloc_spec in H1 as [E1 _].
    destruct (IH _ _ Hi1 H) as (Hi' & Hc' & Hr'). split; [exact Hi'|].
    subst c1. destruct (reloc_overflow c n); simpl in *; auto.
  - rewrite !bind_assoc in H. inv_bind H as u c1 H1. destruct u. rewrite bind_ret in H.
    pose proof (reloc_inv_reloc _ _ _ _ _ _ _ Hi H1) as Hi1.
    apply cmd_writer_reloc_spec in H1 as [_ E1].
    destruct (IH _ _ Hi1 H) as (Hi' & Hc' & Hr'). split; [exact Hi'|].
    subst c1. simpl in *. auto.
Qed.

(** The entries added under a reservation that covers them. *)
Lemma add_relocs_reserved rs : forall c,
  reloc_inv c -> reloc_used c + Z.of_nat (length rs) <= reloc_count c ->
  exists c',
    add_relocs rs c = Ok (tt, c') /\
    reloc_used c' = reloc_used c + Z.of_nat (length rs) /\
    reloc_count c' = reloc_count c /\ result c' = result c /\
    length (relocs c') = length (relocs c) /\
    (forall i r, rs !! i = Some r ->
       (Z.to_nat (reloc_used c) + i < Z.to_nat (reloc_count c))%nat /\
       relocs c' !! (Z.to_nat (reloc_used c) + i)%nat = Some r) /\
    (forall j, (j < Z.to_nat (reloc_used c))%nat -> relocs c' !! j = relocs c !! j).
Proof.
  induction rs as [|r rs IH]; intros c Hi Hn.
  - exists c. simpl. repeat split; try lia; rewrite lookup_nil in *; discriminate.
  - simpl length in Hn. destruct Hi as (Hu & Hc & Hl).
    destruct (cmd_writer_reloc_returns (reloc_which r) (reloc_offset r) (reloc_target r)
                (reloc_target_offset r) (reloc_flags r) c) as (c1 & H1); [lia|].
    pose proof (reloc_inv_reloc _ _ _ _ _ _ _ (conj Hu (conj Hc Hl)) H1) as Hi1.
    pose proof H1 as H1'. apply cmd_writer_reloc_spec in H1' as [Hlt E1].
    assert (Eu : reloc_used c1 = reloc_used c + 1)
      by (subst c1; simpl; apply u32_small; lia).
    assert (Ec : reloc_count c1 = reloc_count c) by (subst c1; reflexivity).
    assert (Er : relocs c1 =
                 <[Z.to_nat (reloc_used c) := r]> (relocs c))
      by (subst c1; destruct r; reflexivity).
    destruct (IH c1 Hi1) as (c' & H & Hu' & Hc' & Hr' & Hl' & Hw & Hk); [lia|].
    exists c'. simpl. unfold bind_m. rewrite H1. split; [exact H|].
    split; [lia|]. split; [congruence|].
    split; [rewrite Hr'; subst c1; reflexivity|].
    split; [rewrite Hl', Er, length_insert; reflexivity|]. split.
    + intros [|i] r' Hr.
      * injection Hr as <-. split; [lia|]. rewrite Nat.add_0_r, Hk by lia.
        rewrite Er. apply list_lookup_insert_eq. lia.
      * simpl in Hr. destruct (Hw i r' Hr) as [Hb Hs]. rewrite Eu in Hb, Hs.
        replace (Z.to_nat (reloc_used c) + S i)%nat
          with (Z.to_nat (reloc_used c + 1) + i)%nat by lia.
        split; [lia | exact Hs].
    + intros j Hj. rewrite Hk by lia. rewrite Er.
      apply list_lookup_insert_ne. lia.
Qed.

Lemma cmd_reserve_reloc_too_long n c :
  reloc_inv c -> reloc_count c < n -> reloc_used c + n < 2 ^ 32 ->
  cmd_reserve_reloc n c = AssertFail.
Proof.
  intros (Hu & Hc & _) Hn Hw. unfold cmd_reserve_reloc, cmd_fail.
  rewrite bind_get, bind_when, u32_small by lia.
  destruct (reloc_used c + n >? reloc_count c) eqn:E; [|lia].
  rewrite bind_assoc, !bind_modify, bind_get, assert_eq. simpl.
  rewrite Z.add_0_l, u32_small by lia.
  destruct (n <=? reloc_count c) eqn:E'; [lia | reflexivity].
Qed.

(** C7. In a command buffer whose relocation count is within its table
    ([reloc_inv]):
    - whatever is reserved and added afterwards, a recording that returns
      leaves the count within the table, the capacity as it was, and a
      failure code in place once set;
    - an entry is only ever written at an index below [reloc_count];
    - [cmd_reserve_reloc] of a length the table can hold returns; when
      [reloc_used + reloc_len > reloc_count] it restarts the count at zero
      and marks the command buffer [VK_ERROR_VALIDATION_FAILED_EXT],
      otherwise it changes nothing; the entries added under the reservation
      are then all stored, each at an index inside the table, and the
      failure code stays;
    - a reservation longer than the whole table stops at the assertion. *)
Theorem reloc_count_within_capacity (c : intel_cmd) :
  reloc_inv c ->
  (forall ops c', reloc_ops ops c = Ok (tt, c') ->
     0 <= reloc_used c' <= reloc_count c' /\ reloc_count c' = reloc_count c /\
     (result c = VK_ERROR_VALIDATION_FAILED_EXT ->
      result c' = VK_ERROR_VALIDATION_FAILED_EXT)) /\
  (forall which o t to f c', cmd_writer_reloc which o t to f c = Ok (tt, c') ->
     reloc_used c < reloc_count c /\
     relocs c' = <[Z.to_nat (reloc_used c) := mk_reloc which o t to f]> (relocs c) /\
     reloc_used c' = reloc_used c + 1) /\
  (forall reloc_len, 0 <= reloc_len <= reloc_count c ->
     exists c1,
       cmd_reserve_reloc reloc_len c = Ok (tt, c1) /\
       (reloc_used c + reloc_len > reloc_count c ->
        result c1 = VK_ERROR_VALIDATION_FAILED_EXT /\ reloc_used c1 = 0) /\
       (reloc_used c + reloc_len <= reloc_count c -> c1 = c) /\
       reloc_used c1 + reloc_len <= reloc_count c1 /\
       forall rs, Z.of_nat (length rs) <= reloc_len ->
         exists c',
           add_relocs rs c1 = Ok (tt, c') /\
           result c' = result c1 /\
           reloc_used c' = reloc_used c1 + Z.of_nat (length rs) /\
           reloc_used c' <= reloc_count c' /\ reloc_count c' = reloc_count c /\
           forall i r, rs !! i = Some r ->
             (Z.to_nat (reloc_used c1) + i < Z.to_nat (reloc_count c))%nat /\
             relocs c' !! (Z.to_nat (reloc_used c1) + i)%nat = Some r) /\
  (forall reloc_len, reloc_count c < reloc_len -> reloc_used c + reloc_len < 2 ^ 32 ->
     cmd_reserve_reloc reloc_len c = AssertFail).
Proof.
  intros Hi. pose proof Hi as (Hu & Hc & Hl). repeat apply conj.
  - intros ops c' H. destruct (reloc_ops_inv ops c c' Hi H) as ((Hu' & _) & Hc' & Hr').
    auto.
  - intros which o t to f c' H. apply cmd_writer_reloc_spec in H as [Hlt ->].
    simpl. rewrite u32_small by lia. auto.
  - intros n Hn. destruct (cmd_reserve_reloc_returns n c Hn Hc) as (c1 & H1).
    exists c1. split; [exact H1|].
    pose proof (reloc_inv_reserve _ _ _ Hi H1) as Hi1.
    apply cmd_reserve_reloc_spec in H1 as [E1 Hroom].
    unfold reloc_overflow in E1. rewrite u32_small in E1 by lia.
    assert (Hroom' : reloc_used c1 + n <= reloc_count c1).
    { destruct Hi1 as (Hu1 & Hc1 & _). rewrite u32_small in Hroom by lia. exact Hroom. }
    assert (Ec : reloc_count c1 = reloc_count c).
    { subst c1. destruct (reloc_used c + n >? reloc_count c); reflexivity. }
    split; [|split; [|split; [exact Hroom'|]]].
    + intros Ho. destruct (reloc_used c + n >? reloc_count c) eqn:E; [|lia].
      subst c1. auto.
    + intros Ho. destruct (reloc_used c + n >? reloc_count c) eqn:E; [lia|]. exact E1.
    + intros rs Hrs. destruct (add_relocs_reserved rs c1 Hi1) as
        (c' & H & Hu' & Hc' & Hr' & Hl' & Hw & _); [lia|].
      exists c'. rewrite <- Ec. repeat split; try assumption; try lia.
      * apply (Hw i r). assumption.
      * apply (Hw i r). assumption.
  - intros n Hn Hw. apply cmd_reserve_reloc_too_long; assumption.
Qed.

Lemma reloc_count_within_capacity_witness :
  reloc_inv nearly_full_cmd /\
  exists c1,
    cmd_reserve_reloc 3 nearly_full_cmd = Ok (tt, c1) /\
    result c1 = VK_ERROR_VALIDATION_FAILED_EXT /\ reloc_used c1 = 0.
Proof.
  assert (Hi : reloc_inv nearly_full_cmd) by (unfold reloc_inv; simpl; lia).
  split; [exact Hi|].
  destruct (reloc_count_within_capacity nearly_full_cmd Hi) as (_ & _ & H & _).
  destruct (H 3) as (c1 & H1 & Ho & _); [simpl; lia|].
  exists c1. split; [exact H1|]. apply Ho. simpl. lia.
Defined.

(** ** C10: the guard band *)

(** What the code does ensure: an 8192 by 8192 square inside
    [[-max_extent, max_extent]], centred where the viewport is unless it
    had to be moved inside. *)
Lemma viewport_get_guardband_square gen center_x center_y :
  let '(min_gbx, max_gbx, min_gby, max_gby) :=
    viewport_get_guardband gen center_x center_y in
  max_gbx - min_gbx = 8192 /\ max_gby - min_gby = 8192 /\
  - max_extent gen <= min_gbx /\ max_gbx <= max_extent gen /\
  - max_extent gen <= min_gby /\ max_gby <= max_extent gen /\
  (- max_extent gen <= center_x - 4096 -> center_x + 4096 <= max_extent gen - 1 ->
   min_gbx = center_x - 4096 /\ max_gbx = center_x + 4096) /\
  (- max_extent gen <= center_y - 4096 -> center_y + 4096 <= max_extent gen - 1 ->
   min_gby = center_y - 4096 /\ max_gby = center_y + 4096).
Proof.
  unfold viewport_get_guardband, max_extent.
  change (8192 / 2) with 4096.
  destruct (gen >=? INTEL_GEN_7);
    repeat match goal with
           | |- context [if ?b then _ else _] => destruct b eqn:?
           end; lia.
Qed.

(** C10. The claim does not hold of the code: a viewport centred at
    x = 30000 on generation 7 is moved so that the band ends at 32768,
    one past the last addressable coordinate 32767 (the clamp sets the
    centre to [max_extent - half_len] where [max_extent - 1 - half_len]
    was needed). *)
Theorem viewport_get_guardband_past_extent :
  viewport_get_guardband INTEL_GEN_7 30000 0 = (24576, 32768, -4096, 4096) /\
  32768 > max_extent INTEL_GEN_7 - 1.
Proof. split; [reflexivity | vm_compute; reflexivity]. Qed.

(** ** C9: operations that are not implemented *)

(** C9. The indirect draws and the dispatches stop at their assertion;
    [vkCmdPushConstants] does not: it returns, the command buffer as it
    was. *)
Theorem unimplemented_operations (c : intel_cmd)
    (buffer offset drawCount stride x y z layout stageFlags size : Z)
    (pValues : list Z) :
  vkCmdDrawIndirect buffer offset drawCount stride c = AssertFail /\
  vkCmdDrawIndexedIndirect buffer offset drawCount stride c = AssertFail /\
  vkCmdDispatch x y z c = AssertFail /\
  vkCmdDispatchIndirect buffer offset c = AssertFail /\
  vkCmdPushConstants layout stageFlags offset size pValues c = Ok (tt, c).
Proof. repeat split. Qed.

(** ** Recording steps that leave the bound state alone *)

Section QuietEmitters.

Variable P : Z * item -> Prop.

Let Hr := quiet_refl P.
Let Ht := quiet_trans P.

Lemma quiet_cmd_surface_write it al len dw :
  keeps (quiet P) (cmd_surface_write it al len dw).
Proof.
  pose proof (quiet_cmd_writer_reserve P).
  pose proof (quiet_other_writer P INTEL_CMD_WRITER_SURFACE) as Hw.
  unfold cmd_surface_write. keeps_auto Hr Ht; apply Hw; discriminate.
Qed.

Lemma quiet_cmd_surface_reloc o i bo bo_offset flags :
  keeps (quiet P) (cmd_surface_reloc o i bo bo_offset flags).
Proof. apply quiet_cmd_writer_reloc. Qed.

Lemma quiet_cmd_instruction_write size kernel :
  keeps (quiet P) (cmd_instruction_write size kernel).
Proof.
  pose proof (quiet_cmd_writer_reserve P).
  pose proof (quiet_other_writer P INTEL_CMD_WRITER_INSTRUCTION) as Hw.
  unfold cmd_instruction_write. keeps_auto Hr Ht; apply Hw; discriminate.
Qed.

Lemma quiet_emit_shader sh : keeps (quiet P) (emit_shader sh).
Proof.
  pose proof quiet_cmd_instruction_write.
  unfold emit_shader. keeps_auto Hr Ht. quiet_modify.
Qed.

Lemma quiet_emit_binding_table_slot stage slot :
  keeps (quiet P) (emit_binding_table_slot stage slot).
Proof.
  pose proof quiet_cmd_surface_write. pose proof quiet_cmd_surface_reloc.
  pose proof (quiet_cmd_reserve_reloc P).
  unfold emit_binding_table_slot. keeps_auto Hr Ht.
Qed.

Lemma quiet_emit_binding_table_loop stage sba slots : forall table,
  keeps (quiet P) (emit_binding_table_loop stage sba slots table).
Proof.
  pose proof quiet_emit_binding_table_slot.
  induction slots as [|slot slots IH]; intros table; simpl; keeps_auto Hr Ht.
Qed.

Lemma quiet_emit_binding_table rmap stage :
  keeps (quiet P) (emit_binding_table rmap stage).
Proof.
  pose proof quiet_emit_binding_table_loop. pose proof quiet_cmd_surface_write.
  pose proof (quiet_CMD_ASSERT P).
  unfold emit_binding_table. keeps_auto Hr Ht.
Qed.

Lemma quiet_cmd_batch_reloc_writer pos w o :
  keeps (quiet P) (cmd_batch_reloc_writer pos w o).
Proof. apply quiet_cmd_writer_reloc. Qed.

End QuietEmitters.

(** ** The opaque emitters *)

Lemma sample_emit_other_frame : other_frame sample_emit_other.
Proof.
  intros op c c' H. unfold sample_emit_other, cmd_batch_pointer, cmd_writer_reserve,
    cmd_writer_grow, writer_commit in H.
  msimp H; injection H as <-; repeat split;
    eexists; (split; [reflexivity|]); repeat constructor.
Qed.

Lemma other_frame_quiet emit_other (P : Z * item -> Prop) :
  other_frame emit_other ->
  (forall it, is_pipe_control it = false -> P it) ->
  forall op, keeps (quiet P) (emit_other op).
Proof.
  intros Hf HP op c [] c' H. destruct (Hf op c c' H) as (Hd & Hs & Hb & _ & Hc & Hg).
  split.
  - constructor; congruence.
  - destruct Hg as (new & E & F). exists new. split; [exact E|].
    eapply Forall_impl; eassumption.
Qed.

(** ** C3: the guarded workaround, once per draw *)

Lemma wa_count_app l1 l2 : wa_count (l1 ++ l2) = wa_count l1 + wa_count l2.
Proof. induction l1 as [|it l1 IH]; simpl; [reflexivity | rewrite IH; lia]. Qed.

Lemma wa_count_not_wa l : Forall not_wa_write l -> wa_count l = 0.
Proof.
  induction 1 as [|it l Hit _ IH]; simpl; [reflexivity|].
  unfold not_wa_write in Hit. rewrite Hit, IH. reflexivity.
Qed.

Lemma same_env_refl c : same_env c c.
Proof. constructor; reflexivity. Qed.

Lemma same_env_trans c1 c2 c3 : same_env c1 c2 -> same_env c2 c3 -> same_env c1 c3.
Proof. intros [] []. constructor; congruence. Qed.

Lemma same_bind_env c c' : same_bind c c' -> same_env c c'.
Proof. intros []. constructor; assumption. Qed.

Lemma same_bind_but_wa_env c c' : same_bind_but_wa c c' -> same_env c c'.
Proof. intros []. constructor; assumption. Qed.

Lemma wa_step_refl c : wa_step c c.
Proof. split; [apply same_env_refl | auto]. Qed.

Lemma wa_step_trans c1 c2 c3 : wa_step c1 c2 -> wa_step c2 c3 -> wa_step c1 c3.
Proof.
  intros (S1 & E1 & M1) (S2 & E2 & M2). split; [eapply same_env_trans; eassumption|].
  split; [lia | auto].
Qed.

Lemma pending_same c c' :
  draw_count (bind c') = draw_count (bind c) -> wa_flags (bind c') = wa_flags (bind c) ->
  pending c' = pending c.
Proof. intros Hd Hw. unfold pending, wa_due. rewrite Hd, Hw. reflexivity. Qed.

Lemma quiet_wa_step c c' : quiet not_wa_write c c' -> wa_step c c'.
Proof.
  intros [S (new & E & F)]. split; [apply same_bind_env; exact S|].
  destruct S. split.
  - unfold wa_total. rewrite E, wa_count_app, (wa_count_not_wa _ F).
    rewrite (pending_same c c') by assumption. lia.
  - unfold wa_flag. congruence.
Qed.

Lemma keeps_quiet_wa_step {A} (m : M A) : keeps (quiet not_wa_write) m -> keeps wa_step m.
Proof. apply keeps_weaken. exact quiet_wa_step. Qed.

Lemma wa_flag_set f :
  has (Z.lor f INTEL_CMD_WA_GEN6_PRE_DEPTH_STALL_WRITE)
      INTEL_CMD_WA_GEN6_PRE_DEPTH_STALL_WRITE = true.
Proof. apply has_lor_r. reflexivity. Qed.

(** After the guarded workaround nothing is due. *)
Lemma cmd_wa_gen6_pre_depth_stall_write_done c c' :
  cmd_wa_gen6_pre_depth_stall_write c = Ok (tt, c') -> wa_step c c' /\ pending c' = 0.
Proof.
  intros H. apply cmd_wa_gen6_pre_depth_stall_write_spec in H.
  destruct (wa_due c) eqn:Ed.
  - destruct H as (S & W & o1 & o2 & B). apply same_bind_but_wa_env in S.
    assert (Ed' : wa_due c' = false).
    { unfold wa_due. rewrite W, wa_flag_set. apply andb_false_r. }
    split; [|].
    + split; [exact S|]. split.
      * unfold wa_total, pending. rewrite B, wa_count_app, Ed, Ed'. simpl. lia.
      * intros _. unfold wa_flag. rewrite W. apply wa_flag_set.
    + unfold pending. rewrite Ed'. reflexivity.
  - subst c'. split; [apply wa_step_refl|]. unfold pending. rewrite Ed. reflexivity.
Qed.

Lemma wa_step_cmd_wa_gen6_pre_depth_stall_write :
  keeps wa_step cmd_wa_gen6_pre_depth_stall_write.
Proof. intros c [] c' H. apply cmd_wa_gen6_pre_depth_stall_write_done in H. tauto. Qed.

Lemma wa_step_gen6_PIPE_CONTROL dw1 bo bo_offset imm :
  (dw1 =? GEN6_PIPE_CONTROL_WRITE_IMM) = false ->
  keeps wa_step (gen6_PIPE_CONTROL dw1 bo bo_offset imm).
Proof.
  intros H. apply keeps_quiet_wa_step, quiet_gen6_PIPE_CONTROL.
  intros o. exact H.
Qed.

Lemma wa_step_cmd_batch_pointer len p :
  (match p with
   | PKT_PIPE_CONTROL dw1 _ => dw1 =? GEN6_PIPE_CONTROL_WRITE_IMM
   | _ => false
   end) = false ->
  keeps wa_step (cmd_batch_pointer len p).
Proof.
  intros H. apply keeps_quiet_wa_step, quiet_cmd_batch_pointer. intros o. exact H.
Qed.

Ltac wa_auto :=
  repeat first
    [ solve [auto 1]
    | apply wa_step_gen6_PIPE_CONTROL; reflexivity
    | apply wa_step_cmd_batch_pointer; reflexivity
    | apply keeps_quiet_wa_step;
      first [ apply quiet_CMD_ASSERT | apply quiet_cmd_reserve_reloc
            | apply quiet_cmd_batch_reloc | apply quiet_cmd_batch_reloc_writer
            | apply quiet_emit_shader | apply quiet_emit_binding_table ]
    | progress cbv zeta
    | keeps_step wa_step_refl wa_step_trans ].

Lemma wa_step_scoreboard_stall : keeps wa_step cmd_wa_gen6_pre_command_scoreboard_stall.
Proof. unfold cmd_wa_gen6_pre_command_scoreboard_stall. wa_auto. Qed.

Lemma wa_step_gen7_pre_vs : keeps wa_step cmd_wa_gen7_pre_vs_depth_stall_write.
Proof.
  pose proof wa_step_cmd_wa_gen6_pre_depth_stall_write.
  unfold cmd_wa_gen7_pre_vs_depth_stall_write. wa_auto.
Qed.

Lemma wa_step_gen7_post_cs : keeps wa_step cmd_wa_gen7_post_command_cs_stall.
Proof. unfold cmd_wa_gen7_post_command_cs_stall. wa_auto. Qed.

Lemma wa_step_gen7_post_depth : keeps wa_step cmd_wa_gen7_post_command_depth_stall.
Proof.
  pose proof wa_step_cmd_wa_gen6_pre_depth_stall_write.
  unfold cmd_wa_gen7_post_command_depth_stall. wa_auto.
Qed.

Lemma wa_step_multisample : keeps wa_step cmd_wa_gen6_pre_multisample_depth_flush.
Proof. unfold cmd_wa_gen6_pre_multisample_depth_flush. wa_auto. Qed.

Lemma wa_step_pre_ds_flush : keeps wa_step cmd_wa_gen6_pre_ds_flush.
Proof.
  pose proof wa_step_cmd_wa_gen6_pre_depth_stall_write.
  unfold cmd_wa_gen6_pre_ds_flush. wa_auto.
Qed.

Section DrawSteps.

Variable emit_other : other_op -> M unit.
Hypothesis Hframe : other_frame emit_other.

Lemma wa_step_emit_other op : keeps wa_step (emit_other op).
Proof.
  apply keeps_quiet_wa_step, other_frame_quiet; [exact Hframe|].
  intros [o it] H. unfold not_wa_write, is_wa_write. unfold is_pipe_control in H.
  simpl in *. destruct it as [[]| |]; congruence.
Qed.

Lemma wa_step_emit_msaa : keeps wa_step (emit_msaa emit_other).
Proof.
  pose proof wa_step_emit_other. pose proof wa_step_multisample.
  unfold emit_msaa. wa_auto.
Qed.

Lemma wa_step_emit_rt : keeps wa_step (emit_rt emit_other).
Proof.
  pose proof wa_step_emit_other. pose proof wa_step_cmd_wa_gen6_pre_depth_stall_write.
  unfold emit_rt. wa_auto.
Qed.

Lemma wa_step_emit_ds : keeps wa_step (emit_ds emit_other).
Proof.
  pose proof wa_step_emit_other. pose proof wa_step_pre_ds_flush.
  unfold emit_ds. wa_auto.
Qed.

Lemma wa_step_emit_graphics_pipeline : keeps wa_step emit_graphics_pipeline.
Proof.
  pose proof wa_step_cmd_wa_gen6_pre_depth_stall_write.
  pose proof wa_step_scoreboard_stall. pose proof wa_step_gen7_pre_vs.
  pose proof wa_step_gen7_post_cs. pose proof wa_step_gen7_post_depth.
  unfold emit_graphics_pipeline. wa_auto.
  all: apply keeps_quiet_wa_step; quiet_modify.
Qed.

Lemma wa_step_emit_shader_resources : keeps wa_step (emit_shader_resources emit_other).
Proof.
  pose proof wa_step_emit_other.
  unfold emit_shader_resources. wa_auto.
Qed.

Lemma wa_step_emit_bounded_states : keeps wa_step (emit_bounded_states emit_other).
Proof.
  pose proof wa_step_emit_other. pose proof wa_step_emit_msaa.
  pose proof wa_step_emit_graphics_pipeline. pose proof wa_step_emit_rt.
  pose proof wa_step_emit_ds. pose proof wa_step_emit_shader_resources.
  pose proof wa_step_cmd_wa_gen6_pre_depth_stall_write.
  unfold emit_bounded_states. wa_auto.
Qed.

End DrawSteps.

Ltac quiet_auto :=
  repeat first
    [ solve [auto 1]
    | apply quiet_CMD_ASSERT | apply quiet_cmd_reserve_reloc
    | apply quiet_cmd_batch_reloc | apply quiet_cmd_batch_reloc_writer
    | apply quiet_emit_shader | apply quiet_emit_binding_table
    | apply quiet_cmd_batch_pointer; intros ?; reflexivity
    | progress cbv zeta
    | keeps_step (quiet_refl not_wa_write) (quiet_trans not_wa_write) ].

(** [S : m c = Ok (a, c')], for a recording [m] that is quiet. *)
Ltac step_quiet S :=
  match type of S with
  | ?m _ = Ok _ =>
      let K := fresh "K" in
      assert (K : keeps (quiet not_wa_write) m) by (try unfold m; quiet_auto);
      apply K in S; clear K
  end.

Ltac peel H S :=
  let a := fresh "a" in
  let c := fresh "c" in
  apply bind_m_ok in H as (a & c & S & H).

Lemma quiet_pending c c' : quiet not_wa_write c c' -> pending c' = pending c.
Proof. intros [[] _]. apply pending_same; assumption. Qed.

Lemma quiet_wa_total c c' : quiet not_wa_write c c' -> wa_total c' = wa_total c.
Proof.
  intros [_ (new & E & F)]. unfold wa_total.
  rewrite E, wa_count_app, (wa_count_not_wa _ F). lia.
Qed.

Section DrawProps.

Variable emit_other : other_op -> M unit.
Hypothesis Hframe : other_frame emit_other.

Lemma quiet_emit_other op : keeps (quiet not_wa_write) (emit_other op).
Proof.
  apply other_frame_quiet; [exact Hframe|].
  intros [o it] H. unfold not_wa_write, is_wa_write. unfold is_pipe_control in H.
  simpl in *. destruct it as [[]| |]; congruence.
Qed.

(** When the bounded states are emitted the workaround is no longer due:
    [emit_bounded_states] calls it unconditionally. *)
Lemma emit_bounded_states_done c c' :
  emit_bounded_states emit_other c = Ok (tt, c') -> wa_step c c' /\ pending c' = 0.
Proof.
  intros H. split; [eapply wa_step_emit_bounded_states; eassumption|].
  unfold emit_bounded_states in H. rewrite bind_get in H.
  do 7 (let S := fresh "S" in peel H S; clear S).
  peel H Swa. destruct a6. apply cmd_wa_gen6_pre_depth_stall_write_done in Swa as [_ Hp].
  pose proof quiet_emit_other.
  step_quiet H. rewrite (quiet_pending _ _ H). exact Hp.
Qed.

Lemma quiet_cmd_batch_state_base_address :
  keeps (quiet not_wa_write) cmd_batch_state_base_address.
Proof. unfold cmd_batch_state_base_address. quiet_auto. Qed.

Lemma quiet_cmd_adjust_state_base_address :
  keeps (quiet not_wa_write) cmd_adjust_state_base_address.
Proof.
  pose proof quiet_cmd_batch_state_base_address.
  unfold cmd_adjust_state_base_address. quiet_auto. quiet_modify.
Qed.

Lemma quiet_gen6_can_primitive_restart :
  keeps (quiet not_wa_write) gen6_can_primitive_restart.
Proof. unfold gen6_can_primitive_restart. quiet_auto. Qed.

Lemma quiet_gen6_3DSTATE_INDEX_BUFFER buf o t e :
  keeps (quiet not_wa_write) (gen6_3DSTATE_INDEX_BUFFER buf o t e).
Proof. unfold gen6_3DSTATE_INDEX_BUFFER. quiet_auto. Qed.

Lemma quiet_gen75_3DSTATE_VF e i : keeps (quiet not_wa_write) (gen75_3DSTATE_VF e i).
Proof. unfold gen75_3DSTATE_VF. quiet_auto. Qed.

Lemma quiet_gen6_3DPRIMITIVE p i a b c d e :
  keeps (quiet not_wa_write) (gen6_3DPRIMITIVE p i a b c d e).
Proof. unfold gen6_3DPRIMITIVE. quiet_auto. Qed.

Lemma quiet_gen7_3DPRIMITIVE p i a b c d e :
  keeps (quiet not_wa_write) (gen7_3DPRIMITIVE p i a b c d e).
Proof. unfold gen7_3DPRIMITIVE. quiet_auto. Qed.

(** [cmd_batch_flush_all] right after the flags were cleared: the
    workaround is written again, unless the draw counter is zero. *)
Lemma cmd_batch_flush_all_after_clear c c' :
  wa_flags (bind c) = 0 ->
  cmd_batch_flush_all c = Ok (tt, c') ->
  same_env c c' /\
  wa_total c' = wa_total c + (if draw_count (bind c) =? 0 then 0 else 1) /\
  wa_flags (bind c') =
    (if draw_count (bind c) =? 0 then 0 else INTEL_CMD_WA_GEN6_PRE_DEPTH_STALL_WRITE).
Proof.
  intros Hw H. unfold cmd_batch_flush_all in H. apply cmd_batch_flush_spec in H.
  change ((_ =? 0) || (draw_count (bind c) =? 0)) with (draw_count (bind c) =? 0) in H.
  destruct (draw_count (bind c) =? 0) eqn:Ed.
  - subst c'. split; [apply same_env_refl|]. split; [lia | exact Hw].
  - destruct H as (c1 & o & Hwa & S & B).
    change (has _ GEN6_PIPE_CONTROL_RENDER_CACHE_FLUSH) with true in Hwa.
    apply cmd_wa_gen6_pre_depth_stall_write_spec in Hwa.
    assert (Ew : wa_due c = true).
    { unfold wa_due. rewrite Ed, Hw. reflexivity. }
    rewrite Ew in Hwa. destruct Hwa as (S1 & W & o1 & o2 & B1).
    split; [eapply same_env_trans; [apply same_bind_but_wa_env | apply same_bind_env];
            eassumption|].
    split.
    + unfold wa_total. rewrite B, B1, !wa_count_app. simpl. lia.
    + rewrite (sb_wa_flags _ _ S), W, Hw. reflexivity.
Qed.

(** One draw.  The workaround is written once if it was due when the draw
    began, and never twice; the draw counter goes up by one and the flags
    are cleared.  (With the NOCACHE debug flag the closing
    [cmd_batch_flush_all] writes it once more and sets the flag again.) *)
Lemma cmd_draw_wa vertex_start vertex_count instance_start instance_count indexed
    vertex_base c c' :
  cmd_draw emit_other vertex_start vertex_count instance_start instance_count
    indexed vertex_base c = Ok (tt, c') ->
  let again := debug_nocache (dev c) && negb (u32 (draw_count (bind c) + 1) =? 0) in
  dev c' = dev c /\
  pipeline_graphics (bind c') = pipeline_graphics (bind c) /\
  draw_count (bind c') = u32 (draw_count (bind c) + 1) /\
  wa_total c' = wa_total c + pending c + (if again then 1 else 0) /\
  wa_flags (bind c') = (if again then INTEL_CMD_WA_GEN6_PRE_DEPTH_STALL_WRITE else 0).
Proof.
  intros H. unfold cmd_draw in H. rewrite bind_get in H.
  pose proof quiet_cmd_adjust_state_base_address.
  pose proof quiet_gen6_can_primitive_restart.
  pose proof quiet_gen6_3DSTATE_INDEX_BUFFER.
  pose proof quiet_gen75_3DSTATE_VF.
  pose proof quiet_gen6_3DPRIMITIVE. pose proof quiet_gen7_3DPRIMITIVE.
  peel H S1. step_quiet S1.
  peel H S2. destruct a0. apply emit_bounded_states_done in S2 as [S2 P2].
  rewrite bind_get, bind_assert in H. mcase H.
  peel H S3. step_quiet S3.
  peel H S4. step_quiet S4.
  rewrite !bind_modify in H.
  pose proof (quiet_trans _ _ _ _ S3 S4) as S34.
  pose proof (wa_step_trans _ _ _ (quiet_wa_step _ _ S1) S2) as (Env & T & _).
  pose proof (quiet_pending _ _ S34) as P34.
  pose proof (quiet_wa_total _ _ S34) as T34.
  destruct S34 as [S34 _]. apply same_bind_env in S34.
  pose proof (same_env_trans _ _ _ Env S34) as Env'. destruct Env'.
  assert (Edev : dev c1 = dev c) by (apply (se_dev _ _ Env)).
  rewrite when_eq, Edev in H. simpl.
  unfold wa_total, batch_items in *.
  destruct (debug_nocache (dev c)) eqn:En; simpl.
  - apply cmd_batch_flush_all_after_clear in H as (Ef & Tf & Wf); [|reflexivity].
    destruct Ef. unfold wa_total, batch_items in Tf. simpl in *.
    rewrite se_draw_count0 in *.
    destruct (u32 (draw_count (bind c) + 1) =? 0);
      simpl; repeat split; try congruence; try lia.
  - injection H as <-. simpl. repeat split; try congruence; try lia.
Qed.

Lemma pending_zero_step c c' : wa_step c c' -> pending c = 0 -> pending c' = 0.
Proof.
  intros (Env & _ & Hm). unfold pending, wa_due, wa_flag in *.
  rewrite (se_draw_count _ _ Env).
  destruct (draw_count (bind c) =? 0); [reflexivity|]. simpl.
  destruct (has (wa_flags (bind c)) INTEL_CMD_WA_GEN6_PRE_DEPTH_STALL_WRITE); simpl.
  - rewrite Hm by reflexivity. reflexivity.
  - discriminate.
Qed.

Lemma wa_step_the_meta : keeps wa_step the_meta.
Proof. unfold the_meta. wa_auto. Qed.

Lemma wa_step_gen7_meta_urb : keeps wa_step (gen7_meta_urb emit_other).
Proof.
  pose proof (wa_step_emit_other emit_other Hframe). pose proof wa_step_gen7_pre_vs.
  unfold gen7_meta_urb. wa_auto.
Qed.

Lemma wa_step_gen6_meta_vs : keeps wa_step (gen6_meta_vs emit_other).
Proof.
  pose proof (wa_step_emit_other emit_other Hframe). pose proof wa_step_the_meta.
  unfold gen6_meta_vs. wa_auto.
Qed.

Lemma wa_step_gen6_meta_wm : keeps wa_step (gen6_meta_wm emit_other).
Proof.
  pose proof (wa_step_emit_other emit_other Hframe). pose proof wa_step_multisample.
  unfold gen6_meta_wm. wa_auto.
Qed.

Lemma wa_step_meta_ps lo hi : keeps wa_step (meta_ps emit_other lo hi).
Proof.
  pose proof (wa_step_emit_other emit_other Hframe). pose proof wa_step_the_meta.
  unfold meta_ps. wa_auto.
Qed.

Lemma wa_step_gen6_meta_depth_buffer : keeps wa_step (gen6_meta_depth_buffer emit_other).
Proof.
  pose proof (wa_step_emit_other emit_other Hframe). pose proof wa_step_pre_ds_flush.
  unfold gen6_meta_depth_buffer. wa_auto.
Qed.

(** One meta-operation: as for a draw. *)
Lemma cmd_draw_meta_wa meta c c' :
  cmd_draw_meta emit_other meta c = Ok (tt, c') ->
  let again := debug_nocache (dev c) && negb (u32 (draw_count (bind c) + 1) =? 0) in
  dev c' = dev c /\
  pipeline_graphics (bind c') = pipeline_graphics (bind c) /\
  draw_count (bind c') = u32 (draw_count (bind c) + 1) /\
  wa_total c' = wa_total c + pending c + (if again then 1 else 0) /\
  wa_flags (bind c') = (if again then INTEL_CMD_WA_GEN6_PRE_DEPTH_STALL_WRITE else 0).
Proof.
  intros H. unfold cmd_draw_meta in H. rewrite bind_modify in H.
  pose proof quiet_cmd_adjust_state_base_address.
  pose proof quiet_emit_other.
  pose proof quiet_gen6_3DPRIMITIVE. pose proof quiet_gen7_3DPRIMITIVE.
  pose proof (wa_step_emit_other emit_other Hframe).
  pose proof wa_step_gen7_meta_urb. pose proof wa_step_gen6_meta_vs.
  pose proof wa_step_gen6_meta_wm. pose proof wa_step_meta_ps.
  pose proof wa_step_gen6_meta_depth_buffer.
  pose proof wa_step_gen7_post_cs. pose proof wa_step_gen7_post_depth.
  pose proof wa_step_scoreboard_stall.
  peel H S1. step_quiet S1. apply quiet_wa_step in S1.
  peel H S2. destruct a0. apply cmd_wa_gen6_pre_depth_stall_write_done in S2 as [S2 P2].
  peel H S3. apply wa_step_scoreboard_stall in S3.
  peel H S4. step_quiet S4. apply quiet_wa_step in S4.
  peel H S5. step_quiet S5. apply quiet_wa_step in S5.
  rewrite bind_get in H.
  peel H S6.
  assert (K : wa_step c4 c5).
  { revert S6. match goal with |- ?m _ = _ -> _ =>
      assert (K : keeps wa_step m) by (unfold gen6_meta_ps, gen7_meta_ps; wa_auto;
        apply keeps_quiet_wa_step; auto) end.
    apply K. }
  clear S6. rewrite !bind_modify in H.
  pose proof (wa_step_trans _ _ _ S3 (wa_step_trans _ _ _ S4 (wa_step_trans _ _ _ S5 K)))
    as S36.
  pose proof (pending_zero_step _ _ S36 P2) as P5.
  pose proof (wa_step_trans _ _ _ S1 (wa_step_trans _ _ _ S2 S36)) as (Env & T & _).
  assert (D4 : dev c4 = dev c).
  { destruct K as (K & _). rewrite <- (se_dev _ _ K). apply (se_dev _ _ Env). }
  destruct Env. simpl in *.
  assert (T0 : pending (set_bind (set_bind_meta (Some meta) (bind c)) c) = pending c)
    by reflexivity.
  assert (W0 : wa_total (set_bind (set_bind_meta (Some meta) (bind c)) c) = wa_total c)
    by reflexivity.
  rewrite T0, W0, P5 in T.
  rewrite when_eq, D4 in H. simpl in H.
  destruct (debug_nocache (dev c)) eqn:En; simpl.
  - apply cmd_batch_flush_all_after_clear in H as (Ef & Tf & Wf); [|reflexivity].
    destruct Ef. unfold wa_total, batch_items in *. simpl in *.
    rewrite se_draw_count0 in *.
    destruct (u32 (draw_count (bind c) + 1) =? 0);
      simpl; repeat split; try congruence; try lia.
  - injection H as <-. unfold wa_total, batch_items in *. simpl.
    repeat split; try congruence; try lia.
Qed.

Lemma draw_one_wa d c c' :
  draw_one emit_other d c = Ok (tt, c') ->
  let again := debug_nocache (dev c) && negb (u32 (draw_count (bind c) + 1) =? 0) in
  dev c' = dev c /\
  pipeline_graphics (bind c') = pipeline_graphics (bind c) /\
  draw_count (bind c') = u32 (draw_count (bind c) + 1) /\
  wa_total c' = wa_total c + pending c + (if again then 1 else 0) /\
  wa_flags (bind c') = (if again then INTEL_CMD_WA_GEN6_PRE_DEPTH_STALL_WRITE else 0).
Proof.
  destruct d; simpl; [apply cmd_draw_wa | apply cmd_draw_meta_wa].
Qed.

(** With the cache debugging off and the flags clear, one draw or
    meta-operation writes the workaround once, unless it is the first of the
    command buffer, and leaves the flags clear. *)
Lemma draw_one_plain d c c' :
  debug_nocache (dev c) = false ->
  wa_flags (bind c) = 0 ->
  0 <= draw_count (bind c) < 2 ^ 32 - 1 ->
  draw_one emit_other d c = Ok (tt, c') ->
  dev c' = dev c /\
  draw_count (bind c') = draw_count (bind c) + 1 /\
  wa_total c' = wa_total c + (if draw_count (bind c) =? 0 then 0 else 1) /\
  wa_flags (bind c') = 0.
Proof.
  intros Hn Hw Hd H. apply draw_one_wa in H as (D & _ & N & T & W).
  rewrite Hn in *. simpl in *. rewrite u32_small in N by lia.
  unfold pending, wa_due, has in T. rewrite Hw in T. simpl in T.
  repeat split; try assumption.
  destruct (draw_count (bind c) =? 0); simpl in T; lia.
Qed.

Lemma draw_all_app ds1 ds2 c c' :
  draw_all emit_other (ds1 ++ ds2) c = Ok (tt, c') ->
  exists c1, draw_all emit_other ds1 c = Ok (tt, c1) /\
             draw_all emit_other ds2 c1 = Ok (tt, c').
Proof.
  revert c. induction ds1 as [|d ds1 IH]; intros c H; simpl in *.
  - exists c. split; [reflexivity | exact H].
  - apply bind_m_ok in H as ([] & c0 & H0 & H).
    destruct (IH _ H) as (c1 & H1 & H2). exists c1. split; [|exact H2].
    apply bind_m_ok. exists tt, c0. split; assumption.
Qed.

Lemma draw_all_plain ds c c' :
  debug_nocache (dev c) = false ->
  wa_flags (bind c) = 0 ->
  0 <= draw_count (bind c) ->
  draw_count (bind c) + Z.of_nat (length ds) < 2 ^ 32 ->
  draw_all emit_other ds c = Ok (tt, c') ->
  dev c' = dev c /\
  draw_count (bind c') = draw_count (bind c) + Z.of_nat (length ds) /\
  wa_flags (bind c') = 0 /\
  wa_total c' = wa_total c +
    match ds with
    | [] => 0
    | _ => Z.of_nat (length ds) - (if draw_count (bind c) =? 0 then 1 else 0)
    end.
Proof.
  revert c. induction ds as [|d ds IH]; intros c Hn Hw H0 Hd H.
  - injection H as <-. simpl. repeat split; try assumption; lia.
  - simpl in H. apply bind_m_ok in H as ([] & c1 & H1 & H).
    rewrite length_cons, Nat2Z.inj_succ in *.
    apply draw_one_plain in H1 as (D1 & N1 & T1 & W1); [|assumption|assumption|lia].
    apply IH in H as (D & N & W & T); [|congruence|assumption|lia|lia].
    repeat split; [congruence|lia|assumption|].
    rewrite T, T1, N1. destruct ds as [|d' ds].
    + simpl. destruct (draw_count (bind c) =? 0); lia.
    + destruct (Z.eqb_spec (draw_count (bind c) + 1) 0); [lia|].
      destruct (draw_count (bind c) =? 0); lia.
Qed.

End DrawProps.

(** C3, as the specification states it, fails for the first draw of a
    command buffer: [cmd_wa_gen6_pre_depth_stall_write] returns at once while
    [draw_count] is 0, so one draw with a pipeline that asks for the
    workaround leaves the batch without it. *)
Lemma first_draw_writes_no_workaround :
  let c := fresh_cmd sample_gen7 sample_wa_pipeline in
  exists c',
    cmd_draw sample_emit_other 0 3 0 1 false 0 c = Ok (tt, c') /\
    has (p_wa_flags (pipeline_graphics (bind c)))
        INTEL_CMD_WA_GEN6_PRE_DEPTH_STALL_WRITE = true /\
    wa_total c = 0 /\ wa_total c' = 0 /\
    Forall (fun it => is_pipe_control it = false) (batch_items c').
Proof.
  intros c. eexists. split; [vm_compute; reflexivity|].
  split; [reflexivity|]. split; [reflexivity|]. split; [reflexivity|].
  vm_compute. repeat constructor.
Qed.

(** C3, amended. In a recording of draws and meta-operations that starts with
    the workaround flags clear (cache debugging off), every draw or
    meta-operation that is not the first of the command buffer writes the
    depth-stall-write workaround exactly once, the first one writes none, and
    [wa_flags] is 0 again after each of them; so the recording holds one
    workaround for each operation but the first. *)
Theorem workaround_once_per_draw emit_other ds1 d ds2 c c' :
  other_frame emit_other ->
  debug_nocache (dev c) = false ->
  wa_flags (bind c) = 0 ->
  0 <= draw_count (bind c) ->
  draw_count (bind c) + Z.of_nat (length (ds1 ++ d :: ds2)) < 2 ^ 32 ->
  draw_all emit_other (ds1 ++ d :: ds2) c = Ok (tt, c') ->
  exists c1 c2,
    draw_all emit_other ds1 c = Ok (tt, c1) /\
    draw_one emit_other d c1 = Ok (tt, c2) /\
    draw_all emit_other ds2 c2 = Ok (tt, c') /\
    draw_count (bind c1) = draw_count (bind c) + Z.of_nat (length ds1) /\
    wa_flags (bind c1) = 0 /\
    wa_total c2 = wa_total c1 + (if draw_count (bind c1) =? 0 then 0 else 1) /\
    wa_flags (bind c2) = 0 /\
    wa_total c' = wa_total c + Z.of_nat (length (ds1 ++ d :: ds2))
                  - (if draw_count (bind c) =? 0 then 1 else 0).
Proof.
  intros Hf Hn Hw H0 Hd H.
  pose proof (draw_all_plain emit_other Hf _ _ _ Hn Hw H0 Hd H) as (_ & _ & _ & T).
  apply draw_all_app in H as (c1 & H1 & H). simpl in H.
  apply bind_m_ok in H as ([] & c2 & H2 & H3).
  rewrite length_app, length_cons in Hd.
  destruct (draw_all_plain emit_other Hf ds1 c c1) as (D1 & N1 & W1 & _);
    [assumption|assumption|assumption|lia|assumption|].
  destruct (draw_one_plain emit_other Hf d c1 c2) as (_ & _ & T2 & W2);
    [congruence|assumption|lia|assumption|].
  exists c1, c2. repeat split; try assumption.
  rewrite T. destruct (ds1 ++ d :: ds2) eqn:E; [|lia].
  destruct ds1; discriminate.
Qed.

Lemma workaround_once_per_draw_witness :
  let c := fresh_cmd sample_gen7 sample_wa_pipeline in
  let ds := sample_draws_before ++ sample_draw :: sample_draws_after in
  let c' := state_after (draw_all sample_emit_other ds) c in
  draw_all sample_emit_other ds c = Ok (tt, c') /\
  exists c1 c2,
    draw_all sample_emit_other sample_draws_before c = Ok (tt, c1) /\
    draw_one sample_emit_other sample_draw c1 = Ok (tt, c2) /\
    draw_all sample_emit_other sample_draws_after c2 = Ok (tt, c') /\
    draw_count (bind c1) = draw_count (bind c) + Z.of_nat (length sample_draws_before) /\
    wa_flags (bind c1) = 0 /\
    wa_total c2 = wa_total c1 + (if draw_count (bind c1) =? 0 then 0 else 1) /\
    wa_flags (bind c2) = 0 /\
    wa_total c' = wa_total c + Z.of_nat (length ds)
                  - (if draw_count (bind c) =? 0 then 1 else 0).
Proof.
  intros c ds c'. split; [vm_compute; reflexivity|].
  apply (workaround_once_per_draw sample_emit_other sample_draws_before sample_draw
           sample_draws_after c c').
  - exact sample_emit_other_frame.
  - reflexivity.
  - reflexivity.
  - vm_compute. discriminate.
  - vm_compute. reflexivity.
  - vm_compute. reflexivity.
Defined.

(** ** C4: primitive restart *)

Lemma gen6_can_primitive_restart_eq c :
  gen6_can_primitive_restart c =
  if (INTEL_GEN_6 <=? cmd_gen c) && (cmd_gen c <=? INTEL_GEN_7_5)
  then Ok (can_restart_value c, c) else AssertFail.
Proof.
  unfold gen6_can_primitive_restart, can_restart_value, CMD_ASSERT, bind_m, get, assert, ret.
  destruct ((INTEL_GEN_6 <=? cmd_gen c) && (cmd_gen c <=? INTEL_GEN_7_5));
    [|reflexivity].
  destruct (cmd_gen c >=? INTEL_GEN_7_5); [reflexivity|].
  destruct (_ || _); simpl; [|reflexivity].
  destruct (index_type (bind c)); reflexivity.
Qed.

Lemma can_restart_value_env c c' :
  same_env c c' -> can_restart_value c' = can_restart_value c.
Proof.
  intros Env. unfold can_restart_value, cmd_gen.
  rewrite (se_dev _ _ Env), (se_pipeline _ _ Env), (se_index_type _ _ Env).
  reflexivity.
Qed.

Section Restart.

Variable emit_other : other_op -> M unit.
Hypothesis Hframe : other_frame emit_other.

(** An indexed draw with primitive restart on stops at the assertion when
    the restart cannot be done. *)
Lemma cmd_draw_restart_unsupported vertex_start vertex_count instance_start
    instance_count vertex_base c :
  primitive_restart (pipeline_graphics (bind c)) = true ->
  can_restart_value c = false ->
  cmd_draw emit_other vertex_start vertex_count instance_start instance_count
    true vertex_base c = AssertFail.
Proof.
  intros Hr Hc.
  destruct (cmd_draw _ _ _ _ _ _ _ c) as [[[] c']|] eqn:H; [exfalso | reflexivity].
  unfold cmd_draw in H. rewrite bind_get in H.
  peel H S1. apply quiet_cmd_adjust_state_base_address in S1.
  apply quiet_wa_step in S1.
  peel H S2. apply (wa_step_emit_bounded_states emit_other Hframe) in S2.
  pose proof (wa_step_trans _ _ _ S1 S2) as (Env & _). clear S1 S2.
  rewrite bind_get in H. peel H S3. apply assert_ok in S3 as [_ [= -> ->]].
  peel H S4. clear H. rewrite Hr in S4.
  peel S4 S5. rewrite gen6_can_primitive_restart_eq in S5.
  destruct (_ && _); [|discriminate]. injection S5 as <- <-.
  rewrite (can_restart_value_env _ _ Env), Hc in S4. simpl in S4.
  unfold bind_m, assert in S4. simpl in S4. discriminate.
Qed.

End Restart.

(** C4, as the specification states it, fails on a generation 7.5 device:
    there [gen6_can_primitive_restart] asks only that the topology is not
    RECTLIST, so an indexed draw with 16-bit indices and the restart index
    0xffff is recorded with the cut index on. *)
Lemma restart_with_max_index_on_gen75 :
  let c := fresh_cmd (sample_dev INTEL_GEN_7_5 false)
             (restart_pipeline GEN6_3DPRIM_TRILIST 0xffff) in
  index_type (bind c) = VK_INDEX_TYPE_UINT16 /\
  primitive_restart_index (pipeline_graphics (bind c)) = 0xffff /\
  gen6_can_primitive_restart c = Ok (true, c) /\
  exists c' o,
    cmd_draw sample_emit_other 0 3 0 1 true 0 c = Ok (tt, c') /\
    In (o, ITEM_PACKET (PKT_3DSTATE_VF true 0xffff)) (batch_items c').
Proof.
  intros c. split; [reflexivity|]. split; [reflexivity|].
  split; [vm_compute; reflexivity|].
  eexists. eexists. split; [vm_compute; reflexivity|].
  vm_compute. repeat (first [left; reflexivity | right]).
Qed.

(** C4, amended. Below generation 7.5, [gen6_can_primitive_restart] answers
    yes exactly for the point-list, line-list, line-strip, triangle-list and
    triangle-strip topologies (so not for RECTLIST) with a restart index that
    is not the largest value of the index type, 0xffff for 16-bit and
    0xffffffff for 32-bit indices; at generation 7.5 it answers yes exactly
    when the topology is not RECTLIST, whatever the restart index. An indexed
    draw with primitive restart on stops at the assertion when the answer is
    no. *)
Theorem primitive_restart_rules emit_other c :
  other_frame emit_other ->
  INTEL_GEN_6 <= cmd_gen c <= INTEL_GEN_7_5 ->
  let p := pipeline_graphics (bind c) in
  exists can_restart,
    gen6_can_primitive_restart c = Ok (can_restart, c) /\
    (cmd_gen c < INTEL_GEN_7_5 ->
     (can_restart = true <->
      In (prim_type p) [GEN6_3DPRIM_POINTLIST; GEN6_3DPRIM_LINELIST;
                        GEN6_3DPRIM_LINESTRIP; GEN6_3DPRIM_TRILIST;
                        GEN6_3DPRIM_TRISTRIP] /\
      (index_type (bind c) = VK_INDEX_TYPE_UINT16 /\
         primitive_restart_index p <> 0xffff \/
       index_type (bind c) = VK_INDEX_TYPE_UINT32 /\
         primitive_restart_index p <> 0xffffffff))) /\
    (cmd_gen c < INTEL_GEN_7_5 -> prim_type p = GEN6_3DPRIM_RECTLIST ->
     can_restart = false) /\
    (cmd_gen c = INTEL_GEN_7_5 ->
     (can_restart = true <-> prim_type p <> GEN6_3DPRIM_RECTLIST)) /\
    (primitive_restart p = true -> can_restart = false ->
     forall vertex_start vertex_count instance_start instance_count vertex_base,
       cmd_draw emit_other vertex_start vertex_count instance_start instance_count
         true vertex_base c = AssertFail).
Proof.
  intros Hf Hg p. exists (can_restart_value c).
  split; [|split; [|split; [|split]]].
  - rewrite gen6_can_primitive_restart_eq.
    destruct (Z.leb_spec INTEL_GEN_6 (cmd_gen c)); [|lia].
    destruct (Z.leb_spec (cmd_gen c) INTEL_GEN_7_5); [|lia]. reflexivity.
  - intros Hlt. unfold can_restart_value. fold p.
    destruct (Z.geb_spec (cmd_gen c) INTEL_GEN_7_5); [lia|].
    rewrite andb_true_iff, !orb_true_iff, !Z.eqb_eq. simpl.
    split.
    + intros [Ht Hi]. split; [intuition congruence|].
      destruct (index_type (bind c)); try discriminate;
        apply negb_true_iff, Z.eqb_neq in Hi; auto.
    + intros [Ht Hi]. split; [intuition congruence|].
      destruct Hi as [[-> Hi]|[-> Hi]]; apply negb_true_iff, Z.eqb_neq; exact Hi.
  - intros Hlt Hp. unfold can_restart_value. fold p.
    destruct (Z.geb_spec (cmd_gen c) INTEL_GEN_7_5); [lia|].
    rewrite Hp. reflexivity.
  - intros He. unfold can_restart_value. fold p. rewrite He. simpl.
    rewrite negb_true_iff, Z.eqb_neq. reflexivity.
  - intros Hr Hc vs vc is_ ic vb.
    apply (cmd_draw_restart_unsupported emit_other Hf); assumption.
Qed.

Lemma primitive_restart_rules_witness :
  let c := fresh_cmd sample_gen7 (restart_pipeline GEN6_3DPRIM_TRISTRIP 0xffff) in
  let p := pipeline_graphics (bind c) in
  other_frame sample_emit_other /\
  INTEL_GEN_6 <= cmd_gen c <= INTEL_GEN_7_5 /\
  exists can_restart,
    gen6_can_primitive_restart c = Ok (can_restart, c) /\
    (cmd_gen c < INTEL_GEN_7_5 ->
     (can_restart = true <->
      In (prim_type p) [GEN6_3DPRIM_POINTLIST; GEN6_3DPRIM_LINELIST;
                        GEN6_3DPRIM_LINESTRIP; GEN6_3DPRIM_TRILIST;
                        GEN6_3DPRIM_TRISTRIP] /\
      (index_type (bind c) = VK_INDEX_TYPE_UINT16 /\
         primitive_restart_index p <> 0xffff \/
       index_type (bind c) = VK_INDEX_TYPE_UINT32 /\
         primitive_restart_index p <> 0xffffffff))) /\
    (cmd_gen c < INTEL_GEN_7_5 -> prim_type p = GEN6_3DPRIM_RECTLIST ->
     can_restart = false) /\
    (cmd_gen c = INTEL_GEN_7_5 ->
     (can_restart = true <-> prim_type p <> GEN6_3DPRIM_RECTLIST)) /\
    (primitive_restart p = true -> can_restart = false ->
     forall vertex_start vertex_count instance_start instance_count vertex_base,
       cmd_draw sample_emit_other vertex_start vertex_count instance_start
         instance_count true vertex_base c = AssertFail).
Proof.
  intros c p.
  split; [exact sample_emit_other_frame|].
  split; [vm_compute; split; discriminate|].
  apply (primitive_restart_rules sample_emit_other c).
  - exact sample_emit_other_frame.
  - vm_compute. split; discriminate.
Defined.

(** ** C8: the shader cache *)

Lemma shader_cache_find_app l l' addr off :
  shader_cache_find l addr = Some off -> shader_cache_find (l ++ l') addr = Some off.
Proof.
  induction l as [|[s k] l IH]; simpl; [discriminate|].
  destruct (s =? addr); auto.
Qed.

Lemma shader_cache_find_snoc l addr off :
  shader_cache_find l addr = None -> shader_cache_find (l ++ [(addr, off)]) addr = Some off.
Proof.
  induction l as [|[s k] l IH]; simpl.
  - rewrite Z.eqb_refl. reflexivity.
  - destruct (s =? addr); [discriminate | exact IH].
Qed.

Lemma cmd_instruction_write_bind size kernel c off c0 :
  cmd_instruction_write size kernel c = Ok (off, c0) ->
  bind c0 = bind c /\ dev c0 = dev c.
Proof.
  unfold cmd_instruction_write, cmd_writer_reserve, cmd_writer_grow, writer_commit,
    bind_m, get, assert, modify, ret. simpl.
  destruct (_ >? _); simpl; [destruct (_ <=? _); simpl|];
    intros [= <- <-]; split; reflexivity.
Qed.

Lemma emit_shader_hit sh c off :
  cached c (sh_addr sh) = Some off -> emit_shader sh c = Ok (off, c).
Proof.
  unfold cached, emit_shader, bind_m, get. intros ->. reflexivity.
Qed.

Lemma emit_shader_miss sh c off c1 :
  cached c (sh_addr sh) = None ->
  emit_shader sh c = Ok (off, c1) ->
  shader_cache (bind c1) =
    shader_cache_add (dev c) (shader_cache (bind c)) (sh_addr sh) off.
Proof.
  unfold cached, emit_shader. rewrite bind_get. intros ->.
  intros H. apply bind_m_ok in H as (o & c0 & Hw & H).
  apply cmd_instruction_write_bind in Hw as [Hb Hd].
  unfold bind_m, modify, ret in H. injection H as <- <-. reflexivity.
Qed.

Lemma shader_cache_grow_spec d cache :
  cache_inv cache ->
  let g := shader_cache_grow d cache in
  cache_inv g /\ sc_used g = sc_used cache /\
  take (Z.to_nat (sc_used g)) (sc_entries g) =
    take (Z.to_nat (sc_used cache)) (sc_entries cache).
Proof.
  intros (Hu & Hc & Hb). unfold shader_cache_grow.
  destruct (sc_used cache >=? sc_count cache);
    [|repeat split; assumption || lia].
  destruct (intel_alloc_ok _ _); [|repeat split; assumption || lia].
  simpl. pose proof (u32_range (sc_count cache + 16)) as Hr.
  assert (Hl : length (take (Z.to_nat (sc_used cache)) (sc_entries cache))
               = Z.to_nat (sc_used cache)) by (apply length_take_le; lia).
  split; [|split; [reflexivity|]].
  - unfold cache_inv. simpl. rewrite length_app, Hl, length_replicate. lia.
  - rewrite take_app_le by lia. rewrite take_ge by lia. reflexivity.
Qed.

Lemma shader_cache_put_inv cache addr off :
  cache_inv cache -> cache_inv (shader_cache_put cache addr off).
Proof.
  intros (Hu & Hc & Hb). unfold shader_cache_put.
  destruct (Z.ltb_spec (sc_used cache) (sc_count cache)); [|repeat split; assumption || lia].
  unfold cache_inv. simpl. rewrite length_insert, u32_small by lia. lia.
Qed.

Lemma shader_cache_put_take cache addr off :
  cache_inv cache ->
  sc_used cache < sc_count cache ->
  let cache' := shader_cache_put cache addr off in
  take (Z.to_nat (sc_used cache')) (sc_entries cache') =
    take (Z.to_nat (sc_used cache)) (sc_entries cache) ++ [(addr, off)].
Proof.
  intros (Hu & Hc & Hb) Hlt. unfold shader_cache_put.
  destruct (Z.ltb_spec (sc_used cache) (sc_count cache)); [|lia]. simpl.
  rewrite u32_small by lia.
  replace (Z.to_nat (sc_used cache + 1)) with (S (Z.to_nat (sc_used cache))) by lia.
  rewrite (take_S_r _ _ (addr, off)) by (apply list_lookup_insert_eq; lia).
  rewrite take_insert_ge by lia. reflexivity.
Qed.

Lemma shader_cache_add_inv d cache addr off :
  cache_inv cache -> cache_inv (shader_cache_add d cache addr off).
Proof.
  intros H. apply shader_cache_put_inv, shader_cache_grow_spec, H.
Qed.

Lemma shader_cache_add_keeps d cache addr off a o :
  cache_inv cache ->
  shader_cache_find (take (Z.to_nat (sc_used cache)) (sc_entries cache)) a = Some o ->
  let cache' := shader_cache_add d cache addr off in
  shader_cache_find (take (Z.to_nat (sc_used cache')) (sc_entries cache')) a = Some o.
Proof.
  intros Hi Hf. destruct (shader_cache_grow_spec d cache Hi) as (Hg & Hu & Ht).
  unfold shader_cache_add. simpl.
  destruct (Z.ltb_spec (sc_used (shader_cache_grow d cache))
              (sc_count (shader_cache_grow d cache))) as [Hlt|Hge].
  - rewrite (shader_cache_put_take _ addr off Hg Hlt), Ht.
    apply shader_cache_find_app, Hf.
  - unfold shader_cache_put.
    destruct (Z.ltb_spec (sc_used (shader_cache_grow d cache))
                (sc_count (shader_cache_grow d cache))); [lia|].
    rewrite Ht. exact Hf.
Qed.

Lemma shader_cache_add_stores d cache addr off :
  cache_inv cache ->
  (sc_used cache < sc_count cache \/
   (intel_alloc_ok d (sizeof_shader_cache_entry * u32 (sc_count cache + 16)) = true /\
    sc_used cache < u32 (sc_count cache + 16))) ->
  shader_cache_find (take (Z.to_nat (sc_used cache)) (sc_entries cache)) addr = None ->
  let cache' := shader_cache_add d cache addr off in
  shader_cache_find (take (Z.to_nat (sc_used cache')) (sc_entries cache')) addr = Some off.
Proof.
  intros Hi Hroom Hf. destruct (shader_cache_grow_spec d cache Hi) as (Hg & Hu & Ht).
  assert (Hlt : sc_used (shader_cache_grow d cache) < sc_count (shader_cache_grow d cache)).
  { unfold shader_cache_grow in *.
    destruct (Z.geb_spec (sc_used cache) (sc_count cache)); [|lia].
    destruct Hroom as [Hroom|[Ha Hroom]]; [lia|]. rewrite Ha. simpl. exact Hroom. }
  unfold shader_cache_add. simpl.
  rewrite (shader_cache_put_take _ addr off Hg Hlt), Ht.
  apply shader_cache_find_snoc, Hf.
Qed.

Lemma emit_shader_step sh c off c1 :
  cache_inv (shader_cache (bind c)) ->
  emit_shader sh c = Ok (off, c1) ->
  cache_inv (shader_cache (bind c1)) /\
  forall a o, cached c a = Some o -> cached c1 a = Some o.
Proof.
  intros Hi H. destruct (cached c (sh_addr sh)) as [k|] eqn:E.
  - rewrite (emit_shader_hit _ _ _ E) in H. injection H as _ <-. auto.
  - apply (emit_shader_miss _ _ _ _ E) in H. unfold cached in *. rewrite H. split.
    + apply shader_cache_add_inv, Hi.
    + intros a o Ha. apply shader_cache_add_keeps; assumption.
Qed.

Lemma emit_shader_stores sh c off c1 :
  cache_inv (shader_cache (bind c)) ->
  cache_room c ->
  emit_shader sh c = Ok (off, c1) ->
  cached c1 (sh_addr sh) = Some off.
Proof.
  intros Hi Hr H. destruct (cached c (sh_addr sh)) as [k|] eqn:E.
  - rewrite (emit_shader_hit _ _ _ E) in H. injection H as <- <-. exact E.
  - apply (emit_shader_miss _ _ _ _ E) in H. unfold cached in *. rewrite H.
    apply shader_cache_add_stores; assumption.
Qed.

Lemma recording_steps_keep c c2 a o :
  recording_steps c c2 ->
  cache_inv (shader_cache (bind c)) ->
  cached c a = Some o ->
  cached c2 a = Some o.
Proof.
  induction 1 as [c | sh off c c1 c2 He _ IH | c c1 c2 Hs _ IH]; intros Hi Ha.
  - exact Ha.
  - destruct (emit_shader_step _ _ _ _ Hi He) as [Hi1 Hk]. apply IH; auto.
  - apply IH; [rewrite Hs; exact Hi|]. unfold cached in *. rewrite Hs. exact Ha.
Qed.

(** C8, as the specification states it, fails: the cache is looked up by the
    shader object, not by the blob. Two pipelines made from the same vertex
    shader blob have each their own shader object, so the draw with the
    second uploads the blob again and gets another offset. *)
Lemma same_blob_uploaded_twice :
  let c := fresh_cmd sample_gen7 blob_pipeline_1 in
  pCode (vs blob_pipeline_1) = pCode (vs blob_pipeline_2) /\
  codeSize (vs blob_pipeline_1) = codeSize (vs blob_pipeline_2) /\
  exists c1 c2 c3,
    cmd_draw sample_emit_other 0 3 0 1 false 0 c = Ok (tt, c1) /\
    cmd_bind_graphics_pipeline sample_emit_other blob_pipeline_2 c1 = Ok (tt, c2) /\
    cmd_draw sample_emit_other 0 3 0 1 false 0 c2 = Ok (tt, c3) /\
    vs_offset (bind c1) = 0 /\
    vs_offset (bind c3) = 64 /\
    w_items (w_instruction c3) =
      [(0, ITEM_CODE [5; 5; 5; 5]); (64, ITEM_CODE [5; 5; 5; 5])].
Proof.
  intros c. split; [reflexivity|]. split; [reflexivity|].
  eexists. eexists. eexists.
  split; [vm_compute; reflexivity|].
  split; [vm_compute; reflexivity|].
  split; [vm_compute; reflexivity|].
  split; [reflexivity|]. split; reflexivity.
Qed.

(** C8, amended. A shader object that [emit_shader] has written, with room in
    the cache for its entry (or the cache grown for it), is found in the cache
    whenever it is emitted again in the same recording: [emit_shader] returns
    the same instruction-buffer offset and leaves the command buffer as it
    is, so the blob is not written a second time. *)
Theorem emit_shader_cached_once sh c off c1 c2 :
  cache_inv (shader_cache (bind c)) ->
  cache_room c ->
  emit_shader sh c = Ok (off, c1) ->
  recording_steps c1 c2 ->
  emit_shader sh c2 = Ok (off, c2).
Proof.
  intros Hi Hr He Hs. apply emit_shader_hit.
  apply (recording_steps_keep c1 c2); [exact Hs | |].
  - apply (emit_shader_step _ _ _ _ Hi He).
  - apply (emit_shader_stores _ _ _ _ Hi Hr He).
Qed.

Lemma emit_shader_cached_once_witness :
  let c := fresh_cmd sample_gen7 blob_pipeline_1 in
  let c1 := state_after (emit_shader (vs blob_pipeline_1)) c in
  let c2 := state_after (emit_shader (vs blob_pipeline_2)) c1 in
  emit_shader (vs blob_pipeline_1) c = Ok (0, c1) /\
  w_items (w_instruction c2) =
    [(0, ITEM_CODE [5; 5; 5; 5]); (64, ITEM_CODE [5; 5; 5; 5])] /\
  emit_shader (vs blob_pipeline_1) c2 = Ok (0, c2).
Proof.
  intros c c1 c2. split; [vm_compute; reflexivity|]. split; [vm_compute; reflexivity|].
  apply (emit_shader_cached_once (vs blob_pipeline_1) c 0 c1 c2).
  - vm_compute. repeat split; discriminate.
  - right. vm_compute. split; reflexivity.
  - vm_compute. reflexivity.
  - apply (rs_emit (vs blob_pipeline_2) 64 c1 c2 c2); [vm_compute; reflexivity|].
    apply rs_refl.
Defined.

(** ** C2: binding tables *)

Lemma in_bounds_lookup {A} (a : list A) i c x c' :
  in_bounds a i c = Ok (x, c') -> a !! Z.to_nat i = Some x /\ c' = c.
Proof.
  unfold in_bounds. destruct (i <? 0); [discriminate|].
  destruct (a !! Z.to_nat i); [|discriminate]. intros [= <- <-]. auto.
Qed.

Lemma surface_adds_trans l1 l2 c1 c2 c3 :
  surface_adds l1 c1 c2 -> surface_adds l2 c2 c3 -> surface_adds (l1 ++ l2) c1 c3.
Proof.
  intros (D1 & B1 & S1 & W1) (D2 & B2 & S2 & W2).
  repeat split; try congruence. rewrite W2, W1, app_assoc. reflexivity.
Qed.

Lemma surface_kept_refl c : surface_kept c c.
Proof. repeat split. simpl. rewrite app_nil_r. reflexivity. Qed.

Lemma surface_kept_trans c1 c2 c3 :
  surface_kept c1 c2 -> surface_kept c2 c3 -> surface_kept c1 c3.
Proof. apply (surface_adds_trans [] []). Qed.

Ltac surface_auto :=
  repeat first
    [ solve [auto 1]
    | progress cbv zeta
    | apply keeps_modify; intros ?; repeat split; simpl;
      rewrite ?app_nil_r; reflexivity
    | keeps_step surface_kept_refl surface_kept_trans ].

Lemma surface_kept_cmd_reserve_reloc n : keeps surface_kept (cmd_reserve_reloc n).
Proof. unfold cmd_reserve_reloc, cmd_fail. surface_auto. Qed.

Lemma surface_kept_cmd_surface_reloc offset dw_index bo bo_offset flags :
  keeps surface_kept (cmd_surface_reloc offset dw_index bo bo_offset flags).
Proof. unfold cmd_surface_reloc, cmd_writer_reloc. surface_auto. Qed.

Lemma surface_kept_cmd_writer_reserve al sz :
  keeps surface_kept (cmd_writer_reserve INTEL_CMD_WRITER_SURFACE al sz).
Proof. unfold cmd_writer_reserve, cmd_writer_grow. surface_auto. Qed.

Lemma cmd_surface_write_spec it al len dw c off c' :
  cmd_surface_write it al len dw c = Ok (off, c') ->
  surface_adds [(off, ITEM_STATE it (take (Z.to_nat len) dw))] c c'.
Proof.
  unfold cmd_surface_write. intros H.
  apply bind_m_ok in H as (r & c1 & H1 & H).
  apply surface_kept_cmd_writer_reserve in H1.
  unfold writer_commit in H. msimp H. injection H as <- <-.
  apply (surface_adds_trans [] _ _ _ _ H1). repeat split.
Qed.

(** A surface state written and its relocation recorded. *)
Lemma surface_write_reloc len dw bo (delta : M Z) (g : Z -> Z) flags c off c' :
  (let* offset := cmd_surface_write INTEL_CMD_ITEM_SURFACE
                    GEN6_ALIGNMENT_SURFACE_STATE len dw in
   exec cmd_reserve_reloc 1 in
   let* dw1 := delta in
   exec cmd_surface_reloc offset 1 bo (g dw1) flags in
   ret offset) c = Ok (off, c') ->
  keeps surface_kept delta ->
  surface_adds [(off, ITEM_STATE INTEL_CMD_ITEM_SURFACE (take (Z.to_nat len) dw))] c c'.
Proof.
  intros H Hd.
  apply bind_m_ok in H as (o & c1 & H1 & H). apply cmd_surface_write_spec in H1.
  apply bind_m_ok in H as ([] & c2 & H2 & H). apply surface_kept_cmd_reserve_reloc in H2.
  apply bind_m_ok in H as (d1 & c3 & H3 & H). apply Hd in H3.
  apply bind_m_ok in H as ([] & c4 & H4 & H). apply surface_kept_cmd_surface_reloc in H4.
  injection H as <- <-.
  pose proof (surface_kept_trans _ _ _ H2 (surface_kept_trans _ _ _ H3 H4)) as K.
  apply (surface_adds_trans _ [] _ _ _ H1) in K. rewrite app_nil_r in K. exact K.
Qed.

Lemma emit_binding_table_slot_spec stage slot c off c' :
  emit_binding_table_slot stage slot c = Ok (off, c') ->
  exists dw,
    surface_adds [(off, ITEM_STATE INTEL_CMD_ITEM_SURFACE dw)] c c' /\
    slot_surface (dev c) (bind c) stage slot dw.
Proof.
  unfold emit_binding_table_slot. rewrite bind_get. cbv zeta.
  assert (Hnull : forall c0 o c1,
    cmd_surface_write INTEL_CMD_ITEM_SURFACE GEN6_ALIGNMENT_SURFACE_STATE
      (nv_cmd_len (dev_null_view (dev c))) (nv_cmd (dev_null_view (dev c))) c0
      = Ok (o, c1) ->
    exists dw, surface_adds [(o, ITEM_STATE INTEL_CMD_ITEM_SURFACE dw)] c0 c1 /\
               slot_surface (dev c) (bind c) stage slot dw).
  { intros c0 o c1 H. apply cmd_surface_write_spec in H.
    eexists. split; [exact H | apply surface_null]. }
  destruct (slot_type slot) eqn:Et; intros H.
  - apply Hnull, H.
  - apply bind_m_ok in H as (view & c1 & Hv & H).
    assert (Hview : c1 = c /\ forall v, view = Some v ->
              exists i, fb_views (bind_fb (bind c)) !! i = Some (Some v)).
    { destruct (_ <? _); [|injection Hv as <- <-; split; [reflexivity | discriminate]].
      apply bind_m_ok in Hv as (ci & c2 & Hc & Hv).
      apply in_bounds_lookup in Hc as [_ ->].
      destruct (_ <? _); [|injection Hv as <- <-; split; [reflexivity | discriminate]].
      apply in_bounds_lookup in Hv as [Hl ->]. split; [reflexivity|].
      intros v ->. eauto. }
    destruct Hview as [-> Hview]. destruct view as [view|]; [|apply Hnull, H].
    destruct (Hview view eq_refl) as [i Hi].
    apply (surface_write_reloc _ _ _ _ (fun x => x)) in H;
      [|apply keeps_in_bounds, surface_kept_refl].
    eexists. split; [exact H|]. eapply surface_rt; eassumption.
  - rewrite bind_assert in H. destruct (_ || _); [|discriminate].
    apply bind_m_ok in H as (set_offset & c1 & Hs & H).
    apply in_bounds_lookup in Hs as [_ ->].
    destruct (sd_mem _) as [bo|] eqn:Em; [|apply Hnull, H].
    apply bind_m_ok in H as (dyn & c1 & Hd & H).
    assert (c1 = c) as ->.
    { destruct (_ >=? _); [apply in_bounds_lookup in Hd as [_ ->] | injection Hd as _ <-];
        reflexivity. }
    apply (surface_write_reloc _ _ _ _ (fun x => u32 (x + dyn))) in H;
      [|apply keeps_in_bounds, surface_kept_refl].
    eexists. split; [exact H|]. eapply surface_desc; eassumption.
  - rewrite bind_assert in H. discriminate.
  - rewrite bind_assert in H. discriminate.
Qed.

Lemma emit_binding_table_loop_spec stage sba slots :
  forall binding_table c table c',
    emit_binding_table_loop stage sba slots binding_table c = Ok (table, c') ->
    exists surfaces,
      surface_adds surfaces c c' /\
      table = binding_table ++ map (fun s => u32 (fst s - sba)) surfaces /\
      Forall2 (fun slot s => exists dw,
                 snd s = ITEM_STATE INTEL_CMD_ITEM_SURFACE dw /\
                 slot_surface (dev c) (bind c) stage slot dw) slots surfaces.
Proof.
  induction slots as [|slot slots IH]; intros bt c table c' H; simpl in H.
  - injection H as <- <-. exists []. split; [apply surface_kept_refl|].
    split; [simpl; rewrite app_nil_r; reflexivity | constructor].
  - apply bind_m_ok in H as (off & c1 & H1 & H).
    apply emit_binding_table_slot_spec in H1 as (dw & A1 & S1).
    apply IH in H as (surfaces & A & -> & F).
    exists ((off, ITEM_STATE INTEL_CMD_ITEM_SURFACE dw) :: surfaces).
    split; [apply (surface_adds_trans [_] _ _ _ _ A1 A)|].
    split; [rewrite <- app_assoc; reflexivity|].
    constructor; [eauto|].
    destruct A1 as (D & B & _). rewrite D, B in F. exact F.
Qed.

(** C2. When [emit_binding_table] has run for a resource map with a surface
    count that is not 0, the surface writer has gained one surface state for
    each of the first [surface_count] slots, in their order, and after them
    the binding table: the table has exactly [surface_count] entries, entry
    [i] is the offset (from the surface state base) of the surface state
    written for slot [i], and that surface state is the null view of the
    device, the surface state of an attachment view of the framebuffer, or
    that of a descriptor with memory behind it. *)
Theorem emit_binding_table_complete rmap stage c off c' :
  rmap_surface_count (Some rmap) <> 0 ->
  emit_binding_table (Some rmap) stage c = Ok (off, c') ->
  let surface_count := rmap_surface_count (Some rmap) in
  let sba_offset := w_sba_offset (w_surface c) in
  exists surfaces table_offset table,
    w_items (w_surface c') =
      w_items (w_surface c) ++ surfaces ++
      [(table_offset, ITEM_STATE INTEL_CMD_ITEM_BINDING_TABLE table)] /\
    off = u32 (table_offset - sba_offset) /\
    Z.of_nat (length table) = surface_count /\
    table = map (fun s => u32 (fst s - sba_offset)) surfaces /\
    Forall2 (fun slot s => exists dw,
               snd s = ITEM_STATE INTEL_CMD_ITEM_SURFACE dw /\
               slot_surface (dev c) (bind c) stage slot dw)
      (take (Z.to_nat surface_count) (slots rmap)) surfaces.
Proof.
  intros Hn H n sba. unfold emit_binding_table in H. rewrite bind_get in H.
  apply bind_m_ok in H as ([] & c0 & Hg & H).
  assert (c0 = c) as ->.
  { unfold CMD_ASSERT in Hg. rewrite bind_get in Hg.
    apply assert_ok in Hg as [_ [= ->]]. reflexivity. }
  fold n in H. destruct (Z.eqb_spec n 0) as [|_]; [contradiction|].
  rewrite bind_assert in H. destruct (n <=? 256); [|discriminate].
  rewrite bind_assert in H.
  destruct (Z.leb_spec n (Z.of_nat (length (slots rmap)))) as [Hlen|]; [|discriminate].
  apply bind_m_ok in H as (table & c1 & Hl & H).
  apply emit_binding_table_loop_spec in Hl as (surfaces & A & Et & F).
  simpl in Et. fold sba in Et.
  apply bind_m_ok in H as (written & c2 & Hw & H).
  apply cmd_surface_write_spec in Hw.
  rewrite bind_assert in H. destruct (_ <=? _); [|discriminate]. injection H as <- <-.
  pose proof (u32_range (rt_count rmap + texture_resource_count rmap +
                         resource_count rmap + uav_count rmap)) as Hr.
  assert (Hlt : length table = Z.to_nat n).
  { rewrite Et, length_map, <- (Forall2_length _ _ _ F), length_take. unfold n in *.
    simpl in *. lia. }
  rewrite <- Hlt, firstn_all in Hw.
  assert (Hn0 : 0 <= n) by (unfold n; simpl; lia).
  exists surfaces, written, table.
  split; [|split; [reflexivity | split; [lia | split; [exact Et | exact F]]]].
  destruct (surface_adds_trans _ _ _ _ _ A Hw) as (_ & _ & _ & W). exact W.
Qed.

Lemma emit_binding_table_complete_witness :
  let c := sample_bound_cmd in
  let stage := VK_SHADER_STAGE_VERTEX_BIT in
  let c' := state_after (emit_binding_table (Some sample_rmap) stage) c in
  emit_binding_table (Some sample_rmap) stage c = Ok (96, c') /\
  exists surfaces table_offset table,
    w_items (w_surface c') =
      w_items (w_surface c) ++ surfaces ++
      [(table_offset, ITEM_STATE INTEL_CMD_ITEM_BINDING_TABLE table)] /\
    96 = u32 (table_offset - w_sba_offset (w_surface c)) /\
    Z.of_nat (length table) = rmap_surface_count (Some sample_rmap) /\
    table = map (fun s => u32 (fst s - w_sba_offset (w_surface c))) surfaces /\
    Forall2 (fun slot s => exists dw,
               snd s = ITEM_STATE INTEL_CMD_ITEM_SURFACE dw /\
               slot_surface (dev c) (bind c) stage slot dw)
      (take (Z.to_nat (rmap_surface_count (Some sample_rmap))) (slots sample_rmap))
      surfaces.
Proof.
  intros c stage c'. split; [vm_compute; reflexivity|].
  apply (emit_binding_table_complete sample_rmap stage c 96 c').
  - vm_compute. discriminate.
  - vm_compute. reflexivity.
Defined.

(** * Further properties *)

(** ** Alignment *)

Lemma u_align_pow2 x k :
  0 <= k -> u_align x (2 ^ k) = (x + 2 ^ k - 1) / 2 ^ k * 2 ^ k.
Proof.
  intros Hk. unfold u_align.
  replace (2 ^ k - 1) with (Z.ones k) by (rewrite Z.ones_equiv; lia).
  rewrite <- Z.ldiff_land, Z.ldiff_ones_r by lia.
  rewrite Z.shiftr_div_pow2, Z.shiftl_mul_pow2 by lia. reflexivity.
Qed.

Lemma u_align_bounds x k :
  0 <= k ->
  u_align x (2 ^ k) mod 2 ^ k = 0 /\ x <= u_align x (2 ^ k) < x + 2 ^ k.
Proof.
  intros Hk. rewrite u_align_pow2 by lia.
  assert (Hp : 0 < 2 ^ k) by (apply Z.pow_pos_nonneg; lia).
  split; [apply Z_mod_mult|].
  pose proof (Z.div_mod (x + 2 ^ k - 1) (2 ^ k) ltac:(lia)) as Hd.
  pose proof (Z.mod_pos_bound (x + 2 ^ k - 1) (2 ^ k) Hp) as Hm.
  lia.
Qed.

Lemma u_align_1 x : u_align x 1 = x.
Proof.
  pose proof (u_align_bounds x 0 ltac:(lia)) as [_ H]. change (2 ^ 0) with 1 in H. lia.
Qed.

Lemma u_is_pow2_pow2 k : 0 <= k -> u_is_pow2 (2 ^ k) = true.
Proof.
  intros Hk. unfold u_is_pow2. apply Z.eqb_eq.
  replace (2 ^ k - 1) with (Z.ones k) by (rewrite Z.ones_equiv; lia).
  rewrite Z.land_ones by lia. apply Z_mod_same_full.
Qed.

(** The rewriting of [mnorm], in the goal. *)
Ltac gnorm :=
  repeat first
    [ progress rewrite bind_assoc | progress rewrite bind_get
    | progress rewrite bind_ret | progress rewrite bind_modify
    | progress rewrite bind_assert | progress rewrite bind_when
    | progress rewrite when_eq | progress rewrite assert_eq
    | progress rewrite ret_eq | progress rewrite modify_eq ].

Lemma cmd_batch_pointer_eq len p c :
  w_used (w_batch c) mod 4 = 0 ->
  0 <= len < 2 ^ 30 ->
  cmd_batch_pointer len p c =
    Ok (u32 (Z.shiftr (w_used (w_batch c)) 2), batch_append len p c).
Proof.
  intros Hu Hl. unfold cmd_batch_pointer, cmd_writer_reserve, cmd_writer_grow,
    writer_commit, batch_append.
  rewrite Z.shiftl_mul_pow2 by lia. change (2 ^ 2) with 4.
  rewrite (u32_small (len * 4)) by lia. rewrite (Z.mul_comm len 4).
  gnorm. simpl. rewrite u_align_1.
  destruct (Z.gtb_spec (w_used (w_batch c) + 4 * len) (w_size (w_batch c))) as [Hg|Hg].
  - gnorm. simpl. rewrite u_align_1.
    destruct (Z.leb_spec (w_used (w_batch c) + 4 * len)
                (Z.max (w_used (w_batch c) + 4 * len) (w_size (w_batch c)))); [|lia].
    rewrite (proj2 (Z.eqb_eq _ _) Hu). reflexivity.
  - gnorm. rewrite (proj2 (Z.eqb_eq _ _) Hu). simpl.
    rewrite Z.max_r by lia. destruct c as [? ? ? []]. reflexivity.
Qed.

Lemma writers_set_writer which w c : writers (set_writer which w c) which = w.
Proof. destruct which; reflexivity. Qed.

Lemma pow2_pos k : 0 <= k -> 0 < 2 ^ k.
Proof. intros. apply Z.pow_pos_nonneg; lia. Qed.

(** ** Writers *)

Lemma cmd_writer_reserve_returns which k size c :
  0 <= k ->
  exists off c',
    cmd_writer_reserve which (2 ^ k) size c = Ok (off, c') /\
    off mod 2 ^ k = 0 /\
    w_used (writers c which) <= off < w_used (writers c which) + 2 ^ k /\
    off + size <= w_size (writers c' which) /\
    w_used (writers c' which) = w_used (writers c which) /\
    w_items (writers c' which) = w_items (writers c which).
Proof.
  intros Hk. pose proof (pow2_pos k Hk) as Hp.
  pose proof (u_align_bounds (w_used (writers c which)) k Hk) as [Hm Hb].
  exists (u_align (w_used (writers c which)) (2 ^ k)).
  unfold cmd_writer_reserve, cmd_writer_grow. gnorm.
  rewrite u_is_pow2_pow2 by lia.
  destruct (Z.eqb_spec (2 ^ k) 0) as [|_]; [lia|]. simpl.
  destruct (Z.gtb_spec (u_align (w_used (writers c which)) (2 ^ k) + size)
              (w_size (writers c which))) as [Hg|Hg].
  - gnorm. rewrite !writers_set_writer. simpl.
    destruct (Z.leb_spec (u_align (w_used (writers c which)) (2 ^ k) + size)
                (Z.max (u_align (w_used (writers c which)) (2 ^ k) + size)
                   (w_size (writers c which)))); [|lia].
    eexists. split; [reflexivity|]. rewrite writers_set_writer. simpl.
    repeat split; try lia.
  - eexists. split; [reflexivity|]. repeat split; lia.
Qed.

(** X1. [cmd_writer_reserve] with a power of two as its alignment returns:
    the offset is the first multiple of the alignment at or after what the
    writer has used, the writer is (grown to be) large enough for [size]
    bytes there, and nothing is used up or written yet. *)
Theorem cmd_writer_reserve_places which k size c :
  0 <= k ->
  exists off c',
    cmd_writer_reserve which (2 ^ k) size c = Ok (off, c') /\
    off mod 2 ^ k = 0 /\
    w_used (writers c which) <= off < w_used (writers c which) + 2 ^ k /\
    off + size <= w_size (writers c' which) /\
    w_used (writers c' which) = w_used (writers c which) /\
    w_items (writers c' which) = w_items (writers c which).
Proof. apply cmd_writer_reserve_returns. Qed.

Lemma cmd_writer_reserve_places_witness :
  exists off c',
    cmd_writer_reserve INTEL_CMD_WRITER_INSTRUCTION (2 ^ 6) 100
      (fresh_cmd sample_gen7 sample_p) = Ok (off, c') /\
    off mod 2 ^ 6 = 0 /\
    w_used (writers (fresh_cmd sample_gen7 sample_p) INTEL_CMD_WRITER_INSTRUCTION)
      <= off <
    w_used (writers (fresh_cmd sample_gen7 sample_p) INTEL_CMD_WRITER_INSTRUCTION)
      + 2 ^ 6 /\
    off + 100 <= w_size (writers c' INTEL_CMD_WRITER_INSTRUCTION) /\
    w_used (writers c' INTEL_CMD_WRITER_INSTRUCTION) =
      w_used (writers (fresh_cmd sample_gen7 sample_p) INTEL_CMD_WRITER_INSTRUCTION) /\
    w_items (writers c' INTEL_CMD_WRITER_INSTRUCTION) =
      w_items (writers (fresh_cmd sample_gen7 sample_p) INTEL_CMD_WRITER_INSTRUCTION).
Proof.
  apply (cmd_writer_reserve_places INTEL_CMD_WRITER_INSTRUCTION 6 100
           (fresh_cmd sample_gen7 sample_p)). lia.
Defined.

Lemma cmd_instruction_write_returns size kernel c :
  exists off c',
    cmd_instruction_write size kernel c = Ok (u32 off, c') /\
    off mod 64 = 0 /\
    w_used (w_instruction c) <= off < w_used (w_instruction c) + 64 /\
    w_used (w_instruction c') = off + size /\
    off + size + 128 <= w_size (w_instruction c') /\
    w_items (w_instruction c') =
      w_items (w_instruction c) ++ [(off, ITEM_CODE (take (Z.to_nat size) kernel))].
Proof.
  destruct (cmd_writer_reserve_returns INTEL_CMD_WRITER_INSTRUCTION 6 (size + 128) c)
    as (off & c1 & Hr & Hm & Hb & Hs & Hu & Hi); [lia|].
  change (2 ^ 6) with 64 in *. simpl in *.
  exists off. unfold cmd_instruction_write, writer_commit. cbv zeta.
  unfold bind_m at 1. rewrite Hr. gnorm. simpl.
  eexists. split; [reflexivity|]. simpl. rewrite Hi. repeat split; lia.
Qed.

(** X2. [cmd_instruction_write] always returns. The kernel goes to the first
    64-byte aligned offset at or after what the instruction writer has used,
    the writer then has used up to the end of the kernel, and at least 128
    bytes beyond the kernel are inside the writer (the prefetch of the EUs). *)
Theorem cmd_instruction_write_places size kernel c :
  exists off c',
    cmd_instruction_write size kernel c = Ok (u32 off, c') /\
    off mod 64 = 0 /\
    w_used (w_instruction c) <= off < w_used (w_instruction c) + 64 /\
    w_used (w_instruction c') = off + size /\
    off + size + 128 <= w_size (w_instruction c') /\
    w_items (w_instruction c') =
      w_items (w_instruction c) ++ [(off, ITEM_CODE (take (Z.to_nat size) kernel))].
Proof. apply cmd_instruction_write_returns. Qed.

(** X3. [cmd_batch_pointer] counts in dwords. With the batch used up to a
    multiple of 4 bytes it returns that amount divided by 4, the batch holds
    the packet there and its use has grown by [4 * len] bytes, again a
    multiple of 4; with any other amount used it stops at its assertion. *)
Theorem cmd_batch_pointer_dwords len p c :
  0 <= len < 2 ^ 30 ->
  if w_used (w_batch c) mod 4 =? 0 then
    cmd_batch_pointer len p c =
      Ok (u32 (w_used (w_batch c) / 4), batch_append len p c) /\
    w_used (w_batch (batch_append len p c)) = w_used (w_batch c) + 4 * len /\
    w_used (w_batch (batch_append len p c)) mod 4 = 0 /\
    batch_items (batch_append len p c) =
      batch_items c ++ [(w_used (w_batch c), ITEM_PACKET p)]
  else cmd_batch_pointer len p c = AssertFail.
Proof.
  intros Hl. destruct (Z.eqb_spec (w_used (w_batch c) mod 4) 0) as [Hu|Hu].
  - rewrite cmd_batch_pointer_eq by assumption.
    rewrite Z.shiftr_div_pow2 by lia. change (2 ^ 2) with 4.
    split; [reflexivity|]. split; [reflexivity|]. split; [|reflexivity].
    simpl. rewrite Z.add_mod, Hu, Z.mul_comm, Z_mod_mult by lia. reflexivity.
  - unfold cmd_batch_pointer, cmd_writer_reserve, cmd_writer_grow. gnorm. simpl.
    rewrite u_align_1.
    destruct (_ >? _).
    + gnorm. simpl. rewrite u_align_1. destruct (_ <=? _); [|reflexivity].
      destruct (Z.eqb_spec (w_used (w_batch c) mod 4) 0); [contradiction | reflexivity].
    + gnorm. destruct (Z.eqb_spec (w_used (w_batch c) mod 4) 0);
        [contradiction | reflexivity].
Qed.

Lemma cmd_batch_pointer_dwords_witness :
  cmd_batch_pointer 5 (PKT_PIPE_CONTROL 0 0) (fresh_cmd sample_gen7 sample_p) =
    Ok (0, batch_append 5 (PKT_PIPE_CONTROL 0 0) (fresh_cmd sample_gen7 sample_p)) /\
  w_used (w_batch (batch_append 5 (PKT_PIPE_CONTROL 0 0)
                     (fresh_cmd sample_gen7 sample_p))) = 20.
Proof.
  pose proof (cmd_batch_pointer_dwords 5 (PKT_PIPE_CONTROL 0 0)
                (fresh_cmd sample_gen7 sample_p) ltac:(lia)) as H.
  simpl in H. destruct H as (H1 & H2 & _). split; [exact H1 | exact H2].
Defined.

(** X4. [cmd_batch_end] closes a batch that is used up to a multiple of 4
    bytes with MI_BATCH_BUFFER_END, followed by one MI_NOOP when the batch
    would otherwise end on an odd dword: the batch then is a multiple of 8
    bytes long. *)
Theorem cmd_batch_end_qword c :
  w_used (w_batch c) mod 4 = 0 ->
  exists c' pad,
    cmd_batch_end c = Ok (tt, c') /\
    batch_items c' =
      batch_items c ++
      [(w_used (w_batch c), ITEM_PACKET (PKT_OTHER (GEN6_MI_BATCH_BUFFER_END :: pad)))] /\
    (pad = [] \/ pad = [GEN6_MI_NOOP]) /\
    w_used (w_batch c') = w_used (w_batch c) + 4 * (1 + Z.of_nat (length pad)) /\
    w_used (w_batch c') mod 8 = 0.
Proof.
  intros Hu. unfold cmd_batch_end. rewrite bind_get. cbv zeta.
  change 7 with (Z.ones 3). rewrite Z.land_ones by lia. change (2 ^ 3) with 8.
  pose proof (Z.div_mod (w_used (w_batch c)) 8 ltac:(lia)) as Hd8.
  pose proof (Z.mod_pos_bound (w_used (w_batch c)) 8 ltac:(lia)) as Hb8.
  pose proof (Z.div_mod (w_used (w_batch c)) 4 ltac:(lia)) as Hd4.
  change (writers c INTEL_CMD_WRITER_BATCH) with (w_batch c).
  destruct (Z.eqb_spec (w_used (w_batch c) mod 8) 0) as [H8|H8]; cbn [negb].
  - exists (batch_append 2 (PKT_OTHER [GEN6_MI_BATCH_BUFFER_END; GEN6_MI_NOOP]) c),
      [GEN6_MI_NOOP].
    unfold bind_m. rewrite cmd_batch_pointer_eq by (assumption || lia).
    split; [reflexivity|]. split; [reflexivity|]. split; [auto|].
    split; [reflexivity|]. simpl.
    rewrite Z.add_mod, H8 by lia. reflexivity.
  - exists (batch_append 1 (PKT_OTHER [GEN6_MI_BATCH_BUFFER_END]) c), [].
    unfold bind_m. rewrite cmd_batch_pointer_eq by (assumption || lia).
    split; [reflexivity|]. split; [reflexivity|]. split; [auto|].
    split; [reflexivity|]. simpl.
    assert (w_used (w_batch c) mod 8 = 4) as E by lia.
    rewrite Z.add_mod, E by lia. reflexivity.
Qed.

Lemma cmd_batch_end_qword_witness :
  exists c' pad,
    cmd_batch_end (fresh_cmd sample_gen7 sample_p) = Ok (tt, c') /\
    batch_items c' =
      batch_items (fresh_cmd sample_gen7 sample_p) ++
      [(w_used (w_batch (fresh_cmd sample_gen7 sample_p)),
        ITEM_PACKET (PKT_OTHER (GEN6_MI_BATCH_BUFFER_END :: pad)))] /\
    (pad = [] \/ pad = [GEN6_MI_NOOP]) /\
    w_used (w_batch c') =
      w_used (w_batch (fresh_cmd sample_gen7 sample_p)) + 4 * (1 + Z.of_nat (length pad)) /\
    w_used (w_batch c') mod 8 = 0.
Proof.
  apply (cmd_batch_end_qword (fresh_cmd sample_gen7 sample_p)). reflexivity.
Defined.

(** ** Recordings that return *)

Lemma cmd_reserve_reloc_eq n c :
  reloc_inv c -> 0 <= n <= reloc_count c ->
  cmd_reserve_reloc n c = Ok (tt, reloc_reserved n c).
Proof.
  intros Hi Hn. destruct Hi as (Hu & Hc & Hl).
  destruct (cmd_reserve_reloc_returns n c Hn Hc) as (c' & H).
  rewrite H. apply cmd_reserve_reloc_spec in H as [-> _]. reflexivity.
Qed.

Lemma cmd_writer_reloc_eq which o t to f c :
  reloc_used c < reloc_count c ->
  cmd_writer_reloc which o t to f c = Ok (tt, reloc_added (mk_reloc which o t to f) c).
Proof.
  intros Hu. destruct (cmd_writer_reloc_returns which o t to f c Hu) as (c' & H).
  rewrite H. apply cmd_writer_reloc_spec in H as [_ ->]. reflexivity.
Qed.

Lemma reloc_reserved_room n c :
  reloc_inv c -> 0 <= n <= reloc_count c ->
  reloc_inv (reloc_reserved n c) /\
  0 <= reloc_used (reloc_reserved n c) /\
  reloc_used (reloc_reserved n c) + n <= reloc_count c /\
  reloc_count (reloc_reserved n c) = reloc_count c.
Proof.
  intros (Hu & Hc & Hl) Hn. unfold reloc_reserved, reloc_overflow.
  destruct (Z.gtb_spec (u32 (reloc_used c + n)) (reloc_count c)) as [Hg|Hg].
  - unfold reloc_inv. simpl. repeat split; lia.
  - rewrite u32_small in Hg by lia. unfold reloc_inv. repeat split; lia.
Qed.

Lemma reloc_added_inv r c :
  reloc_inv c -> reloc_used c < reloc_count c -> reloc_inv (reloc_added r c).
Proof.
  intros (Hu & Hc & Hl) Hlt. unfold reloc_inv, reloc_added. simpl.
  rewrite length_insert, u32_small by lia. repeat split; lia.
Qed.

Lemma cmd_wf_batch_append len p c :
  cmd_wf c -> cmd_wf (batch_append len p c).
Proof.
  intros (Hg & Hu & Hi & Hc). unfold cmd_wf, batch_append. simpl.
  repeat split; try assumption; try apply Hg; try apply Hi.
  rewrite Z.add_mod, Hu, Z.mul_comm, Z_mod_mult by lia. reflexivity.
Qed.

Lemma cmd_wf_reloc_reserved n c :
  cmd_wf c -> 0 <= n <= reloc_count c -> cmd_wf (reloc_reserved n c).
Proof.
  intros (Hg & Hu & Hi & Hc) Hn.
  destruct (reloc_reserved_room n c Hi Hn) as (Hi' & _ & _ & Hc').
  assert (E : cmd_gen (reloc_reserved n c) = cmd_gen c /\
              w_batch (reloc_reserved n c) = w_batch c)
    by (unfold reloc_reserved; destruct (reloc_overflow c n); split; reflexivity).
  destruct E as [E1 E2]. unfold cmd_wf. rewrite E1, E2, Hc'.
  split; [exact Hg|]. split; [exact Hu|]. split; assumption.
Qed.

Lemma cmd_wf_reloc_added r c :
  cmd_wf c -> reloc_used c < reloc_count c -> cmd_wf (reloc_added r c).
Proof.
  intros (Hg & Hu & Hi & Hc) Hlt. unfold cmd_wf.
  split; [exact Hg|]. split; [exact Hu|]. split; [|exact Hc].
  apply reloc_added_inv; assumption.
Qed.

Lemma CMD_ASSERT_eq lo hi c :
  CMD_ASSERT lo hi c =
  if (lo <=? cmd_gen c) && (cmd_gen c <=? hi) then Ok (tt, c) else AssertFail.
Proof. reflexivity. Qed.

Lemma bind_CMD_ASSERT {B} lo hi (k : unit -> M B) c :
  bind_m (CMD_ASSERT lo hi) k c =
  if (lo <=? cmd_gen c) && (cmd_gen c <=? hi) then k tt c else AssertFail.
Proof. unfold bind_m. rewrite CMD_ASSERT_eq. destruct (_ && _); reflexivity. Qed.

Lemma gen_in_range c :
  cmd_wf c -> (INTEL_GEN_6 <=? cmd_gen c) && (cmd_gen c <=? INTEL_GEN_7_5) = true.
Proof.
  intros ([H1 H2] & _). apply andb_true_iff. split; apply Z.leb_le; assumption.
Qed.

Lemma pipe_control_tail dw1 bo bo_offset imm c :
  cmd_wf c ->
  (let* pos := cmd_batch_pointer 5 (PKT_PIPE_CONTROL dw1 imm) in
   when (negb (bo =? 0))
     (exec cmd_reserve_reloc 1 in
      cmd_batch_reloc (pos + 2) bo
        (if (cmd_gen c =? INTEL_GEN_6) && negb (bo =? 0)
         then Z.lor bo_offset GEN6_PIPE_CONTROL_DW2_USE_GGTT else bo_offset)
        (if (cmd_gen c =? INTEL_GEN_6) && negb (bo =? 0)
         then Z.lor INTEL_RELOC_WRITE INTEL_RELOC_GGTT else INTEL_RELOC_WRITE))) c =
  Ok (tt, pipe_control_added dw1 bo bo_offset imm c).
Proof.
  intros Hwf. pose proof Hwf as (Hg & Hu & Hi & Hc). unfold pipe_control_added.
  unfold bind_m at 1. rewrite cmd_batch_pointer_eq by (assumption || lia).
  rewrite when_eq. destruct (bo =? 0); [reflexivity|]. simpl negb.
  rewrite !andb_true_r. cbv iota.
  unfold bind_m. rewrite cmd_reserve_reloc_eq by (try apply Hi; simpl; lia).
  unfold cmd_batch_reloc.
  rewrite cmd_writer_reloc_eq; [reflexivity|].
  destruct (reloc_reserved_room 1 (batch_append 5 (PKT_PIPE_CONTROL dw1 imm) c))
    as (_ & ? & ? & ?); [apply Hi | simpl; lia | simpl in *; lia].
Qed.

Lemma gen6_PIPE_CONTROL_eq dw1 bo bo_offset imm c :
  cmd_wf c ->
  gen6_PIPE_CONTROL dw1 bo bo_offset imm c =
  if (bo_offset mod 8 =? 0) && pipe_control_rules (cmd_gen c) dw1
  then Ok (tt, pipe_control_added dw1 bo bo_offset imm c) else AssertFail.
Proof.
  intros Hwf. pose proof (pipe_control_tail dw1 bo bo_offset imm c Hwf) as Ht.
  unfold gen6_PIPE_CONTROL, pipe_control_rules, cs_stall_companions.
  cbv zeta. rewrite bind_get, bind_CMD_ASSERT, (gen_in_range c Hwf), bind_assert.
  destruct (bo_offset mod 8 =? 0); [|reflexivity]. simpl andb.
  rewrite bind_when.
  destruct (has dw1 GEN6_PIPE_CONTROL_CS_STALL); simpl.
  - rewrite bind_assert. destruct (has dw1 _); [|reflexivity]. simpl.
    rewrite bind_when. destruct (has dw1 GEN6_PIPE_CONTROL_DEPTH_STALL); simpl.
    + rewrite bind_assert. destruct (has dw1 _); [reflexivity|]. exact Ht.
    + exact Ht.
  - rewrite bind_when. destruct (has dw1 GEN6_PIPE_CONTROL_DEPTH_STALL); simpl.
    + rewrite bind_assert. destruct (has dw1 _); [reflexivity|]. exact Ht.
    + exact Ht.
Qed.

Lemma cmd_wf_pipe_control_added dw1 bo bo_offset imm c :
  cmd_wf c -> cmd_wf (pipe_control_added dw1 bo bo_offset imm c).
Proof.
  intros Hwf. unfold pipe_control_added.
  pose proof (cmd_wf_batch_append 5 (PKT_PIPE_CONTROL dw1 imm) c Hwf) as H1.
  destruct (bo =? 0); [exact H1|].
  pose proof H1 as (_ & _ & Hi & Hc).
  apply cmd_wf_reloc_added.
  - apply cmd_wf_reloc_reserved; [exact H1 | lia].
  - destruct (reloc_reserved_room 1 _ Hi ltac:(lia)) as (_ & ? & ? & ?). lia.
Qed.

Lemma gen6_PIPE_CONTROL_returns dw1 bo bo_offset imm c :
  cmd_wf c -> bo_offset mod 8 = 0 -> pipe_control_rules (cmd_gen c) dw1 = true ->
  gen6_PIPE_CONTROL dw1 bo bo_offset imm c =
    Ok (tt, pipe_control_added dw1 bo bo_offset imm c).
Proof.
  intros Hwf Ho Hr. rewrite gen6_PIPE_CONTROL_eq by assumption.
  rewrite (proj2 (Z.eqb_eq _ _) Ho), Hr. reflexivity.
Qed.

(** ** PIPE_CONTROL *)

(** X5. In a command buffer that is in order, [gen6_PIPE_CONTROL] returns
    exactly when the offset is a multiple of 8, a CS stall comes with one of
    its companion bits (a cache flush, a stall, a post-sync write; on
    generation 6 also the notify bit) and a depth stall comes without render
    or depth cache flush; otherwise it stops at an assertion. *)
Theorem gen6_PIPE_CONTROL_accepts dw1 bo bo_offset imm c :
  cmd_wf c ->
  ((exists c', gen6_PIPE_CONTROL dw1 bo bo_offset imm c = Ok (tt, c')) <->
   bo_offset mod 8 = 0 /\
   (has dw1 GEN6_PIPE_CONTROL_CS_STALL = true ->
    has dw1 (cs_stall_companions (cmd_gen c)) = true) /\
   (has dw1 GEN6_PIPE_CONTROL_DEPTH_STALL = true ->
    has dw1 (Z.lor GEN6_PIPE_CONTROL_RENDER_CACHE_FLUSH
                   GEN6_PIPE_CONTROL_DEPTH_CACHE_FLUSH) = false)).
Proof.
  intros Hwf. rewrite gen6_PIPE_CONTROL_eq by assumption.
  unfold pipe_control_rules.
  destruct (Z.eqb_spec (bo_offset mod 8) 0) as [Ho|Ho]; simpl.
  - destruct (has dw1 GEN6_PIPE_CONTROL_CS_STALL),
      (has dw1 (cs_stall_companions (cmd_gen c))),
      (has dw1 GEN6_PIPE_CONTROL_DEPTH_STALL),
      (has dw1 (Z.lor GEN6_PIPE_CONTROL_RENDER_CACHE_FLUSH
                      GEN6_PIPE_CONTROL_DEPTH_CACHE_FLUSH)); simpl;
      split; try (intros [c' H]; discriminate H); eauto;
      intros (_ & H1 & H2);
      try (specialize (H1 eq_refl); discriminate H1);
      try (specialize (H2 eq_refl); discriminate H2).
  - split; [intros [c' H]; discriminate H | intros [H _]; contradiction].
Qed.

Lemma gen6_PIPE_CONTROL_accepts_witness :
  (exists c', gen6_PIPE_CONTROL GEN6_PIPE_CONTROL_DEPTH_STALL 0 0 0
                (fresh_cmd sample_gen7 sample_p) = Ok (tt, c')) /\
  gen6_PIPE_CONTROL GEN6_PIPE_CONTROL_CS_STALL 0 0 0
    (fresh_cmd sample_gen7 sample_p) = AssertFail.
Proof.
  split.
  - apply (gen6_PIPE_CONTROL_accepts GEN6_PIPE_CONTROL_DEPTH_STALL 0 0 0
             (fresh_cmd sample_gen7 sample_p)).
    + vm_compute. repeat split; discriminate.
    + split; [reflexivity|]. split; [discriminate | reflexivity].
  - reflexivity.
Defined.

(** X6. When [gen6_PIPE_CONTROL] has returned, the batch holds one more
    packet of 5 dwords. Without a buffer object the relocation table is as it
    was. With one, the table has one more entry, for the third dword of the
    packet, a write to [bo] at [bo_offset] (through the global GTT on
    generation 6); when the table was full the entry is the first of a table
    started afresh and the command buffer is marked as failed. *)
Theorem gen6_PIPE_CONTROL_writes dw1 bo bo_offset imm c c' :
  cmd_wf c ->
  gen6_PIPE_CONTROL dw1 bo bo_offset imm c = Ok (tt, c') ->
  cmd_wf c' /\
  batch_items c' =
    batch_items c ++ [(w_used (w_batch c), ITEM_PACKET (PKT_PIPE_CONTROL dw1 imm))] /\
  w_used (w_batch c') = w_used (w_batch c) + 20 /\
  if bo =? 0 then
    relocs c' = relocs c /\ reloc_used c' = reloc_used c /\ result c' = result c
  else
    let at_ := if reloc_overflow c 1 then 0 else reloc_used c in
    reloc_used c' = at_ + 1 /\
    relocs c' !! Z.to_nat at_ =
      Some (mk_reloc INTEL_CMD_WRITER_BATCH
              (Z.shiftl (u32 (Z.shiftr (w_used (w_batch c)) 2) + 2) 2) (TARGET_BO bo)
              (if cmd_gen c =? INTEL_GEN_6
               then Z.lor bo_offset GEN6_PIPE_CONTROL_DW2_USE_GGTT else bo_offset)
              (if cmd_gen c =? INTEL_GEN_6
               then Z.lor INTEL_RELOC_WRITE INTEL_RELOC_GGTT else INTEL_RELOC_WRITE)) /\
    (reloc_overflow c 1 = true -> result c' = VK_ERROR_VALIDATION_FAILED_EXT).
Proof.
  intros Hwf H. rewrite gen6_PIPE_CONTROL_eq in H by assumption.
  destruct (_ && _); [|discriminate]. injection H as <-.
  split; [apply cmd_wf_pipe_control_added, Hwf|].
  pose proof Hwf as (Hg & Hu & (Hiu & Hic & Hil) & Hc).
  unfold pipe_control_added. destruct (bo =? 0).
  - repeat split.
  - unfold reloc_added, reloc_reserved, reloc_overflow, batch_items. simpl.
    destruct (Z.gtb_spec (u32 (reloc_used c + 1)) (reloc_count c)) as [Ho|Ho]; simpl.
    + split; [reflexivity|]. split; [reflexivity|].
      split; [reflexivity|]. split; [|reflexivity].
      apply list_lookup_insert_eq. simpl. lia.
    + rewrite u32_small in Ho by lia. rewrite u32_small by lia.
      split; [reflexivity|]. split; [reflexivity|].
      split; [reflexivity|]. split; [|discriminate].
      apply list_lookup_insert_eq. lia.
Qed.

Lemma gen6_PIPE_CONTROL_writes_witness :
  let c := fresh_cmd (sample_dev INTEL_GEN_6 false) sample_p in
  let c' := state_after (gen6_PIPE_CONTROL GEN6_PIPE_CONTROL_WRITE_IMM 4242 8 1) c in
  reloc_used c' = 1 /\
  relocs c' !! 0%nat =
    Some (mk_reloc INTEL_CMD_WRITER_BATCH 8 (TARGET_BO 4242)
            (Z.lor 8 GEN6_PIPE_CONTROL_DW2_USE_GGTT)
            (Z.lor INTEL_RELOC_WRITE INTEL_RELOC_GGTT)).
Proof.
  intros c c'.
  destruct (gen6_PIPE_CONTROL_writes GEN6_PIPE_CONTROL_WRITE_IMM 4242 8 1 c c')
    as (_ & _ & _ & H).
  - vm_compute. repeat split; discriminate.
  - vm_compute. reflexivity.
  - simpl in H. destruct H as (H1 & H2 & _). split; [exact H1 | exact H2].
Defined.

(** ** The workarounds *)

Lemma has_lor_r_false a b m : has b m = false -> has (Z.lor a b) m = has a m.
Proof.
  intros Hb. destruct (has a m) eqn:Ha.
  - apply has_lor_l, Ha.
  - apply has_lor_false; assumption.
Qed.

Lemma cmd_wf_set_bind b c : cmd_wf c -> cmd_wf (set_bind b c).
Proof. intros H. exact H. Qed.

Lemma pipe_control_added_frame dw1 bo bo_offset imm c :
  dev (pipe_control_added dw1 bo bo_offset imm c) = dev c /\
  scratch_bo (pipe_control_added dw1 bo bo_offset imm c) = scratch_bo c /\
  bind (pipe_control_added dw1 bo bo_offset imm c) = bind c /\
  batch_items (pipe_control_added dw1 bo bo_offset imm c) =
    batch_items c ++ [(w_used (w_batch c), ITEM_PACKET (PKT_PIPE_CONTROL dw1 imm))].
Proof.
  unfold pipe_control_added, reloc_added, reloc_reserved.
  destruct (bo =? 0); [repeat split|].
  destruct (reloc_overflow _ _); repeat split.
Qed.

Lemma written_app c c' new :
  batch_items c' = batch_items c ++ new -> written c c' = map snd new.
Proof. intros H. unfold written. rewrite (emitted_app _ _ _ H). reflexivity. Qed.

Lemma written_trans c1 c2 c3 l1 l2 :
  batch_items c2 = batch_items c1 ++ l1 ->
  batch_items c3 = batch_items c2 ++ l2 ->
  batch_items c3 = batch_items c1 ++ l1 ++ l2.
Proof. intros -> ->. rewrite app_assoc. reflexivity. Qed.

Lemma written_pipe_control_added dw1 bo bo_offset imm c :
  written c (pipe_control_added dw1 bo bo_offset imm c) =
    [ITEM_PACKET (PKT_PIPE_CONTROL dw1 imm)].
Proof.
  destruct (pipe_control_added_frame dw1 bo bo_offset imm c) as (_ & _ & _ & I).
  rewrite (written_app _ _ _ I). reflexivity.
Qed.

Lemma rules_stall gen :
  pipe_control_rules gen
    (Z.lor GEN6_PIPE_CONTROL_CS_STALL GEN6_PIPE_CONTROL_PIXEL_SCOREBOARD_STALL) = true.
Proof.
  unfold pipe_control_rules, cs_stall_companions.
  destruct (gen =? INTEL_GEN_6); reflexivity.
Qed.

Lemma rules_no_stall gen dw1 :
  has dw1 GEN6_PIPE_CONTROL_CS_STALL = false ->
  has dw1 GEN6_PIPE_CONTROL_DEPTH_STALL = false ->
  pipe_control_rules gen dw1 = true.
Proof. intros H1 H2. unfold pipe_control_rules. rewrite H1, H2. reflexivity. Qed.

Lemma cmd_wa_gen6_pre_depth_stall_write_eq c :
  cmd_wf c -> cmd_wa_gen6_pre_depth_stall_write c = Ok (tt, wa_written c).
Proof.
  intros Hwf. unfold cmd_wa_gen6_pre_depth_stall_write, wa_written, wa_due.
  rewrite bind_get, bind_CMD_ASSERT, (gen_in_range c Hwf).
  destruct (draw_count (bind c) =? 0); [reflexivity|].
  destruct (has (wa_flags (bind c)) INTEL_CMD_WA_GEN6_PRE_DEPTH_STALL_WRITE);
    [reflexivity|]. simpl.
  rewrite bind_modify. fold (with_wa_flag c).
  unfold bind_m. rewrite gen6_PIPE_CONTROL_returns;
    [| exact Hwf | reflexivity | apply rules_stall].
  apply gen6_PIPE_CONTROL_returns;
    [apply cmd_wf_pipe_control_added; exact Hwf | reflexivity |].
  apply rules_no_stall; reflexivity.
Qed.

Lemma wa_written_frame c :
  cmd_wf c ->
  cmd_wf (wa_written c) /\
  dev (wa_written c) = dev c /\
  scratch_bo (wa_written c) = scratch_bo c /\
  draw_count (bind (wa_written c)) = draw_count (bind c) /\
  written c (wa_written c) = wa_packets c /\
  exists new, batch_items (wa_written c) = batch_items c ++ new /\
              map snd new = wa_packets c.
Proof.
  intros Hwf. unfold wa_written, wa_packets. destruct (wa_due c).
  - set (c1 := pipe_control_added _ 0 0 0 (with_wa_flag c)).
    destruct (pipe_control_added_frame
                (Z.lor GEN6_PIPE_CONTROL_CS_STALL GEN6_PIPE_CONTROL_PIXEL_SCOREBOARD_STALL)
                0 0 0 (with_wa_flag c)) as (D1 & S1 & B1 & I1). fold c1 in D1, S1, B1, I1.
    destruct (pipe_control_added_frame GEN6_PIPE_CONTROL_WRITE_IMM (scratch_bo c) 0 0 c1)
      as (D2 & S2 & B2 & I2).
    pose proof (written_trans _ _ _ _ _ I1 I2) as I.
    change (batch_items (with_wa_flag c)) with (batch_items c) in I.
    split; [do 2 apply cmd_wf_pipe_control_added; exact Hwf|].
    split; [rewrite D2, D1; reflexivity|].
    split; [rewrite S2, S1; reflexivity|].
    split; [rewrite B2, B1; reflexivity|].
    split; [rewrite (written_app _ _ _ I); reflexivity|].
    eexists. split; [exact I | reflexivity].
  - split; [exact Hwf|]. do 3 (split; [reflexivity|]). split.
    + apply (written_app c c []). rewrite app_nil_r. reflexivity.
    + exists []. rewrite app_nil_r. split; reflexivity.
Qed.

(** X7. Before the first draw of a command buffer the five workarounds that
    go before a command, and [cmd_batch_flush], return without writing
    anything; the two that go after a command write their PIPE_CONTROL all
    the same. *)
Theorem workarounds_before_first_draw c f :
  cmd_wf c ->
  draw_count (bind c) = 0 ->
  cmd_wa_gen6_pre_depth_stall_write c = Ok (tt, c) /\
  cmd_wa_gen6_pre_command_scoreboard_stall c = Ok (tt, c) /\
  cmd_wa_gen6_pre_multisample_depth_flush c = Ok (tt, c) /\
  cmd_wa_gen6_pre_ds_flush c = Ok (tt, c) /\
  cmd_batch_flush f c = Ok (tt, c) /\
  (INTEL_GEN_7 <= cmd_gen c ->
   cmd_wa_gen7_pre_vs_depth_stall_write c = Ok (tt, c) /\
   (exists c', cmd_wa_gen7_post_command_cs_stall c = Ok (tt, c') /\
               written c c' =
                 [pipe_control (Z.lor GEN6_PIPE_CONTROL_CS_STALL
                                      GEN6_PIPE_CONTROL_PIXEL_SCOREBOARD_STALL)]) /\
   (exists c', cmd_wa_gen7_post_command_depth_stall c = Ok (tt, c') /\
               written c c' = [pipe_control GEN6_PIPE_CONTROL_DEPTH_STALL])).
Proof.
  intros Hwf Hd. pose proof (gen_in_range c Hwf) as Hg.
  unfold cmd_wa_gen6_pre_depth_stall_write, cmd_wa_gen6_pre_command_scoreboard_stall,
    cmd_wa_gen6_pre_multisample_depth_flush, cmd_wa_gen6_pre_ds_flush.
  rewrite !bind_get, !bind_CMD_ASSERT, Hg, Hd. simpl.
  do 4 (split; [reflexivity|]).
  split; [apply cmd_batch_flush_skips; right; exact Hd|].
  intros H7.
  assert (Hg7 : (INTEL_GEN_7 <=? cmd_gen c) && (cmd_gen c <=? INTEL_GEN_7_5) = true).
  { destruct Hwf as ([_ ?] & _). apply andb_true_iff. split; apply Z.leb_le; lia. }
  unfold cmd_wa_gen7_pre_vs_depth_stall_write, cmd_wa_gen7_post_command_cs_stall,
    cmd_wa_gen7_post_command_depth_stall.
  rewrite bind_get, !bind_CMD_ASSERT, Hg7, Hd. simpl.
  split; [reflexivity|]. split.
  - rewrite gen6_PIPE_CONTROL_returns; [| exact Hwf | reflexivity | apply rules_stall].
    eexists. split; [reflexivity|]. apply written_pipe_control_added.
  - unfold bind_m. rewrite cmd_wa_gen6_pre_depth_stall_write_eq by exact Hwf.
    unfold wa_written, wa_due. rewrite Hd. simpl.
    rewrite gen6_PIPE_CONTROL_returns;
      [| exact Hwf | reflexivity | unfold pipe_control_rules; reflexivity].
    eexists. split; [reflexivity|]. apply written_pipe_control_added.
Qed.

Lemma workarounds_before_first_draw_witness :
  let c := fresh_cmd sample_gen7 sample_p in
  cmd_wa_gen6_pre_ds_flush c = Ok (tt, c) /\
  exists c', cmd_wa_gen7_post_command_cs_stall c = Ok (tt, c') /\
             written c c' =
               [pipe_control (Z.lor GEN6_PIPE_CONTROL_CS_STALL
                                    GEN6_PIPE_CONTROL_PIXEL_SCOREBOARD_STALL)].
Proof.
  intros c.
  destruct (workarounds_before_first_draw c 0) as (_ & _ & _ & H4 & _ & H7).
  - vm_compute. repeat split; discriminate.
  - reflexivity.
  - split; [exact H4|]. apply H7. vm_compute. discriminate.
Defined.

Lemma extends_refl c : extends c c.
Proof. exists []. rewrite app_nil_r. reflexivity. Qed.

Lemma extends_pipe_control_added dw1 bo bo_offset imm c c1 :
  extends c c1 -> extends c (pipe_control_added dw1 bo bo_offset imm c1).
Proof.
  intros [l H]. destruct (pipe_control_added_frame dw1 bo bo_offset imm c1)
    as (_ & _ & _ & I).
  eexists. rewrite I, H, <- app_assoc. reflexivity.
Qed.

Lemma extends_wa_written c c1 : cmd_wf c1 -> extends c c1 -> extends c (wa_written c1).
Proof.
  intros Hwf [l H]. destruct (wa_written_frame c1 Hwf) as (_ & _ & _ & _ & _ & new & I & _).
  eexists. rewrite I, H, <- app_assoc. reflexivity.
Qed.

Lemma written_pipe_control_snoc dw1 bo bo_offset imm c c1 :
  extends c c1 ->
  written c (pipe_control_added dw1 bo bo_offset imm c1) =
    written c c1 ++ [ITEM_PACKET (PKT_PIPE_CONTROL dw1 imm)].
Proof.
  intros [l H]. destruct (pipe_control_added_frame dw1 bo bo_offset imm c1)
    as (_ & _ & _ & I).
  rewrite (written_app _ _ _ H). rewrite H, <- app_assoc in I.
  rewrite (written_app _ _ _ I), map_app. reflexivity.
Qed.

Lemma written_wa_written c c1 :
  cmd_wf c1 -> extends c c1 ->
  written c (wa_written c1) = written c c1 ++ wa_packets c1.
Proof.
  intros Hwf [l H]. destruct (wa_written_frame c1 Hwf) as (_ & _ & _ & _ & _ & new & I & E).
  rewrite (written_app _ _ _ H). rewrite H, <- app_assoc in I.
  rewrite (written_app _ _ _ I), map_app, E. reflexivity.
Qed.

Lemma written_refl c : written c c = [].
Proof. apply (written_app c c []). rewrite app_nil_r. reflexivity. Qed.

Lemma cmd_wf_wa_written c : cmd_wf c -> cmd_wf (wa_written c).
Proof. intros H. apply (wa_written_frame c H). Qed.

Lemma rules_flush_stall gen :
  pipe_control_rules gen
    (Z.lor GEN6_PIPE_CONTROL_DEPTH_CACHE_FLUSH GEN6_PIPE_CONTROL_CS_STALL) = true.
Proof.
  unfold pipe_control_rules, cs_stall_companions.
  destruct (gen =? INTEL_GEN_6); reflexivity.
Qed.

Ltac wf_auto :=
  repeat first [ assumption | apply cmd_wf_pipe_control_added | apply cmd_wf_wa_written ].

Ltac ext_auto :=
  repeat first [ apply extends_refl | apply extends_pipe_control_added
               | apply extends_wa_written; [solve [wf_auto]|] ].

Ltac rules_auto :=
  first [ apply rules_stall | apply rules_flush_stall
        | apply rules_no_stall; reflexivity
        | unfold pipe_control_rules; reflexivity ].

(** [gen6_PIPE_CONTROL] at the head of the goal returns. *)
Ltac pc_returns :=
  rewrite gen6_PIPE_CONTROL_returns;
    [ | solve [wf_auto] | reflexivity | solve [rules_auto] ].

Ltac written_auto :=
  repeat first
    [ rewrite written_pipe_control_snoc by ext_auto
    | rewrite written_wa_written by (solve [wf_auto] || ext_auto)
    | rewrite written_refl ];
  simpl app; rewrite <- ?app_assoc; try reflexivity.

(** X8. Once a draw has been recorded every workaround returns, in a command
    buffer that is in order, and writes these PIPE_CONTROL packets, after the
    two packets of the depth-stall-write workaround where that is called and
    still due: a pixel-scoreboard stall; a depth cache flush with CS stall;
    depth stall, depth cache flush, depth stall; and on generation 7 a depth
    stall with a write, a CS stall with pixel-scoreboard stall, a depth
    stall. *)
Theorem workarounds_after_draw c :
  cmd_wf c ->
  draw_count (bind c) <> 0 ->
  (exists c', cmd_wa_gen6_pre_depth_stall_write c = Ok (tt, c') /\ cmd_wf c' /\
              written c c' = wa_packets c) /\
  (exists c', cmd_wa_gen6_pre_command_scoreboard_stall c = Ok (tt, c') /\ cmd_wf c' /\
              written c c' = [pipe_control GEN6_PIPE_CONTROL_PIXEL_SCOREBOARD_STALL]) /\
  (exists c', cmd_wa_gen6_pre_multisample_depth_flush c = Ok (tt, c') /\ cmd_wf c' /\
              written c c' =
                [pipe_control (Z.lor GEN6_PIPE_CONTROL_DEPTH_CACHE_FLUSH
                                     GEN6_PIPE_CONTROL_CS_STALL)]) /\
  (exists c', cmd_wa_gen6_pre_ds_flush c = Ok (tt, c') /\ cmd_wf c' /\
              written c c' =
                wa_packets c ++
                [pipe_control GEN6_PIPE_CONTROL_DEPTH_STALL;
                 pipe_control GEN6_PIPE_CONTROL_DEPTH_CACHE_FLUSH;
                 pipe_control GEN6_PIPE_CONTROL_DEPTH_STALL]) /\
  (INTEL_GEN_7 <= cmd_gen c ->
   (exists c', cmd_wa_gen7_pre_vs_depth_stall_write c = Ok (tt, c') /\ cmd_wf c' /\
               written c c' =
                 wa_packets c ++
                 [pipe_control (Z.lor GEN6_PIPE_CONTROL_DEPTH_STALL
                                      GEN6_PIPE_CONTROL_WRITE_IMM)]) /\
   (exists c', cmd_wa_gen7_post_command_cs_stall c = Ok (tt, c') /\ cmd_wf c' /\
               written c c' =
                 [pipe_control (Z.lor GEN6_PIPE_CONTROL_CS_STALL
                                      GEN6_PIPE_CONTROL_PIXEL_SCOREBOARD_STALL)]) /\
   (exists c', cmd_wa_gen7_post_command_depth_stall c = Ok (tt, c') /\ cmd_wf c' /\
               written c c' =
                 wa_packets c ++ [pipe_control GEN6_PIPE_CONTROL_DEPTH_STALL])).
Proof.
  intros Hwf Hd. pose proof (gen_in_range c Hwf) as Hg.
  apply Z.eqb_neq in Hd.
  split.
  { rewrite cmd_wa_gen6_pre_depth_stall_write_eq by exact Hwf.
    eexists. split; [reflexivity|]. split; [wf_auto|]. apply wa_written_frame, Hwf. }
  unfold cmd_wa_gen6_pre_command_scoreboard_stall,
    cmd_wa_gen6_pre_multisample_depth_flush, cmd_wa_gen6_pre_ds_flush.
  rewrite !bind_get, !bind_CMD_ASSERT, Hg, Hd. simpl.
  split.
  { pc_returns. eexists. split; [reflexivity|]. split; [wf_auto|]. written_auto. }
  split.
  { pc_returns. eexists. split; [reflexivity|]. split; [wf_auto|]. written_auto. }
  split.
  { unfold bind_m. rewrite cmd_wa_gen6_pre_depth_stall_write_eq by exact Hwf.
    do 3 pc_returns.
    eexists. split; [reflexivity|]. split; [wf_auto|]. written_auto. }
  intros H7.
  assert (Hg7 : (INTEL_GEN_7 <=? cmd_gen c) && (cmd_gen c <=? INTEL_GEN_7_5) = true).
  { destruct Hwf as ([_ ?] & _). apply andb_true_iff. split; apply Z.leb_le; lia. }
  unfold cmd_wa_gen7_pre_vs_depth_stall_write, cmd_wa_gen7_post_command_cs_stall,
    cmd_wa_gen7_post_command_depth_stall.
  rewrite bind_get, !bind_CMD_ASSERT, Hg7, Hd. simpl.
  split.
  { unfold bind_m. rewrite cmd_wa_gen6_pre_depth_stall_write_eq by exact Hwf.
    pc_returns.
    eexists. split; [reflexivity|]. split; [wf_auto|]. written_auto. }
  split.
  { pc_returns. eexists. split; [reflexivity|]. split; [wf_auto|]. written_auto. }
  { unfold bind_m. rewrite cmd_wa_gen6_pre_depth_stall_write_eq by exact Hwf.
    pc_returns.
    eexists. split; [reflexivity|]. split; [wf_auto|]. written_auto. }
Qed.

Lemma workarounds_after_draw_witness :
  let c := drawn_cmd sample_gen7 sample_p 1 in
  exists c', cmd_wa_gen6_pre_ds_flush c = Ok (tt, c') /\ cmd_wf c' /\
             written c c' =
               wa_packets c ++
               [pipe_control GEN6_PIPE_CONTROL_DEPTH_STALL;
                pipe_control GEN6_PIPE_CONTROL_DEPTH_CACHE_FLUSH;
                pipe_control GEN6_PIPE_CONTROL_DEPTH_STALL].
Proof.
  intros c. destruct (workarounds_after_draw c) as (_ & _ & _ & H & _).
  - vm_compute. repeat split; discriminate.
  - vm_compute. discriminate.
  - exact H.
Defined.

(** ** cmd_batch_flush *)

Lemma companions_cover gen dw1 :
  has dw1 COMPANION_MASK = true -> has dw1 (cs_stall_companions gen) = true.
Proof.
  intros H. unfold cs_stall_companions. cbv zeta.
  assert (E : forall a b, has dw1 a = true -> has dw1 (Z.lor a b) = true).
  { intros a b Ha. unfold has in *. rewrite Z.land_comm in Ha |- *.
    fold (has (Z.lor a b) dw1). fold (has a dw1) in Ha. apply has_lor_l, Ha. }
  destruct (gen =? INTEL_GEN_6); [apply E, E | apply E]; exact H.
Qed.

Lemma has_comm_lor_r a b m : has b m = false -> has (Z.lor a b) m = has a m.
Proof. apply has_lor_r_false. Qed.

Lemma flush_word_rules gen f :
  pipe_control_rules gen (flush_word f) =
  negb (has f GEN6_PIPE_CONTROL_DEPTH_STALL &&
        has f (Z.lor GEN6_PIPE_CONTROL_RENDER_CACHE_FLUSH
                     GEN6_PIPE_CONTROL_DEPTH_CACHE_FLUSH)).
Proof.
  unfold pipe_control_rules.
  assert (E1 : negb (has (flush_word f) GEN6_PIPE_CONTROL_CS_STALL) ||
               has (flush_word f) (cs_stall_companions gen) = true).
  { destruct (has (flush_word f) GEN6_PIPE_CONTROL_CS_STALL) eqn:E; [|reflexivity].
    simpl. apply companions_cover, flush_word_stall_has_companion, E. }
  rewrite E1. simpl.
  assert (E2 : forall m, has GEN6_PIPE_CONTROL_PIXEL_SCOREBOARD_STALL m = false ->
                         has (flush_word f) m = has f m).
  { intros m Hm. unfold flush_word. destruct (_ && _); [|reflexivity].
    apply has_lor_r_false, Hm. }
  rewrite !E2 by reflexivity.
  destruct (has f GEN6_PIPE_CONTROL_DEPTH_STALL), (has f (Z.lor _ _)); reflexivity.
Qed.

Lemma cmd_batch_flush_eq f c :
  cmd_wf c -> f <> 0 -> draw_count (bind c) <> 0 ->
  cmd_batch_flush f c =
  if has f GEN6_PIPE_CONTROL_WRITE__MASK ||
     (has f GEN6_PIPE_CONTROL_DEPTH_STALL &&
      has f (Z.lor GEN6_PIPE_CONTROL_RENDER_CACHE_FLUSH
                   GEN6_PIPE_CONTROL_DEPTH_CACHE_FLUSH))
  then AssertFail
  else Ok (tt, pipe_control_added (flush_word f) 0 0 0
                 (if has f GEN6_PIPE_CONTROL_RENDER_CACHE_FLUSH
                  then wa_written c else c)).
Proof.
  intros Hwf Hf Hd. apply Z.eqb_neq in Hf, Hd.
  unfold cmd_batch_flush. rewrite bind_get, Hf, Hd, bind_assert.
  destruct (has f GEN6_PIPE_CONTROL_WRITE__MASK); [reflexivity|]. simpl.
  fold COMPANION_MASK. fold (flush_word f). rewrite bind_when.
  destruct (has f GEN6_PIPE_CONTROL_RENDER_CACHE_FLUSH).
  - unfold bind_m. rewrite cmd_wa_gen6_pre_depth_stall_write_eq by exact Hwf.
    rewrite gen6_PIPE_CONTROL_eq by wf_auto. simpl.
    rewrite flush_word_rules. destruct (_ && _); reflexivity.
  - rewrite gen6_PIPE_CONTROL_eq by wf_auto. simpl.
    rewrite flush_word_rules. destruct (_ && _); reflexivity.
Qed.

(** X9. After a draw, [cmd_batch_flush] with a flag word that is not 0 stops
    at an assertion when the word asks for a post-sync write, or for a depth
    stall together with a render or depth cache flush. Otherwise it returns
    and has written one PIPE_CONTROL, with the pixel-scoreboard stall added
    to a CS stall that stood alone, and before it, when the render cache is
    flushed, the depth-stall-write workaround if that is still due. *)
Theorem cmd_batch_flush_writes f c :
  cmd_wf c -> f <> 0 -> draw_count (bind c) <> 0 ->
  if has f GEN6_PIPE_CONTROL_WRITE__MASK ||
     (has f GEN6_PIPE_CONTROL_DEPTH_STALL &&
      has f (Z.lor GEN6_PIPE_CONTROL_RENDER_CACHE_FLUSH
                   GEN6_PIPE_CONTROL_DEPTH_CACHE_FLUSH))
  then cmd_batch_flush f c = AssertFail
  else exists c',
    cmd_batch_flush f c = Ok (tt, c') /\ cmd_wf c' /\
    written c c' =
      (if has f GEN6_PIPE_CONTROL_RENDER_CACHE_FLUSH then wa_packets c else []) ++
      [pipe_control (flush_word f)].
Proof.
  intros Hwf Hf Hd. rewrite cmd_batch_flush_eq by assumption.
  destruct (_ || _); [reflexivity|].
  eexists. split; [reflexivity|].
  destruct (has f GEN6_PIPE_CONTROL_RENDER_CACHE_FLUSH).
  - split; [wf_auto|]. written_auto.
  - split; [wf_auto|]. written_auto.
Qed.

Lemma cmd_batch_flush_writes_witness :
  let c := drawn_cmd sample_gen7 sample_p 1 in
  (exists c',
     cmd_batch_flush GEN6_PIPE_CONTROL_RENDER_CACHE_FLUSH c = Ok (tt, c') /\ cmd_wf c' /\
     written c c' =
       wa_packets c ++ [pipe_control (flush_word GEN6_PIPE_CONTROL_RENDER_CACHE_FLUSH)]) /\
  cmd_batch_flush GEN6_PIPE_CONTROL_WRITE_IMM c = AssertFail.
Proof.
  intros c.
  assert (Hwf : cmd_wf c) by (vm_compute; repeat split; discriminate).
  assert (Hd : draw_count (bind c) <> 0) by (vm_compute; discriminate).
  split.
  - apply (cmd_batch_flush_writes GEN6_PIPE_CONTROL_RENDER_CACHE_FLUSH c Hwf);
      [vm_compute; discriminate | exact Hd].
  - apply (cmd_batch_flush_writes GEN6_PIPE_CONTROL_WRITE_IMM c Hwf);
      [vm_compute; discriminate | exact Hd].
Defined.

Lemma cmd_batch_flush_returns f c :
  cmd_wf c -> flush_flags_ok f ->
  exists c', cmd_batch_flush f c = Ok (tt, c') /\ cmd_wf c'.
Proof.
  intros Hwf [H1 H2].
  destruct (Z.eq_dec f 0) as [E0|E0];
    [exists c; split; [apply cmd_batch_flush_skips; auto | exact Hwf]|].
  destruct (Z.eq_dec (draw_count (bind c)) 0) as [Ed|Ed];
    [exists c; split; [apply cmd_batch_flush_skips; auto | exact Hwf]|].
  rewrite cmd_batch_flush_eq, H1, H2 by assumption. simpl.
  eexists. split; [reflexivity|].
  destruct (has f GEN6_PIPE_CONTROL_RENDER_CACHE_FLUSH); wf_auto.
Qed.

(** ** Barriers *)

Lemma bind_m_eq {A B} (m : M A) (k : A -> M B) c a c1 :
  m c = Ok (a, c1) -> bind_m m k c = k a c1.
Proof. intros H. unfold bind_m. rewrite H. reflexivity. Qed.

Lemma flush_flags_ok_lor a b :
  flush_flags_ok a -> flush_flags_ok b -> flush_flags_ok (Z.lor a b).
Proof. intros [A1 A2] [B1 B2]. split; apply has_lor_false; assumption. Qed.

Lemma cmd_get_flush_flags_ok c old_caches new_caches is_ds :
  flush_flags_ok (cmd_get_flush_flags c old_caches new_caches is_ds).
Proof.
  unfold cmd_get_flush_flags. cbv zeta.
  destruct (negb _); [split; reflexivity|].
  destruct (_ && _), is_ds, (_ && _), (cmd_gen c >=? INTEL_GEN_7),
    (has new_caches SAMPLER_CACHE), (_ && _); simpl; split; reflexivity.
Qed.

Lemma barrier_flush_flags_ok a :
  flush_flags_ok (acc_flush_flags a) -> flush_flags_ok (barrier_flush_flags a).
Proof.
  intros H. unfold barrier_flush_flags. cbv zeta.
  repeat match goal with
         | |- flush_flags_ok (if ?b then _ else _) => destruct b
         | |- flush_flags_ok (Z.lor _ _) =>
             apply flush_flags_ok_lor; [|split; reflexivity]
         end; exact H.
Qed.

Section BarriersReturn.

Variable cmd_meta_ds_op :
  intel_cmd_meta_ds_op -> intel_img -> VkImageSubresourceRange -> M unit.
Hypothesis Hmeta : forall op img range c,
  cmd_wf c -> exists c', cmd_meta_ds_op op img range c = Ok (tt, c') /\ cmd_wf c'.

Lemma mem_barriers_loop_returns bs :
  Forall (fun b => mb_sType b = VK_STRUCTURE_TYPE_MEMORY_BARRIER) bs ->
  forall a c, exists a',
    mem_barriers_loop bs a c = Ok (a', c) /\ acc_flush_flags a' = acc_flush_flags a.
Proof.
  induction 1 as [|b bs Hb _ IH]; intros a c; simpl.
  - exists a. split; reflexivity.
  - rewrite bind_assert, Hb.
    edestruct IH as (a' & H1 & H2). exists a'. split; [exact H1 | exact H2].
Qed.

Lemma buf_barriers_loop_returns bs :
  Forall (fun b => bb_sType b = VK_STRUCTURE_TYPE_BUFFER_MEMORY_BARRIER) bs ->
  forall a c, exists a',
    buf_barriers_loop bs a c = Ok (a', c) /\ acc_flush_flags a' = acc_flush_flags a.
Proof.
  induction 1 as [|b bs Hb _ IH]; intros a c; simpl.
  - exists a. split; reflexivity.
  - rewrite bind_assert, Hb.
    edestruct IH as (a' & H1 & H2). exists a'. split; [exact H1 | exact H2].
Qed.

Lemma cmd_resolve_depth_returns img old_layout new_layout range c :
  cmd_wf c ->
  exists c', cmd_resolve_depth cmd_meta_ds_op img old_layout new_layout range c
             = Ok (tt, c') /\ cmd_wf c'.
Proof.
  intros Hwf. unfold cmd_resolve_depth. cbv zeta.
  destruct (has _ WRITE_OP); [|exists c; split; [reflexivity | exact Hwf]].
  destruct (_ && _); [apply Hmeta, Hwf|].
  destruct (_ && _); [apply Hmeta, Hwf|].
  exists c; split; [reflexivity | exact Hwf].
Qed.

Lemma image_barriers_loop_returns bs :
  Forall (fun b => ib_sType b = VK_STRUCTURE_TYPE_IMAGE_MEMORY_BARRIER) bs ->
  forall a c, cmd_wf c -> flush_flags_ok (acc_flush_flags a) ->
  exists a' c',
    image_barriers_loop cmd_meta_ds_op bs a c = Ok (a', c') /\
    cmd_wf c' /\ flush_flags_ok (acc_flush_flags a').
Proof.
  induction 1 as [|b bs Hb _ IH]; intros a c Hwf Hok; simpl.
  - exists a, c. auto.
  - rewrite bind_assert, Hb.
    destruct (cmd_resolve_depth_returns (ib_image b) (ib_oldLayout b) (ib_newLayout b)
                (ib_subresourceRange b) c Hwf) as (c1 & H1 & Hwf1).
    rewrite (bind_m_eq _ _ _ _ _ H1), bind_get.
    apply IH; [exact Hwf1|]. simpl.
    apply flush_flags_ok_lor; [exact Hok | apply cmd_get_flush_flags_ok].
Qed.

Lemma cmd_memory_barriers_returns flush_flags mbs bbs ibs c :
  cmd_wf c -> flush_flags_ok flush_flags ->
  Forall (fun b => mb_sType b = VK_STRUCTURE_TYPE_MEMORY_BARRIER) mbs ->
  Forall (fun b => bb_sType b = VK_STRUCTURE_TYPE_BUFFER_MEMORY_BARRIER) bbs ->
  Forall (fun b => ib_sType b = VK_STRUCTURE_TYPE_IMAGE_MEMORY_BARRIER) ibs ->
  exists c', cmd_memory_barriers cmd_meta_ds_op flush_flags mbs bbs ibs c = Ok (tt, c') /\
             cmd_wf c'.
Proof.
  intros Hwf Hok Hm Hb Hi. unfold cmd_memory_barriers, barrier_loops.
  destruct (mem_barriers_loop_returns mbs Hm (mk_acc flush_flags 0 0) c) as (a1 & H1 & F1).
  destruct (buf_barriers_loop_returns bbs Hb a1 c) as (a2 & H2 & F2).
  destruct (image_barriers_loop_returns ibs Hi a2 c Hwf) as (a3 & c3 & H3 & Hwf3 & F3).
  { rewrite F2, F1. exact Hok. }
  rewrite !bind_assoc, (bind_m_eq _ _ _ _ _ H1).
  rewrite !bind_assoc, (bind_m_eq _ _ _ _ _ H2), (bind_m_eq _ _ _ _ _ H3).
  apply cmd_batch_flush_returns; [exact Hwf3 | apply barrier_flush_flags_ok, F3].
Qed.

End BarriersReturn.

(** X10. [vkCmdPipelineBarrier] and [vkCmdWaitEvents] return, in a command
    buffer that is in order, for any stage and access masks and any memory,
    buffer and image barriers whose structure type is right, provided the
    depth resolves of [cmd_meta_ds_op] return: the flag word they compute
    never trips an assertion of [cmd_batch_flush] or [gen6_PIPE_CONTROL]. *)
Theorem barriers_return cmd_meta_ds_op events srcStageMask dstStageMask
    dependencyFlags mbs bbs ibs c :
  (forall op img range c,
     cmd_wf c -> exists c', cmd_meta_ds_op op img range c = Ok (tt, c') /\ cmd_wf c') ->
  cmd_wf c ->
  Forall (fun b => mb_sType b = VK_STRUCTURE_TYPE_MEMORY_BARRIER) mbs ->
  Forall (fun b => bb_sType b = VK_STRUCTURE_TYPE_BUFFER_MEMORY_BARRIER) bbs ->
  Forall (fun b => ib_sType b = VK_STRUCTURE_TYPE_IMAGE_MEMORY_BARRIER) ibs ->
  (exists c', vkCmdPipelineBarrier cmd_meta_ds_op srcStageMask dstStageMask
                dependencyFlags mbs bbs ibs c = Ok (tt, c') /\ cmd_wf c') /\
  (exists c', vkCmdWaitEvents cmd_meta_ds_op events srcStageMask dstStageMask
                mbs bbs ibs c = Ok (tt, c') /\ cmd_wf c').
Proof.
  intros Hmeta Hwf Hm Hb Hi. split.
  - unfold vkCmdPipelineBarrier. cbv zeta.
    apply cmd_memory_barriers_returns; try assumption.
    destruct (_ || _); split; reflexivity.
  - unfold vkCmdWaitEvents.
    apply cmd_memory_barriers_returns; try assumption. split; reflexivity.
Qed.

Lemma barriers_return_witness :
  let c := drawn_cmd sample_gen7 sample_p 1 in
  exists c', vkCmdPipelineBarrier no_meta_ds_op VK_PIPELINE_STAGE_TOP_OF_PIPE_BIT
               VK_PIPELINE_STAGE_TOP_OF_PIPE_BIT 0 [host_write_barrier] [] [] c
             = Ok (tt, c') /\ cmd_wf c'.
Proof.
  intros c.
  apply (barriers_return no_meta_ds_op [] VK_PIPELINE_STAGE_TOP_OF_PIPE_BIT
           VK_PIPELINE_STAGE_TOP_OF_PIPE_BIT 0 [host_write_barrier] [] [] c).
  - intros op img range c0 H. exists c0. split; [reflexivity | exact H].
  - vm_compute. repeat split; discriminate.
  - repeat constructor.
  - constructor.
  - constructor.
Defined.



(** X12. The depth resolves of an image barrier. Leaving the
    depth/stencil-attachment layout for a layout without HiZ resolves the
    depth buffer; entering a depth/stencil layout from a written layout
    without HiZ (general, present, colour attachment, transfer destination)
    resolves the HiZ buffer; no other change of layout does anything. *)
Theorem cmd_resolve_depth_transitions cmd_meta_ds_op img old_layout new_layout range :
  let resolve := cmd_resolve_depth cmd_meta_ds_op img old_layout new_layout range in
  let leaves_ds :=
    old_layout = VK_IMAGE_LAYOUT_DEPTH_STENCIL_ATTACHMENT_OPTIMAL /\
    ~ In new_layout [VK_IMAGE_LAYOUT_DEPTH_STENCIL_ATTACHMENT_OPTIMAL;
                     VK_IMAGE_LAYOUT_DEPTH_STENCIL_READ_ONLY_OPTIMAL] in
  let enters_ds :=
    In old_layout [VK_IMAGE_LAYOUT_GENERAL; VK_IMAGE_LAYOUT_PRESENT_SRC_KHR;
                   VK_IMAGE_LAYOUT_COLOR_ATTACHMENT_OPTIMAL;
                   VK_IMAGE_LAYOUT_TRANSFER_DST_OPTIMAL] /\
    In new_layout [VK_IMAGE_LAYOUT_DEPTH_STENCIL_ATTACHMENT_OPTIMAL;
                   VK_IMAGE_LAYOUT_DEPTH_STENCIL_READ_ONLY_OPTIMAL] in
  (leaves_ds -> resolve = cmd_meta_ds_op INTEL_CMD_META_DS_RESOLVE img range) /\
  (enters_ds -> resolve = cmd_meta_ds_op INTEL_CMD_META_DS_HIZ_RESOLVE img range) /\
  (~ leaves_ds -> ~ enters_ds -> resolve = ret tt).
Proof.
  cbv zeta. unfold cmd_resolve_depth.
  destruct old_layout, new_layout; cbn;
    (split; [|split]);
    try reflexivity;
    try (intros [H1 H2]; first [discriminate H1 | exfalso; apply H2; simpl; tauto]);
    try (intros [H1 H2]; simpl in H1, H2;
         repeat (destruct H1 as [H1|H1]; try discriminate H1);
         repeat (destruct H2 as [H2|H2]; try discriminate H2); contradiction);
    intros H1 H2; exfalso;
    first [ apply H1; split; [reflexivity|]; simpl; intros H;
            repeat (destruct H as [H|H]; try discriminate H); contradiction
          | apply H2; simpl; tauto ].
Qed.

Lemma cmd_resolve_depth_transitions_witness :
  let meta_ds_op (op : intel_cmd_meta_ds_op) (img : intel_img)
        (range : VkImageSubresourceRange) : M unit :=
    match op with
    | INTEL_CMD_META_DS_RESOLVE => cmd_fail VK_ERROR_VALIDATION_FAILED_EXT
    | _ => ret tt
    end in
  let img := mk_img 1 true in
  let range := mk_range 2 0 1 0 1 in
  cmd_resolve_depth meta_ds_op img VK_IMAGE_LAYOUT_DEPTH_STENCIL_ATTACHMENT_OPTIMAL
    VK_IMAGE_LAYOUT_SHADER_READ_ONLY_OPTIMAL range =
  cmd_fail VK_ERROR_VALIDATION_FAILED_EXT /\
  cmd_resolve_depth meta_ds_op img VK_IMAGE_LAYOUT_GENERAL
    VK_IMAGE_LAYOUT_DEPTH_STENCIL_READ_ONLY_OPTIMAL range = ret tt /\
  cmd_resolve_depth meta_ds_op img VK_IMAGE_LAYOUT_GENERAL
    VK_IMAGE_LAYOUT_TRANSFER_SRC_OPTIMAL range = ret tt.
Proof.
  intros meta_ds_op img range. split; [|split].
  - pose proof (cmd_resolve_depth_transitions meta_ds_op img
                  VK_IMAGE_LAYOUT_DEPTH_STENCIL_ATTACHMENT_OPTIMAL
                  VK_IMAGE_LAYOUT_SHADER_READ_ONLY_OPTIMAL range) as H.
    cbv zeta in H. destruct H as (H & _ & _). apply H.
    split; [reflexivity|]. simpl. intuition discriminate.
  - pose proof (cmd_resolve_depth_transitions meta_ds_op img VK_IMAGE_LAYOUT_GENERAL
                  VK_IMAGE_LAYOUT_DEPTH_STENCIL_READ_ONLY_OPTIMAL range) as H.
    cbv zeta in H. destruct H as (_ & H & _). apply H.
    simpl. split; [left; reflexivity | right; left; reflexivity].
  - pose proof (cmd_resolve_depth_transitions meta_ds_op img VK_IMAGE_LAYOUT_GENERAL
                  VK_IMAGE_LAYOUT_TRANSFER_SRC_OPTIMAL range) as H.
    cbv zeta in H. destruct H as (_ & _ & H). apply H.
    + intros [H1 _]. discriminate H1.
    + simpl. intros [_ H2]. intuition discriminate.
Defined.

(** ** The guard band *)


(** ** Draws *)

Section DrawPackets.

Variable emit_other : other_op -> M unit.
Hypothesis Hframe : other_frame emit_other.

Lemma primitive_emits prim indexed vc vs ic is_ vb gen c c' :
  (if gen >=? INTEL_GEN_7
   then gen7_3DPRIMITIVE prim indexed vc vs ic is_ vb
   else gen6_3DPRIMITIVE prim indexed vc vs ic is_ vb) c = Ok (tt, c') ->
  exists o,
    batch_items c' =
      batch_items c ++
      [(o, ITEM_PACKET (if gen >=? INTEL_GEN_7
                        then PKT_GEN7_3DPRIMITIVE prim indexed vc vs ic is_ vb
                        else PKT_GEN6_3DPRIMITIVE prim indexed vc vs ic is_ vb))].
Proof.
  destruct (gen >=? INTEL_GEN_7); intros H;
    unfold gen7_3DPRIMITIVE, gen6_3DPRIMITIVE in H;
    apply bind_m_ok in H as ([] & c1 & H1 & H);
    unfold CMD_ASSERT in H1; rewrite bind_get in H1;
    apply assert_ok in H1 as [_ [= <-]];
    apply bind_m_ok in H as (pos & c2 & H2 & H); injection H as <-;
    apply cmd_batch_pointer_emits in H2; exact H2.
Qed.

Lemma cmd_draw_last vertex_start vertex_count instance_start instance_count indexed
    vertex_base c c' :
  cmd_draw emit_other vertex_start vertex_count instance_start instance_count
    indexed vertex_base c = Ok (tt, c') ->
  debug_nocache (dev c) = false ->
  let p := pipeline_graphics (bind c) in
  (exists o,
     last (batch_items c') =
       Some (o, ITEM_PACKET
                  (if cmd_gen c >=? INTEL_GEN_7
                   then PKT_GEN7_3DPRIMITIVE (prim_type p) indexed vertex_count
                          vertex_start instance_count instance_start vertex_base
                   else PKT_GEN6_3DPRIMITIVE (prim_type p) indexed vertex_count
                          vertex_start instance_count instance_start vertex_base))) /\
  draw_count (bind c') = u32 (draw_count (bind c) + 1) /\
  wa_flags (bind c') = 0 /\
  render_pass_changed (bind c') = false /\
  (indexed = false -> vertex_base = 0).
Proof.
  intros H Hn p. pose proof H as Hwa. apply (cmd_draw_wa emit_other Hframe) in Hwa.
  rewrite Hn in Hwa. simpl in Hwa. destruct Hwa as (_ & _ & Hdc & _ & Hw).
  unfold cmd_draw in H. rewrite bind_get in H. fold p in H.
  pose proof quiet_cmd_adjust_state_base_address.
  pose proof (quiet_emit_other emit_other Hframe).
  peel H S1. step_quiet S1.
  peel H S2. destruct a0.
  apply (emit_bounded_states_done emit_other Hframe) in S2 as [S2 _].
  rewrite bind_get, bind_assert in H. mcase H.
  peel H S3.
  assert (Hvb : indexed = false -> vertex_base = 0).
  { intros ->. apply assert_ok in S3 as [Hv _]. apply Z.eqb_eq, Hv. }
  clear S3.
  peel H S4. destruct a1.
  pose proof (wa_step_trans _ _ _ (quiet_wa_step _ _ S1) S2) as (Env & _).
  assert (Eg : cmd_gen c1 = cmd_gen c) by (unfold cmd_gen; rewrite (se_dev _ _ Env); reflexivity).
  rewrite Eg in S4. apply primitive_emits in S4 as (o & B).
  rewrite !bind_modify in H.
  assert (Ed : debug_nocache (dev c1) = false) by (rewrite (se_dev _ _ Env); exact Hn).
  rewrite when_eq, Ed in H. injection H as <-.
  split; [|auto].
  exists o. unfold batch_items in *. simpl. rewrite B. apply last_snoc.
Qed.

End DrawPackets.

(** X14. With the cache debugging off, the last packet [vkCmdDraw] leaves in
    the batch is the 3DPRIMITIVE (that of generation 7 from generation 7 on)
    with the topology of the bound pipeline, sequential access, the counts and
    starts of the call and a vertex base of 0; [vkCmdDrawIndexed] leaves one
    with random access and the vertex offset as a 32-bit unsigned number.
    Each counts one draw, clears the workaround flags and marks the render
    pass as no longer changed. *)
Theorem draw_writes_primitive emit_other c c' :
  other_frame emit_other ->
  debug_nocache (dev c) = false ->
  let p := pipeline_graphics (bind c) in
  let prim indexed vertex_count vertex_start instance_count instance_start vertex_base :=
    ITEM_PACKET
      (if cmd_gen c >=? INTEL_GEN_7
       then PKT_GEN7_3DPRIMITIVE (prim_type p) indexed vertex_count vertex_start
              instance_count instance_start vertex_base
       else PKT_GEN6_3DPRIMITIVE (prim_type p) indexed vertex_count vertex_start
              instance_count instance_start vertex_base) in
  let counted :=
    draw_count (bind c') = u32 (draw_count (bind c) + 1) /\
    wa_flags (bind c') = 0 /\ render_pass_changed (bind c') = false in
  (forall vertexCount instanceCount firstVertex firstInstance,
     vkCmdDraw emit_other vertexCount instanceCount firstVertex firstInstance c
       = Ok (tt, c') ->
     (exists o, last (batch_items c') =
                  Some (o, prim false vertexCount firstVertex instanceCount
                             firstInstance 0)) /\ counted) /\
  (forall indexCount instanceCount firstIndex vertexOffset firstInstance,
     vkCmdDrawIndexed emit_other indexCount instanceCount firstIndex vertexOffset
       firstInstance c = Ok (tt, c') ->
     (exists o, last (batch_items c') =
                  Some (o, prim true indexCount firstIndex instanceCount
                             firstInstance (u32 vertexOffset))) /\ counted).
Proof.
  intros Hf Hn p prim counted. split.
  - intros vc ic fv fi H. unfold vkCmdDraw in H.
    destruct (cmd_draw_last emit_other Hf _ _ _ _ _ _ _ _ H Hn) as (L & D & W & R & _).
    split; [exact L | repeat split; assumption].
  - intros xc ic fi vo fin H. unfold vkCmdDrawIndexed in H.
    destruct (cmd_draw_last emit_other Hf _ _ _ _ _ _ _ _ H Hn) as (L & D & W & R & _).
    split; [exact L | repeat split; assumption].
Qed.

Lemma draw_writes_primitive_witness :
  let c := fresh_cmd sample_gen7 sample_p in
  let c' := state_after (vkCmdDraw sample_emit_other 3 1 0 0) c in
  vkCmdDraw sample_emit_other 3 1 0 0 c = Ok (tt, c') /\
  (exists o, last (batch_items c') =
               Some (o, ITEM_PACKET (PKT_GEN7_3DPRIMITIVE GEN6_3DPRIM_TRILIST false
                                       3 0 1 0 0))) /\
  draw_count (bind c') = 1.
Proof.
  intros c c'.
  assert (H : vkCmdDraw sample_emit_other 3 1 0 0 c = Ok (tt, c'))
    by (vm_compute; reflexivity).
  split; [exact H|].
  destruct (draw_writes_primitive sample_emit_other c c' sample_emit_other_frame eq_refl)
    as [Hd _].
  destruct (Hd 3 1 0 0 H) as (L & D & _). split; [exact L | exact D].
Defined.

(** ** The index buffer *)

Lemma reloc_added_used r c : reloc_used c < 2 ^ 31 -> 0 <= reloc_used c ->
  reloc_used (reloc_added r c) = reloc_used c + 1.
Proof. intros. unfold reloc_added. simpl. apply u32_small. lia. Qed.

Lemma dword_offset used k :
  used mod 4 = 0 -> 0 <= used < 2 ^ 31 -> 0 <= k < 16 ->
  Z.shiftl (u32 (Z.shiftr used 2) + k) 2 = used + 4 * k.
Proof.
  intros Hm Hu Hk. rewrite Z.shiftr_div_pow2, Z.shiftl_mul_pow2 by lia.
  change (2 ^ 2) with 4.
  pose proof (Z.div_mod used 4 ltac:(lia)) as Hd.
  rewrite u32_small by (split; [apply Z.div_pos; lia | apply Z.div_lt_upper_bound; lia]).
  lia.
Qed.

(** X15. [gen6_3DSTATE_INDEX_BUFFER] stops at an assertion for an index type
    other than 16-bit and 32-bit, and on generation 7.5 when asked for the cut
    index. When it returns, the batch holds the packet and the relocation
    table two more entries for its second and third dword: the start of the
    indices, at the bound offset, and their end, the last byte of the last
    whole index of the buffer. *)
Theorem index_buffer_relocations buf offset type enable_cut_index c :
  cmd_wf c -> 2 <= reloc_count c -> 0 <= w_used (w_batch c) < 2 ^ 31 ->
  0 <= offset < 2 ^ 32 ->
  match index_size type with
  | None => gen6_3DSTATE_INDEX_BUFFER buf offset type enable_cut_index c = AssertFail
  | Some size =>
      if (cmd_gen c >=? INTEL_GEN_7_5) && enable_cut_index
      then gen6_3DSTATE_INDEX_BUFFER buf offset type enable_cut_index c = AssertFail
      else exists c',
        gen6_3DSTATE_INDEX_BUFFER buf offset type enable_cut_index c = Ok (tt, c') /\
        cmd_wf c' /\
        batch_items c' =
          batch_items c ++
          [(w_used (w_batch c),
            ITEM_PACKET (PKT_3DSTATE_INDEX_BUFFER type enable_cut_index))] /\
        let at_ := if reloc_overflow c 2 then 0 else reloc_used c in
        reloc_used c' = at_ + 2 /\
        relocs c' !! Z.to_nat at_ =
          Some (mk_reloc INTEL_CMD_WRITER_BATCH (w_used (w_batch c) + 4)
                  (TARGET_BO (buf_bo buf)) offset 0) /\
        relocs c' !! Z.to_nat (at_ + 1) =
          Some (mk_reloc INTEL_CMD_WRITER_BATCH (w_used (w_batch c) + 8)
                  (TARGET_BO (buf_bo buf)) (index_end_offset buf size) 0) /\
        (size <= buf_size buf < 2 ^ 32 ->
         index_end_offset buf size = buf_size buf / size * size - 1 /\
         buf_size buf - size <= index_end_offset buf size < buf_size buf)
  end.
Proof.
  intros Hwf Hc2 Hu Hoff. pose proof Hwf as (Hg & Hm & Hi & Hc).
  pose proof Hi as (Hiu & Hic & Hil).
  unfold gen6_3DSTATE_INDEX_BUFFER. cbv zeta.
  rewrite bind_get, bind_CMD_ASSERT, (gen_in_range c Hwf), bind_when.
  assert (Htail : forall size, (size = 2 \/ size = 4) ->
    exists c',
      (let* pos := cmd_batch_pointer 3 (PKT_3DSTATE_INDEX_BUFFER type enable_cut_index) in
       exec cmd_reserve_reloc 2 in
       exec cmd_batch_reloc (pos + 1) (buf_bo buf) offset 0 in
       cmd_batch_reloc (pos + 2) (buf_bo buf) (index_end_offset buf size) 0) c
      = Ok (tt, c') /\
      cmd_wf c' /\
      batch_items c' =
        batch_items c ++
        [(w_used (w_batch c),
          ITEM_PACKET (PKT_3DSTATE_INDEX_BUFFER type enable_cut_index))] /\
      let at_ := if reloc_overflow c 2 then 0 else reloc_used c in
      reloc_used c' = at_ + 2 /\
      relocs c' !! Z.to_nat at_ =
        Some (mk_reloc INTEL_CMD_WRITER_BATCH (w_used (w_batch c) + 4)
                (TARGET_BO (buf_bo buf)) offset 0) /\
      relocs c' !! Z.to_nat (at_ + 1) =
        Some (mk_reloc INTEL_CMD_WRITER_BATCH (w_used (w_batch c) + 8)
                (TARGET_BO (buf_bo buf)) (index_end_offset buf size) 0) /\
      (size <= buf_size buf < 2 ^ 32 ->
       index_end_offset buf size = buf_size buf / size * size - 1 /\
       buf_size buf - size <= index_end_offset buf size < buf_size buf)).
  { intros size Hs.
    set (c1 := batch_append 3 (PKT_3DSTATE_INDEX_BUFFER type enable_cut_index) c).
    assert (Hwf1 : cmd_wf c1) by (apply cmd_wf_batch_append, Hwf).
    set (c2 := reloc_reserved 2 c1).
    destruct (reloc_reserved_room 2 c1) as (Hi2 & Hu2 & Hr2 & Hc2');
      [apply Hwf1 | simpl; lia |]. fold c2 in Hi2, Hu2, Hr2, Hc2'.
    simpl in Hr2, Hc2'.
    assert (Hwf2 : cmd_wf c2) by (apply cmd_wf_reloc_reserved; [exact Hwf1 | simpl; lia]).
    set (r1 := mk_reloc INTEL_CMD_WRITER_BATCH
                 (Z.shiftl (u32 (Z.shiftr (w_used (w_batch c)) 2) + 1) 2)
                 (TARGET_BO (buf_bo buf)) offset 0).
    set (r2 := mk_reloc INTEL_CMD_WRITER_BATCH
                 (Z.shiftl (u32 (Z.shiftr (w_used (w_batch c)) 2) + 2) 2)
                 (TARGET_BO (buf_bo buf)) (index_end_offset buf size) 0).
    set (c3 := reloc_added r1 c2).
    assert (Hu3 : reloc_used c3 = reloc_used c2 + 1)
      by (apply reloc_added_used; lia).
    assert (Hwf3 : cmd_wf c3) by (apply cmd_wf_reloc_added; [exact Hwf2 | lia]).
    assert (Hc3 : reloc_count c3 = reloc_count c) by (unfold c3; simpl; exact Hc2').
    exists (reloc_added r2 c3).
    split.
    { rewrite (bind_m_eq _ _ _ _ _ (cmd_batch_pointer_eq 3 _ c Hm ltac:(lia))).
      fold c1.
      rewrite (bind_m_eq _ _ _ _ _ (cmd_reserve_reloc_eq 2 c1 (proj1 (proj2 (proj2 Hwf1)))
                 ltac:(simpl; lia))). fold c2.
      unfold cmd_batch_reloc.
      rewrite (bind_m_eq _ _ _ _ _ (cmd_writer_reloc_eq _ _ _ _ _ c2 ltac:(lia))).
      fold r1. fold c3. apply cmd_writer_reloc_eq. lia. }
    split; [apply cmd_wf_reloc_added; [exact Hwf3 | lia]|].
    assert (Hat : reloc_used c2 = (if reloc_overflow c 2 then 0 else reloc_used c)).
    { unfold c2, reloc_reserved. change (reloc_overflow c1 2) with (reloc_overflow c 2).
      destruct (reloc_overflow c 2); reflexivity. }
    split.
    { unfold c3, c2, reloc_reserved.
      change (reloc_overflow c1 2) with (reloc_overflow c 2).
      destruct (reloc_overflow c 2); reflexivity. }
    cbv zeta. rewrite <- Hat.
    assert (Hl2 : Z.of_nat (length (relocs c2)) = reloc_count c).
    { destruct Hi2 as (_ & _ & Hl). rewrite Hl. exact Hc2'. }
    split; [rewrite reloc_added_used, Hu3 by lia; lia|].
    unfold r1, r2. rewrite !dword_offset by lia.
    split.
    { unfold reloc_added at 1. simpl relocs. rewrite u32_small by lia.
      rewrite list_lookup_insert_ne by lia.
      rewrite list_lookup_insert_eq by lia.
      unfold r1. rewrite dword_offset by lia. reflexivity. }
    split.
    { unfold reloc_added at 1. simpl relocs. rewrite u32_small by lia.
      rewrite Z2Nat.inj_add by lia.
      rewrite list_lookup_insert_eq by (rewrite length_insert; lia).
      reflexivity. }
    intros Hb. unfold index_end_offset.
    pose proof (Z.div_mod (buf_size buf) size ltac:(lia)) as Hd.
    pose proof (Z.mod_pos_bound (buf_size buf) size ltac:(lia)) as Hmb.
    rewrite u32_small by lia. lia. }
  destruct type as [| |v]; simpl index_size; cbv iota.
  - destruct (cmd_gen c >=? INTEL_GEN_7_5), enable_cut_index; simpl;
      try reflexivity; rewrite ?bind_assert, ?bind_ret; simpl; apply Htail; auto.
  - destruct (cmd_gen c >=? INTEL_GEN_7_5), enable_cut_index; simpl;
      try reflexivity; rewrite ?bind_assert, ?bind_ret; simpl; apply Htail; auto.
  - destruct (cmd_gen c >=? INTEL_GEN_7_5), enable_cut_index; simpl;
      rewrite ?bind_assert; simpl; rewrite ?bind_assoc, ?bind_assert; reflexivity.
Qed.

Lemma index_buffer_relocations_witness :
  let c := fresh_cmd sample_gen7 sample_p in
  let buf := mk_buf 1023 77 in
  exists c',
    gen6_3DSTATE_INDEX_BUFFER buf 16 VK_INDEX_TYPE_UINT32 false c = Ok (tt, c') /\
    relocs c' !! 1%nat =
      Some (mk_reloc INTEL_CMD_WRITER_BATCH 8 (TARGET_BO 77) 1019 0).
Proof.
  intros c buf.
  pose proof (index_buffer_relocations buf 16 VK_INDEX_TYPE_UINT32 false c) as H.
  simpl in H. destruct H as (c' & H1 & _ & _ & _ & _ & H2 & _).
  - vm_compute. repeat split; discriminate.
  - vm_compute. discriminate.
  - vm_compute. split; [discriminate | reflexivity].
  - lia.
  - exists c'. split; [exact H1 | exact H2].
Defined.

(** ** The descriptor set data of a pipeline *)

(** X16. [cmd_alloc_dset_data] always returns and writes to no buffer. When
    it returns true both arrays hold at least what the pipeline layout asks
    for and the result of the command buffer is as before; when an
    allocation fails it returns false, the command buffer has failed with
    VK_ERROR_OUT_OF_HOST_MEMORY and the count of the array that could not
    be allocated is 0. Each count stays the length of its array. *)
Theorem cmd_alloc_dset_data_counts layout_count total_dynamic_desc_count c :
  0 <= layout_count -> 0 <= total_dynamic_desc_count ->
  dset_data_wf (graphics_data (bind c)) ->
  exists ok c',
    cmd_alloc_dset_data layout_count total_dynamic_desc_count c = Ok (ok, c') /\
    writers c' = writers c /\ relocs c' = relocs c /\
    dset_data_wf (graphics_data (bind c')) /\
    if ok then
      result c' = result c /\
      layout_count <= set_offset_count (graphics_data (bind c')) /\
      total_dynamic_desc_count <= dynamic_offset_count (graphics_data (bind c'))
    else
      result c' = VK_ERROR_OUT_OF_HOST_MEMORY /\
      (set_offset_count (graphics_data (bind c')) = 0 \/
       dynamic_offset_count (graphics_data (bind c')) = 0).
Proof.
  intros Hl Ht [Hs Hd].
  unfold cmd_alloc_dset_data, cmd_fail, dset_data_wf.
  unfold bind_m, get, modify, ret. cbv beta iota.
  destruct (Z.ltb_spec (set_offset_count (graphics_data (bind c))) layout_count) as [H1|H1].
  - destruct (intel_alloc_ok (dev c) (8 * layout_count)); cbn.
    + destruct (Z.ltb_spec (dynamic_offset_count (graphics_data (bind c)))
                  total_dynamic_desc_count) as [H2|H2].
      * destruct (intel_alloc_ok (dev c) (4 * total_dynamic_desc_count)); cbn;
          eexists _, _; (split; [reflexivity|]); cbn;
          rewrite ?length_replicate; repeat split; try lia; auto.
      * eexists _, _; (split; [reflexivity|]); cbn;
          rewrite ?length_replicate; repeat split; try lia; auto.
    + eexists _, _; (split; [reflexivity|]); cbn; repeat split; try lia; auto.
  - cbn.
    destruct (Z.ltb_spec (dynamic_offset_count (graphics_data (bind c)))
                total_dynamic_desc_count) as [H2|H2].
    + destruct (intel_alloc_ok (dev c) (4 * total_dynamic_desc_count)); cbn;
        eexists _, _; (split; [reflexivity|]); cbn;
        rewrite ?length_replicate; repeat split; try lia; auto.
    + eexists _, _; (split; [reflexivity|]); cbn; repeat split; try lia; auto.
Qed.

Lemma cmd_alloc_dset_data_counts_witness :
  exists ok c',
    cmd_alloc_dset_data 2 3 (fresh_cmd sample_gen7 sample_p) = Ok (ok, c') /\
    dset_data_wf (graphics_data (bind c')).
Proof.
  destruct (cmd_alloc_dset_data_counts 2 3 (fresh_cmd sample_gen7 sample_p))
    as (ok & c' & H & _ & _ & Hw & _).
  - lia.
  - lia.
  - vm_compute. split; reflexivity.
  - exists ok, c'. split; [exact H | exact Hw].
Defined.

(** ** The base address of the surface states *)

Lemma reloc_added_lookup_new r c :
  0 <= reloc_used c < Z.of_nat (length (relocs c)) ->
  relocs (reloc_added r c) !! Z.to_nat (reloc_used c) = Some r.
Proof. intros H. unfold reloc_added. simpl. apply list_lookup_insert_eq. lia. Qed.

Lemma reloc_added_lookup_old r c i :
  0 <= reloc_used c -> 0 <= i -> i <> reloc_used c ->
  relocs (reloc_added r c) !! Z.to_nat i = relocs c !! Z.to_nat i.
Proof. intros H Hi Hn. unfold reloc_added. simpl. apply list_lookup_insert_ne. lia. Qed.

Lemma reloc_added_length r c :
  length (relocs (reloc_added r c)) = length (relocs c).
Proof. unfold reloc_added. simpl. apply length_insert. Qed.

Lemma land_page_offset x : 0 <= x -> Z.land x 0xfff = x mod 4096.
Proof. intros H. change 0xfff with (Z.ones 12). rewrite Z.land_ones by lia. reflexivity. Qed.

Lemma land_page_base x : 0 <= x -> Z.land x (Z.lnot 0xfff) = x - x mod 4096.
Proof.
  intros H. change 0xfff with (Z.ones 12).
  rewrite <- Z.ldiff_land, Z.ldiff_ones_r by lia.
  rewrite Z.shiftr_div_pow2, Z.shiftl_mul_pow2 by lia. change (2 ^ 12) with 4096.
  pose proof (Z.div_mod x 4096 ltac:(lia)). lia.
Qed.

(** [cmd_batch_state_base_address] in a command buffer that is in order:
    one packet and the relocations of the three base addresses. *)
Lemma cmd_batch_state_base_address_returns c :
  cmd_wf c -> 3 <= reloc_count c -> 0 <= w_used (w_batch c) < 2 ^ 31 ->
  (forall which, 0 <= w_sba_offset (writers c which) < 2 ^ 31) ->
  exists c',
    cmd_batch_state_base_address c = Ok (tt, c') /\
    cmd_wf c' /\
    w_surface c' = w_surface c /\
    batch_items c' =
      batch_items c ++ [(w_used (w_batch c), ITEM_PACKET PKT_STATE_BASE_ADDRESS)] /\
    3 <= reloc_used c' /\
    relocs c' !! Z.to_nat (reloc_used c' - 3) =
      Some (base_address_reloc (w_used (w_batch c)) 2 INTEL_CMD_WRITER_SURFACE
              (w_sba_offset (w_surface c))) /\
    relocs c' !! Z.to_nat (reloc_used c' - 2) =
      Some (base_address_reloc (w_used (w_batch c)) 3 INTEL_CMD_WRITER_STATE
              (w_sba_offset (w_state c))) /\
    relocs c' !! Z.to_nat (reloc_used c' - 1) =
      Some (base_address_reloc (w_used (w_batch c)) 5 INTEL_CMD_WRITER_INSTRUCTION
              (w_sba_offset (w_instruction c))).
Proof.
  intros Hwf Hc3 Hu Hsba. pose proof Hwf as (Hg & Hm & Hi & Hc).
  pose proof Hi as (Hiu & Hic & Hil).
  unfold cmd_batch_state_base_address. cbv zeta.
  rewrite bind_CMD_ASSERT, (gen_in_range c Hwf).
  set (c1 := batch_append 10 PKT_STATE_BASE_ADDRESS c).
  assert (Hwf1 : cmd_wf c1) by (apply cmd_wf_batch_append, Hwf).
  set (c2 := reloc_reserved 3 c1).
  destruct (reloc_reserved_room 3 c1) as (Hi2 & Hu2 & Hr2 & Hc2);
    [apply Hwf1 | simpl; lia |]. fold c2 in Hi2, Hu2, Hr2, Hc2.
  simpl in Hr2, Hc2.
  assert (Hwf2 : cmd_wf c2) by (apply cmd_wf_reloc_reserved; [exact Hwf1 | simpl; lia]).
  assert (Hl2 : Z.of_nat (length (relocs c2)) = reloc_count c).
  { destruct Hi2 as (_ & _ & Hl). rewrite Hl. exact Hc2. }
  set (r1 := base_address_reloc (w_used (w_batch c)) 2 INTEL_CMD_WRITER_SURFACE
               (w_sba_offset (w_surface c))).
  set (r2 := base_address_reloc (w_used (w_batch c)) 3 INTEL_CMD_WRITER_STATE
               (w_sba_offset (w_state c))).
  set (r3 := base_address_reloc (w_used (w_batch c)) 5 INTEL_CMD_WRITER_INSTRUCTION
               (w_sba_offset (w_instruction c))).
  set (c3 := reloc_added r1 c2).
  assert (Hu3 : reloc_used c3 = reloc_used c2 + 1) by (apply reloc_added_used; lia).
  assert (Hwf3 : cmd_wf c3) by (apply cmd_wf_reloc_added; [exact Hwf2 | lia]).
  assert (Hc3' : reloc_count c3 = reloc_count c) by (unfold c3; simpl; exact Hc2).
  set (c4 := reloc_added r2 c3).
  assert (Hu4 : reloc_used c4 = reloc_used c3 + 1) by (apply reloc_added_used; lia).
  assert (Hwf4 : cmd_wf c4) by (apply cmd_wf_reloc_added; [exact Hwf3 | lia]).
  assert (Hc4 : reloc_count c4 = reloc_count c) by (unfold c4; simpl; exact Hc3').
  set (c5 := reloc_added r3 c4).
  assert (Hu5 : reloc_used c5 = reloc_used c4 + 1) by (apply reloc_added_used; lia).
  exists c5.
  split.
  { rewrite (bind_m_eq _ _ _ _ _ (cmd_batch_pointer_eq 10 _ c Hm ltac:(lia))).
    fold c1. rewrite bind_get.
    rewrite (bind_m_eq _ _ _ _ _ (cmd_reserve_reloc_eq 3 c1 (proj1 (proj2 (proj2 Hwf1)))
               ltac:(simpl; lia))). fold c2.
    unfold cmd_batch_reloc_writer.
    rewrite !dword_offset by lia.
    change (writers c1 INTEL_CMD_WRITER_SURFACE) with (w_surface c).
    change (writers c1 INTEL_CMD_WRITER_STATE) with (w_state c).
    change (writers c1 INTEL_CMD_WRITER_INSTRUCTION) with (w_instruction c).
    pose proof (Hsba INTEL_CMD_WRITER_SURFACE) as H1.
    pose proof (Hsba INTEL_CMD_WRITER_STATE) as H2.
    pose proof (Hsba INTEL_CMD_WRITER_INSTRUCTION) as H3.
    simpl in H1, H2, H3.
    rewrite !u32_small by lia.
    rewrite (bind_m_eq _ _ _ _ _ (cmd_writer_reloc_eq _ _ _ _ _ c2 ltac:(lia))).
    fold r1. fold (base_address_reloc (w_used (w_batch c)) 2 INTEL_CMD_WRITER_SURFACE
               (w_sba_offset (w_surface c))). fold r1. fold c3.
    rewrite (bind_m_eq _ _ _ _ _ (cmd_writer_reloc_eq _ _ _ _ _ c3 ltac:(lia))).
    fold (base_address_reloc (w_used (w_batch c)) 3 INTEL_CMD_WRITER_STATE
               (w_sba_offset (w_state c))). fold r2. fold c4.
    apply cmd_writer_reloc_eq. lia. }
  split; [apply cmd_wf_reloc_added; [exact Hwf4 | lia]|].
  split.
  { unfold c5, c4, c3, c2, reloc_reserved.
    change (reloc_overflow c1 3) with (reloc_overflow c 3).
    destruct (reloc_overflow c 3); reflexivity. }
  split.
  { unfold c5, c4, c3, c2, reloc_reserved.
    change (reloc_overflow c1 3) with (reloc_overflow c 3).
    destruct (reloc_overflow c 3); reflexivity. }
  split; [lia|].
  assert (Hl3 : length (relocs c3) = length (relocs c2)) by apply reloc_added_length.
  assert (Hl4 : length (relocs c4) = length (relocs c2))
    by (unfold c4; rewrite reloc_added_length; exact Hl3).
  replace (reloc_used c5 - 3) with (reloc_used c2) by lia.
  replace (reloc_used c5 - 2) with (reloc_used c3) by lia.
  replace (reloc_used c5 - 1) with (reloc_used c4) by lia.
  split; [|split].
  - unfold c5. rewrite reloc_added_lookup_old by lia.
    unfold c4. rewrite reloc_added_lookup_old by lia.
    apply reloc_added_lookup_new. lia.
  - unfold c5. rewrite reloc_added_lookup_old by lia.
    apply reloc_added_lookup_new. lia.
  - apply reloc_added_lookup_new. lia.
Qed.

(** X17. [cmd_adjust_state_base_address] keeps the surface states of the
    next draw within 64KB of the base address of the surface buffer. When
    what is used past the base address and what the draw may write exceed
    64KB together, the base address moves to the start of the page that is
    in use and STATE_BASE_ADDRESS is written again, with a relocation to the
    new address; the function stops at its assertion when the draw would
    not fit there either. Otherwise nothing changes. *)
Theorem state_base_address_window c :
  cmd_wf c -> 3 <= reloc_count c -> 0 <= w_used (w_batch c) < 2 ^ 31 ->
  (forall which, 0 <= w_sba_offset (writers c which) < 2 ^ 31) ->
  w_sba_offset (w_surface c) <= w_used (w_surface c) < 2 ^ 31 ->
  0 <= max_surface_write c < 2 ^ 31 ->
  if surface_window c + max_surface_write c >? 64 * 1024 then
    if w_used (w_surface c) mod 4096 + max_surface_write c >? 64 * 1024 then
      cmd_adjust_state_base_address c = AssertFail
    else
      exists c',
        cmd_adjust_state_base_address c = Ok (tt, c') /\
        cmd_wf c' /\
        w_used (w_surface c') = w_used (w_surface c) /\
        w_sba_offset (w_surface c') mod 4096 = 0 /\
        0 <= surface_window c' < 4096 /\
        surface_window c' + max_surface_write c <= 64 * 1024 /\
        written c c' = [ITEM_PACKET PKT_STATE_BASE_ADDRESS] /\
        relocs c' !! Z.to_nat (reloc_used c' - 3) =
          Some (base_address_reloc (w_used (w_batch c)) 2 INTEL_CMD_WRITER_SURFACE
                  (w_sba_offset (w_surface c')))
  else cmd_adjust_state_base_address c = Ok (tt, c).
Proof.
  intros Hwf Hc3 Hu Hsba Hs Hmax.
  pose proof (Hsba INTEL_CMD_WRITER_SURFACE) as Hs0. simpl in Hs0.
  unfold cmd_adjust_state_base_address, surface_window. cbv zeta.
  rewrite bind_get. fold (max_surface_write c).
  change (writers c INTEL_CMD_WRITER_SURFACE) with (w_surface c).
  rewrite (u32_small (w_used (w_surface c) - w_sba_offset (w_surface c))) by lia.
  rewrite (u32_small (_ + max_surface_write c)) by lia.
  destruct (Z.gtb_spec (w_used (w_surface c) - w_sba_offset (w_surface c)
                        + max_surface_write c) (64 * 1024)) as [Hgt|Hle];
    [|reflexivity].
  rewrite bind_modify, bind_assert.
  rewrite land_page_offset, land_page_base by lia.
  pose proof (Z.mod_pos_bound (w_used (w_surface c)) 4096 ltac:(lia)) as Hmb.
  pose proof (Z.mod_le (w_used (w_surface c)) 4096 ltac:(lia) ltac:(lia)) as Hml.
  rewrite u32_small by lia.
  destruct (Z.gtb_spec (w_used (w_surface c) mod 4096 + max_surface_write c)
              (64 * 1024)) as [Hgt2|Hle2].
  - replace (_ <=? _) with false by (symmetry; apply Z.leb_gt; lia). reflexivity.
  - replace (_ <=? _) with true by (symmetry; apply Z.leb_le; lia).
    set (c0 := set_writer INTEL_CMD_WRITER_SURFACE _ c).
    destruct (cmd_batch_state_base_address_returns c0)
      as (c' & HR & Hwf' & Hsf & Hit & Hru & Hr1 & _);
      [exact Hwf | exact Hc3 | exact Hu | | ].
    { intros [| | |]; simpl; try apply (Hsba INTEL_CMD_WRITER_BATCH);
        try apply (Hsba INTEL_CMD_WRITER_STATE);
        try apply (Hsba INTEL_CMD_WRITER_INSTRUCTION). lia. }
    exists c'. split; [exact HR|]. split; [exact Hwf'|].
    rewrite Hsf. simpl.
    split; [reflexivity|].
    split.
    { pose proof (Z.div_mod (w_used (w_surface c)) 4096 ltac:(lia)) as Hd.
      replace (w_used (w_surface c) - w_used (w_surface c) mod 4096)
        with (w_used (w_surface c) / 4096 * 4096) by lia.
      apply Z_mod_mult. }
    split; [lia|]. split; [lia|].
    split; [rewrite (written_app c c' _ Hit); reflexivity|].
    exact Hr1.
Qed.

Lemma state_base_address_window_witness :
  let c := set_writer INTEL_CMD_WRITER_SURFACE (mk_writer 131072 70000 0 [])
             (fresh_cmd sample_gen7 sample_p) in
  exists c',
    cmd_adjust_state_base_address c = Ok (tt, c') /\
    w_sba_offset (w_surface c') mod 4096 = 0 /\
    written c c' = [ITEM_PACKET PKT_STATE_BASE_ADDRESS].
Proof.
  intros c.
  pose proof (state_base_address_window c) as H.
  destruct H as (c' & H1 & _ & _ & H2 & _ & _ & H3 & _).
  - vm_compute. repeat split; discriminate.
  - vm_compute. discriminate.
  - vm_compute. split; [discriminate | reflexivity].
  - intros [| | |]; vm_compute; split; (discriminate || reflexivity).
  - vm_compute. split; [discriminate | reflexivity].
  - vm_compute. split; [discriminate | reflexivity].
  - exists c'. split; [exact H1 | split; [exact H2 | exact H3]].
Defined.

(** ** From access masks to flushes *)

Lemma has_or_all l m : forall z,
  has (fold_left Z.lor l z) m = true <-> has z m = true \/ some_has l m.
Proof.
  unfold some_has. induction l as [|x l IH]; intros z; simpl.
  - rewrite Exists_nil. tauto.
  - rewrite IH, Exists_cons. split.
    + intros [H|H]; [apply has_lor_inv in H|]; tauto.
    + intros [H|[H|H]]; [left; apply has_lor_l, H | left; apply has_lor_r, H | tauto].
Qed.

Lemma has_0 m : has 0 m = false.
Proof. reflexivity. Qed.

Lemma mem_barriers_loop_eq bs :
  Forall (fun b => mb_sType b = VK_STRUCTURE_TYPE_MEMORY_BARRIER) bs ->
  forall a c,
    mem_barriers_loop bs a c =
      Ok (mk_acc (acc_flush_flags a)
            (fold_left Z.lor (map mb_dstAccessMask bs) (acc_input_mask a))
            (fold_left Z.lor (map mb_srcAccessMask bs) (acc_output_mask a)), c).
Proof.
  induction 1 as [|b bs Hb _ IH]; intros a c; simpl.
  - destruct a; reflexivity.
  - rewrite bind_assert, Hb, IH. reflexivity.
Qed.

Lemma buf_barriers_loop_eq bs :
  Forall (fun b => bb_sType b = VK_STRUCTURE_TYPE_BUFFER_MEMORY_BARRIER) bs ->
  forall a c,
    buf_barriers_loop bs a c =
      Ok (mk_acc (acc_flush_flags a)
            (fold_left Z.lor (map bb_dstAccessMask bs) (acc_input_mask a))
            (fold_left Z.lor (map bb_srcAccessMask bs) (acc_output_mask a)), c).
Proof.
  induction 1 as [|b bs Hb _ IH]; intros a c; simpl.
  - destruct a; reflexivity.
  - rewrite bind_assert, Hb, IH. reflexivity.
Qed.

(** The bits of the flag word of a barrier that waits with a CS stall, from
    its access masks. *)
Lemma barrier_flush_flags_bits input_mask output_mask :
  let f := flush_word (barrier_flush_flags
                         (mk_acc GEN6_PIPE_CONTROL_CS_STALL input_mask output_mask)) in
  has f GEN6_PIPE_CONTROL_CS_STALL = true /\
  has f GEN7_PIPE_CONTROL_DC_FLUSH = has output_mask VK_ACCESS_SHADER_WRITE_BIT /\
  has f GEN6_PIPE_CONTROL_RENDER_CACHE_FLUSH =
    has output_mask VK_ACCESS_COLOR_ATTACHMENT_WRITE_BIT /\
  has f GEN6_PIPE_CONTROL_DEPTH_CACHE_FLUSH =
    has output_mask VK_ACCESS_DEPTH_STENCIL_ATTACHMENT_WRITE_BIT /\
  has f GEN6_PIPE_CONTROL_TEXTURE_CACHE_INVALIDATE =
    has input_mask (Z.lor VK_ACCESS_SHADER_READ_BIT VK_ACCESS_UNIFORM_READ_BIT) /\
  has f GEN6_PIPE_CONTROL_CONSTANT_CACHE_INVALIDATE =
    has input_mask VK_ACCESS_UNIFORM_READ_BIT /\
  has f GEN6_PIPE_CONTROL_VF_CACHE_INVALIDATE =
    has input_mask VK_ACCESS_VERTEX_ATTRIBUTE_READ_BIT.
Proof.
  unfold barrier_flush_flags. cbv zeta. simpl acc_flush_flags.
  simpl acc_input_mask. simpl acc_output_mask.
  destruct (has output_mask VK_ACCESS_SHADER_WRITE_BIT),
    (has output_mask VK_ACCESS_COLOR_ATTACHMENT_WRITE_BIT),
    (has output_mask VK_ACCESS_DEPTH_STENCIL_ATTACHMENT_WRITE_BIT),
    (has input_mask (Z.lor VK_ACCESS_SHADER_READ_BIT VK_ACCESS_UNIFORM_READ_BIT)),
    (has input_mask VK_ACCESS_UNIFORM_READ_BIT),
    (has input_mask VK_ACCESS_VERTEX_ATTRIBUTE_READ_BIT);
    vm_compute; repeat split.
Qed.

Lemma cmd_batch_flush_last f c :
  cmd_wf c -> draw_count (bind c) <> 0 -> flush_flags_ok f -> f <> 0 ->
  exists c' before,
    cmd_batch_flush f c = Ok (tt, c') /\ cmd_wf c' /\
    written c c' = before ++ [pipe_control (flush_word f)].
Proof.
  intros Hwf Hd [H1 H2] Hf.
  rewrite cmd_batch_flush_eq, H1, H2 by assumption. simpl.
  eexists.
  exists (if has f GEN6_PIPE_CONTROL_RENDER_CACHE_FLUSH then wa_packets c else []).
  split; [reflexivity|].
  destruct (has f GEN6_PIPE_CONTROL_RENDER_CACHE_FLUSH).
  - split; [wf_auto|]. written_auto.
  - split; [wf_auto|]. written_auto.
Qed.

(** X18. After a draw, a [vkCmdWaitEvents] with memory and buffer barriers,
    and a [vkCmdPipelineBarrier] with them and a stage that is not the host,
    end in the same PIPE_CONTROL. It stalls the command streamer, and its
    flushes are those the access masks of the barriers ask for, whatever
    their order and number: the data cache for a shader write, the render
    cache for a colour attachment write and the depth cache for a depth
    attachment write among the source masks; the texture cache for a shader
    or uniform read, the constant cache for a uniform read and the vertex
    fetch cache for a vertex attribute read among the destination masks. *)
Theorem barrier_access_flushes cmd_meta_ds_op events srcStageMask dstStageMask
    dependencyFlags mbs bbs c :
  cmd_wf c -> draw_count (bind c) <> 0 ->
  Forall (fun b => mb_sType b = VK_STRUCTURE_TYPE_MEMORY_BARRIER) mbs ->
  Forall (fun b => bb_sType b = VK_STRUCTURE_TYPE_BUFFER_MEMORY_BARRIER) bbs ->
  exists c' before dw1,
    vkCmdWaitEvents cmd_meta_ds_op events srcStageMask dstStageMask mbs bbs [] c
      = Ok (tt, c') /\
    (has srcStageMask (Z.lnot VK_PIPELINE_STAGE_HOST_BIT) ||
     has dstStageMask (Z.lnot VK_PIPELINE_STAGE_HOST_BIT) = true ->
     vkCmdPipelineBarrier cmd_meta_ds_op srcStageMask dstStageMask dependencyFlags
       mbs bbs [] c = Ok (tt, c')) /\
    written c c' = before ++ [pipe_control dw1] /\
    has dw1 GEN6_PIPE_CONTROL_CS_STALL = true /\
    (has dw1 GEN7_PIPE_CONTROL_DC_FLUSH = true <->
     some_has (src_access mbs bbs) VK_ACCESS_SHADER_WRITE_BIT) /\
    (has dw1 GEN6_PIPE_CONTROL_RENDER_CACHE_FLUSH = true <->
     some_has (src_access mbs bbs) VK_ACCESS_COLOR_ATTACHMENT_WRITE_BIT) /\
    (has dw1 GEN6_PIPE_CONTROL_DEPTH_CACHE_FLUSH = true <->
     some_has (src_access mbs bbs) VK_ACCESS_DEPTH_STENCIL_ATTACHMENT_WRITE_BIT) /\
    (has dw1 GEN6_PIPE_CONTROL_TEXTURE_CACHE_INVALIDATE = true <->
     some_has (dst_access mbs bbs)
       (Z.lor VK_ACCESS_SHADER_READ_BIT VK_ACCESS_UNIFORM_READ_BIT)) /\
    (has dw1 GEN6_PIPE_CONTROL_CONSTANT_CACHE_INVALIDATE = true <->
     some_has (dst_access mbs bbs) VK_ACCESS_UNIFORM_READ_BIT) /\
    (has dw1 GEN6_PIPE_CONTROL_VF_CACHE_INVALIDATE = true <->
     some_has (dst_access mbs bbs) VK_ACCESS_VERTEX_ATTRIBUTE_READ_BIT).
Proof.
  intros Hwf Hd Hm Hb.
  set (input_mask := fold_left Z.lor (dst_access mbs bbs) 0).
  set (output_mask := fold_left Z.lor (src_access mbs bbs) 0).
  set (a := mk_acc GEN6_PIPE_CONTROL_CS_STALL input_mask output_mask).
  assert (Hloops : barrier_loops cmd_meta_ds_op GEN6_PIPE_CONTROL_CS_STALL mbs bbs [] c
                   = Ok (a, c)).
  { unfold barrier_loops.
    rewrite (bind_m_eq _ _ _ _ _ (mem_barriers_loop_eq mbs Hm _ c)).
    rewrite (bind_m_eq _ _ _ _ _ (buf_barriers_loop_eq bbs Hb _ c)).
    simpl. unfold ret, a, input_mask, output_mask, dst_access, src_access.
    rewrite !fold_left_app. reflexivity. }
  destruct (barrier_flush_flags_bits input_mask output_mask)
    as (B0 & B1 & B2 & B3 & B4 & B5 & B6). fold a in B0, B1, B2, B3, B4, B5, B6.
  destruct (cmd_batch_flush_last (barrier_flush_flags a) c Hwf Hd)
    as (c' & before & HR & _ & HW).
  { apply barrier_flush_flags_ok. split; reflexivity. }
  { intros E. unfold flush_word in B0. rewrite E in B0. discriminate B0. }
  assert (Hcall : cmd_memory_barriers cmd_meta_ds_op GEN6_PIPE_CONTROL_CS_STALL
                    mbs bbs [] c = Ok (tt, c')).
  { unfold cmd_memory_barriers. rewrite (bind_m_eq _ _ _ _ _ Hloops). exact HR. }
  exists c', before, (flush_word (barrier_flush_flags a)).
  split; [exact Hcall|].
  split; [intros Hs; unfold vkCmdPipelineBarrier; rewrite Hs; exact Hcall|].
  split; [exact HW|]. split; [exact B0|].
  rewrite B1, B2, B3, B4, B5, B6. unfold input_mask, output_mask.
  rewrite !has_or_all, !has_0.
  repeat split; intros H; try (destruct H as [H|H]; [discriminate H | exact H]);
    right; exact H.
Qed.

Lemma barrier_access_flushes_witness :
  let c := drawn_cmd sample_gen7 sample_p 1 in
  let mb := mk_mem_barrier VK_STRUCTURE_TYPE_MEMORY_BARRIER
              VK_ACCESS_SHADER_WRITE_BIT VK_ACCESS_UNIFORM_READ_BIT in
  exists c' before dw1,
    vkCmdWaitEvents (fun _ _ _ => ret tt) [] 0 0 [mb] [] [] c = Ok (tt, c') /\
    written c c' = before ++ [pipe_control dw1] /\
    has dw1 GEN7_PIPE_CONTROL_DC_FLUSH = true.
Proof.
  intros c mb.
  destruct (barrier_access_flushes (fun _ _ _ => ret tt) [] 0 0 0 [mb] [] c)
    as (c' & before & dw1 & H1 & _ & H2 & _ & H3 & _).
  - vm_compute. repeat split; discriminate.
  - vm_compute. discriminate.
  - repeat constructor.
  - constructor.
  - exists c', before, dw1. split; [exact H1|]. split; [exact H2|].
    apply H3. left. reflexivity.
Defined.

(** ** A shader cache that cannot grow *)

Lemma cmd_instruction_write_result size kernel c off c0 :
  cmd_instruction_write size kernel c = Ok (off, c0) -> result c0 = result c.
Proof.
  unfold cmd_instruction_write, cmd_writer_reserve, cmd_writer_grow, writer_commit,
    bind_m, get, assert, modify, ret. simpl.
  destruct (_ >? _); simpl; [destruct (_ <=? _); simpl|];
    intros [= <- <-]; reflexivity.
Qed.

(** X19. With its cache full and no memory to grow it, [emit_shader] still
    writes a shader that is not in the cache and returns its offset, 64-byte
    aligned and past what the instruction buffer held. It records no error
    and leaves the cache as it is, so the shader is not found there
    afterwards either. *)
Theorem emit_shader_cache_full sh c :
  cached c (sh_addr sh) = None ->
  sc_count (shader_cache (bind c)) <= sc_used (shader_cache (bind c)) ->
  intel_alloc_ok (dev c)
    (sizeof_shader_cache_entry * u32 (sc_count (shader_cache (bind c)) + 16)) = false ->
  exists off c',
    emit_shader sh c = Ok (u32 off, c') /\
    off mod 64 = 0 /\ w_used (w_instruction c) <= off /\
    w_items (w_instruction c') =
      w_items (w_instruction c) ++
      [(off, ITEM_CODE (take (Z.to_nat (codeSize sh)) (pCode sh)))] /\
    result c' = result c /\
    shader_cache (bind c') = shader_cache (bind c) /\
    cached c' (sh_addr sh) = None.
Proof.
  intros Hmiss Hfull Halloc.
  destruct (cmd_instruction_write_returns (codeSize sh) (pCode sh) c)
    as (off & c1 & Hw & Hm & Hb & _ & _ & Hi).
  destruct (cmd_instruction_write_bind _ _ _ _ _ Hw) as [Hbind Hdev].
  pose proof (cmd_instruction_write_result _ _ _ _ _ Hw) as Hres.
  exists off. unfold emit_shader. rewrite bind_get.
  unfold cached in Hmiss. rewrite Hmiss.
  rewrite (bind_m_eq _ _ _ _ _ Hw). rewrite bind_modify.
  replace (sc_used (shader_cache (bind c)) >=? sc_count (shader_cache (bind c)))
    with true by (symmetry; apply Z.geb_le; lia).
  rewrite Halloc.
  replace (sc_used (shader_cache (bind c)) <? sc_count (shader_cache (bind c)))
    with false by (symmetry; apply Z.ltb_ge; lia).
  eexists. split; [reflexivity|].
  split; [exact Hm|]. split; [lia|]. split; [exact Hi|]. split; [exact Hres|].
  split; [reflexivity|]. unfold cached. simpl. exact Hmiss.
Qed.

Lemma emit_shader_cache_full_witness :
  let c := fresh_cmd (mk_dev INTEL_GEN_7 false (desc_region sample_gen7)
                        (dev_null_view sample_gen7) (dev_meta_shader sample_gen7)
                        (fun _ => false)) sample_p in
  exists off c',
    emit_shader (vs sample_p) c = Ok (u32 off, c') /\
    cached c' (sh_addr (vs sample_p)) = None.
Proof.
  intros c.
  destruct (emit_shader_cache_full (vs sample_p) c) as (off & c' & H & _ & _ & _ & _ & _ & H').
  - vm_compute. reflexivity.
  - vm_compute. discriminate.
  - reflexivity.
  - exists off, c'. split; [exact H | exact H'].
Defined.

(** ** Surface states *)

Lemma pow2_mod_32 k : 0 <= k -> (2 ^ k mod 32 =? 0) = (5 <=? k).
Proof.
  intros Hk. destruct (Z.leb_spec 5 k) as [H|H].
  - replace k with (5 + (k - 5)) by lia. rewrite Z.pow_add_r by lia.
    change (2 ^ 5) with 32. rewrite Z.mul_comm, Z_mod_mult. reflexivity.
  - assert (E : k = 0 \/ k = 1 \/ k = 2 \/ k = 3 \/ k = 4) by lia.
    destruct E as [-> | [-> | [-> | [-> | ->]]]]; reflexivity.
Qed.

Lemma mod_pow2_mod_32 x k : 5 <= k -> x mod 2 ^ k = 0 -> x mod 32 = 0.
Proof.
  intros Hk Hx. pose proof (pow2_pos k ltac:(lia)) as Hp.
  pose proof (Z.div_mod x (2 ^ k) ltac:(lia)) as Hd. rewrite Hx in Hd.
  replace k with (5 + (k - 5)) in Hd by lia. rewrite Z.pow_add_r in Hd by lia.
  change (2 ^ 5) with 32 in Hd.
  replace x with (2 ^ (k - 5) * (x / (32 * 2 ^ (k - 5))) * 32) by lia.
  apply Z_mod_mult.
Qed.

(** X20. [cmd_surface_write] takes surface states and binding tables only,
    and alignments that are multiples of 32 bytes: for another item or a
    smaller alignment it stops at an assertion. Otherwise it returns the
    first aligned offset at or after what the surface writer has used, the
    state is recorded there and the writer has used up to its end, within
    its size. *)
Theorem cmd_surface_write_aligned it k len dw c :
  0 <= k <= 30 -> 0 <= len < 2 ^ 29 -> 0 <= w_used (w_surface c) < 2 ^ 31 ->
  if match it with
     | INTEL_CMD_ITEM_SURFACE | INTEL_CMD_ITEM_BINDING_TABLE => 5 <=? k
     | _ => false
     end
  then
    exists off c',
      cmd_surface_write it (2 ^ k) len dw c = Ok (off, c') /\
      off mod 2 ^ k = 0 /\ off mod 32 = 0 /\
      w_used (w_surface c) <= off < w_used (w_surface c) + 2 ^ k /\
      w_used (w_surface c') = off + 4 * len /\
      w_used (w_surface c') <= w_size (w_surface c') /\
      w_items (w_surface c') =
        w_items (w_surface c) ++ [(off, ITEM_STATE it (take (Z.to_nat len) dw))]
  else cmd_surface_write it (2 ^ k) len dw c = AssertFail.
Proof.
  intros Hk Hl Hu.
  assert (Hsz : u32 (Z.shiftl len 2) = 4 * len).
  { rewrite Z.shiftl_mul_pow2 by lia. change (2 ^ 2) with 4.
    rewrite u32_small by lia. lia. }
  destruct (cmd_writer_reserve_returns INTEL_CMD_WRITER_SURFACE k (4 * len) c)
    as (off & c1 & Hr & Hm & Hb & Hs & Hu1 & Hi); [lia|].
  simpl in Hb, Hs, Hu1, Hi.
  assert (Hk30 : 2 ^ k <= 2 ^ 30) by (apply Z.pow_le_mono_r; lia).
  unfold cmd_surface_write. cbv zeta. rewrite Hsz.
  rewrite (bind_m_eq _ _ _ _ _ Hr). rewrite bind_assert.
  rewrite (u32_small off) by lia.
  destruct it; simpl; try reflexivity.
  - rewrite bind_assert, pow2_mod_32 by lia.
    destruct (Z.leb_spec 5 k) as [H5|H5]; [|reflexivity].
    unfold writer_commit. gnorm. eexists _, _. split; [reflexivity|]. simpl.
    split; [exact Hm|]. split; [exact (mod_pow2_mod_32 _ _ H5 Hm)|].
    split; [exact Hb|]. split; [reflexivity|]. split; [lia|].
    rewrite Hi. reflexivity.
  - rewrite bind_assert, pow2_mod_32 by lia.
    destruct (Z.leb_spec 5 k) as [H5|H5]; [|reflexivity].
    unfold writer_commit. gnorm. eexists _, _. split; [reflexivity|]. simpl.
    split; [exact Hm|]. split; [exact (mod_pow2_mod_32 _ _ H5 Hm)|].
    split; [exact Hb|]. split; [reflexivity|]. split; [lia|].
    rewrite Hi. reflexivity.
Qed.

Lemma cmd_surface_write_aligned_witness :
  exists off c',
    cmd_surface_write INTEL_CMD_ITEM_BINDING_TABLE (2 ^ 5) 3 [11; 12; 13]
      (fresh_cmd sample_gen7 sample_p) = Ok (off, c') /\
    off mod 32 = 0 /\
    w_items (w_surface c') =
      [(off, ITEM_STATE INTEL_CMD_ITEM_BINDING_TABLE [11; 12; 13])].
Proof.
  destruct (cmd_surface_write_aligned INTEL_CMD_ITEM_BINDING_TABLE 5 3 [11; 12; 13]
              (fresh_cmd sample_gen7 sample_p))
    as (off & c' & H & _ & H32 & _ & _ & _ & Hi).
  - lia.
  - lia.
  - vm_compute. split; [discriminate | reflexivity].
  - exists off, c'. split; [exact H|]. split; [exact H32 | exact Hi].
Defined.

(** ** Post-sync writes *)

Lemma has_lor_orb a b m : has (Z.lor a b) m = has a m || has b m.
Proof.
  destruct (has a m) eqn:Ea; [apply has_lor_l, Ea|].
  destruct (has b m) eqn:Eb; [apply has_lor_r, Eb | apply has_lor_false; assumption].
Qed.

Lemma rules_write_imm gen flags :
  pipe_control_rules gen (Z.lor GEN6_PIPE_CONTROL_WRITE_IMM flags) =
  negb (has flags GEN6_PIPE_CONTROL_DEPTH_STALL &&
        has flags (Z.lor GEN6_PIPE_CONTROL_RENDER_CACHE_FLUSH
                         GEN6_PIPE_CONTROL_DEPTH_CACHE_FLUSH)).
Proof.
  unfold pipe_control_rules.
  assert (Hc : has (Z.lor GEN6_PIPE_CONTROL_WRITE_IMM flags) (cs_stall_companions gen)
               = true).
  { apply has_lor_l. unfold cs_stall_companions.
    destruct (gen =? INTEL_GEN_6); reflexivity. }
  rewrite Hc, orb_true_r. rewrite !has_lor_orb.
  change (has GEN6_PIPE_CONTROL_WRITE_IMM GEN6_PIPE_CONTROL_DEPTH_STALL) with false.
  change (has GEN6_PIPE_CONTROL_WRITE_IMM
            (Z.lor GEN6_PIPE_CONTROL_RENDER_CACHE_FLUSH
                   GEN6_PIPE_CONTROL_DEPTH_CACHE_FLUSH)) with false.
  simpl. destruct (has flags GEN6_PIPE_CONTROL_DEPTH_STALL), (has flags _); reflexivity.
Qed.

(** X21. The post-sync writes of queries and events. With an offset that is
    a multiple of 8 (as a 32-bit number) [cmd_batch_depth_count] writes the
    depth-stall-write workaround, if it is due, and then a PIPE_CONTROL that
    stalls the depth pipe and writes the depth count; [cmd_batch_timestamp]
    writes one PIPE_CONTROL and no workaround; [cmd_batch_immediate] writes
    one PIPE_CONTROL with the value and the flags of its caller, a CS stall
    among them needing no companion, and stops at an assertion only for a
    depth stall together with a render or depth cache flush. With any other
    offset the three stop at an assertion. *)
Theorem post_sync_writes bo offset pipe_control_flags val c :
  cmd_wf c ->
  (if u32 offset mod 8 =? 0 then
     exists c',
       cmd_batch_depth_count bo offset c = Ok (tt, c') /\ cmd_wf c' /\
       written c c' =
         wa_packets c ++
         [pipe_control (Z.lor GEN6_PIPE_CONTROL_DEPTH_STALL
                              GEN6_PIPE_CONTROL_WRITE_PS_DEPTH_COUNT)]
   else cmd_batch_depth_count bo offset c = AssertFail) /\
  (if u32 offset mod 8 =? 0 then
     exists c',
       cmd_batch_timestamp bo offset c = Ok (tt, c') /\ cmd_wf c' /\
       written c c' = [pipe_control GEN6_PIPE_CONTROL_WRITE_TIMESTAMP]
   else cmd_batch_timestamp bo offset c = AssertFail) /\
  (if (u32 offset mod 8 =? 0) &&
      negb (has pipe_control_flags GEN6_PIPE_CONTROL_DEPTH_STALL &&
            has pipe_control_flags (Z.lor GEN6_PIPE_CONTROL_RENDER_CACHE_FLUSH
                                          GEN6_PIPE_CONTROL_DEPTH_CACHE_FLUSH))
   then
     exists c',
       cmd_batch_immediate pipe_control_flags bo offset val c = Ok (tt, c') /\
       cmd_wf c' /\
       written c c' =
         [ITEM_PACKET (PKT_PIPE_CONTROL
                         (Z.lor GEN6_PIPE_CONTROL_WRITE_IMM pipe_control_flags) val)]
   else cmd_batch_immediate pipe_control_flags bo offset val c = AssertFail).
Proof.
  intros Hwf. split; [|split].
  - unfold cmd_batch_depth_count, bind_m.
    rewrite cmd_wa_gen6_pre_depth_stall_write_eq by exact Hwf.
    rewrite gen6_PIPE_CONTROL_eq by wf_auto.
    replace (pipe_control_rules _ _) with true
      by (unfold pipe_control_rules; reflexivity).
    rewrite andb_true_r. destruct (u32 offset mod 8 =? 0); [|reflexivity].
    eexists. split; [reflexivity|]. split; [wf_auto|]. written_auto.
  - unfold cmd_batch_timestamp. rewrite gen6_PIPE_CONTROL_eq by exact Hwf.
    replace (pipe_control_rules _ _) with true
      by (unfold pipe_control_rules; reflexivity).
    rewrite andb_true_r. destruct (u32 offset mod 8 =? 0); [|reflexivity].
    eexists. split; [reflexivity|]. split; [wf_auto|].
    apply written_pipe_control_added.
  - unfold cmd_batch_immediate. rewrite gen6_PIPE_CONTROL_eq by exact Hwf.
    rewrite rules_write_imm.
    destruct (_ && _); [|reflexivity].
    eexists. split; [reflexivity|]. split; [wf_auto|].
    apply written_pipe_control_added.
Qed.

Lemma post_sync_writes_witness :
  let c := drawn_cmd sample_gen7 sample_p 1 in
  (exists c',
     cmd_batch_depth_count 5 16 c = Ok (tt, c') /\ cmd_wf c' /\
     written c c' =
       wa_packets c ++
       [pipe_control (Z.lor GEN6_PIPE_CONTROL_DEPTH_STALL
                            GEN6_PIPE_CONTROL_WRITE_PS_DEPTH_COUNT)]) /\
  cmd_batch_timestamp 5 12 c = AssertFail.
Proof.
  intros c.
  assert (Hwf : cmd_wf c) by (vm_compute; repeat split; discriminate).
  split.
  - apply (post_sync_writes 5 16 0 0 c Hwf).
  - apply (post_sync_writes 5 12 0 0 c Hwf).
Defined.

(** ** Offsets into the descriptor region *)

Lemma u32_add_sub a b : 0 <= a < 2 ^ 32 -> u32 (u32 (a + b) - b) = a.
Proof.
  intros Ha. unfold u32. rewrite Zminus_mod_idemp_l.
  replace (a + b - b) with a by lia. apply Z.mod_small. exact Ha.
Qed.

Lemma u32_sub_add a b : 0 <= a < 2 ^ 32 -> u32 (u32 (a - b) + b) = a.
Proof.
  intros Ha. unfold u32. rewrite Zplus_mod_idemp_l.
  replace (a - b + b) with a by lia. apply Z.mod_small. exact Ha.
Qed.

Lemma u32_add_wraps a b :
  0 <= a < 2 ^ 32 -> 0 <= b < 2 ^ 32 -> (a <= u32 (a + b) <-> a + b < 2 ^ 32).
Proof.
  intros Ha Hb. unfold u32. split.
  - intros H. destruct (Z_lt_ge_dec (a + b) (2 ^ 32)) as [L|G]; [exact L|].
    replace (a + b) with (a + b - 2 ^ 32 + 1 * 2 ^ 32) in H by lia.
    rewrite Z_mod_plus_full, Z.mod_small in H by lia. lia.
  - intros H. rewrite Z.mod_small by lia. lia.
Qed.

(** X22. The offsets into the descriptor region are pairs of 32-bit numbers
    that wrap around. Subtracting what was added, and adding what was
    subtracted, gives back the offset, wrapped or not; a multiply-add by 1 is
    an addition; and an offset is within the sum of itself and a size exactly
    when neither the surface nor the sampler offset has wrapped. *)
Theorem desc_offset_arithmetic a b :
  desc_offset_wf a -> desc_offset_wf b ->
  intel_desc_offset_sub (intel_desc_offset_add a b) b = a /\
  intel_desc_offset_add (intel_desc_offset_sub a b) b = a /\
  intel_desc_offset_mad a b 1 = intel_desc_offset_add a b /\
  desc_offset_wf (intel_desc_offset_add a b) /\
  (intel_desc_offset_within a (intel_desc_offset_add a b) = true <->
   do_surface a + do_surface b < 2 ^ 32 /\ do_sampler a + do_sampler b < 2 ^ 32).
Proof.
  intros [Ha1 Ha2] [Hb1 Hb2]. destruct a as [a1 a2], b as [b1 b2]. simpl in *.
  unfold intel_desc_offset_sub, intel_desc_offset_add, intel_desc_offset_mad,
    intel_desc_offset_within, desc_offset_wf. simpl.
  split; [rewrite !u32_add_sub by assumption; reflexivity|].
  split; [rewrite !u32_sub_add by assumption; reflexivity|].
  split; [rewrite !Z.mul_1_r; reflexivity|].
  split; [split; apply u32_range|].
  rewrite andb_true_iff, !Z.leb_le.
  rewrite (u32_add_wraps a1 b1), (u32_add_wraps a2 b2) by assumption. reflexivity.
Qed.

Lemma desc_offset_arithmetic_witness :
  let a := mk_desc_offset (2 ^ 32 - 16) 64 in
  let b := mk_desc_offset 32 8 in
  intel_desc_offset_add a b = mk_desc_offset 16 72 /\
  intel_desc_offset_sub (intel_desc_offset_add a b) b = a /\
  intel_desc_offset_within a (intel_desc_offset_add a b) = false.
Proof.
  intros a b.
  destruct (desc_offset_arithmetic a b) as (H1 & _ & _ & _ & H2).
  - vm_compute. repeat split; discriminate || reflexivity.
  - vm_compute. repeat split; discriminate || reflexivity.
  - split; [reflexivity|]. split; [exact H1|].
    apply not_true_is_false. intros E.
    apply H2 in E. destruct E as [E _]. vm_compute in E. discriminate E.
Defined.
